(** * image2dat: a shallow embedding of [index.js]

    The program converts a [docker save] bundle into a content-addressed
    blob directory plus a manifest document.  This development embeds the
    functions of [index.js] (name normalisation, config relocation, layer
    hashing, manifest assembly and the driver) together with the parts of
    the JavaScript runtime they rely on (string primitives, the coercion of
    a string to an index, JSON serialisation, SHA-256, promises and stream
    events), and states the properties of the specification over them. *)

From Stdlib Require Import ZArith Lia Bool Ascii String List DecimalString.
From Stdlib.Strings Require Import Byte.
From stdpp Require Import gmap strings list fin_maps.

Set Warnings "-register-all".
Local Open Scope string_scope.
Local Open Scope Z_scope.
Local Open Scope list_scope.

(** ** JavaScript values, errors and completions *)

Inductive JsError : Type :=
| ReferenceError (ident : string)              (* "<ident> is not defined" *)
| TypeError (msg : string)
| SystemError (code syscall path : string).    (* e.g. ENOENT from fs *)

(** The result of evaluating a function body, and the settled state of a
    promise: a value or a thrown error. *)
Inductive Completion (A : Type) : Type :=
| Normal (v : A)
| Throw (e : JsError).
Arguments Normal {A} v.
Arguments Throw {A} e.

#[global] Instance completion_ret : MRet Completion := fun A v => Normal v.
#[global] Instance completion_bind : MBind Completion := fun A B k c =>
  match c with
  | Normal v => k v
  | Throw e => Throw e
  end.

(** Values that the program manipulates.  Numbers that occur as values are
    integers (a schema version, an index, a size); [VNaN] is the only other
    number an expression of the program can produce.  An object is the
    list of its own properties in insertion order.  A promise is kept with
    its settled state. *)
Inductive JsVal : Type :=
| VUndef
| VNaN
| VNum (n : Z)
| VStr (s : string)
| VArr (xs : list JsVal)
| VObj (props : list (string * JsVal))
| VPromise (settled : Completion JsVal).

(** The result of [ToIntegerOrInfinity]. *)
Inductive IntInf : Type := NegInf | Int (z : Z) | PosInf.

(** ** Strings

    A string is the sequence of its code units, here those below 256;
    indices and lengths are integers, as the program computes with -1. *)

Module JsString.

Definition chars (s : string) : list ascii := list_ascii_of_string s.
Definition of_chars (l : list ascii) : string := string_of_list_ascii l.

(** [s.length] *)
Definition length (s : string) : Z := Z.of_nat (String.length s).

(** The code units of [s] from index [from] up to, not including, [to]. *)
Definition slice (s : string) (from to : Z) : string :=
  of_chars (take (Z.to_nat (to - from)) (drop (Z.to_nat from) (chars s))).

Definition clamp (lo hi : Z) (x : IntInf) : Z :=
  match x with
  | NegInf => lo
  | Int z => Z.max lo (Z.min z hi)
  | PosInf => hi
  end.

(** [s.substring(start, end)]: both ends are clamped to [0, length] and
    swapped when out of order. *)
Definition substring (s : string) (start end_ : IntInf) : string :=
  let len := length s in
  let finalStart := clamp 0 len start in
  let finalEnd := clamp 0 len end_ in
  slice s (Z.min finalStart finalEnd) (Z.max finalStart finalEnd).

(** [s.substr(start, length)] (ECMA-262, B.2.2.1); [None] is an omitted
    second argument. *)
Definition substr (s : string) (start : IntInf) (length_ : option IntInf) : string :=
  let size := length s in
  let intStart :=
    match start with
    | NegInf => 0
    | Int z => if z <? 0 then Z.max (size + z) 0 else Z.min z size
    | PosInf => size
    end in
  let intLength :=
    match length_ with
    | None => size
    | Some l => clamp 0 size l
    end in
  let intEnd := Z.min (intStart + intLength) size in
  slice s intStart intEnd.

Fixpoint indexOf_from (pat s : string) (i : nat) : option nat :=
  if String.prefix pat s then Some i
  else match s with
       | EmptyString => None
       | String _ s' => indexOf_from pat s' (S i)
       end.

(** [s.indexOf(pat)]: the first index at which [pat] occurs, or -1. *)
Definition indexOf (s pat : string) : Z :=
  match indexOf_from pat s 0 with
  | Some i => Z.of_nat i
  | None => -1
  end.

Fixpoint lastIndexOf_from (pat s : string) (i : nat) (found : option nat) : option nat :=
  match s with
  | EmptyString => if String.prefix pat EmptyString then Some i else found
  | String _ s' =>
      lastIndexOf_from pat s' (S i) (if String.prefix pat s then Some i else found)
  end.

(** [s.lastIndexOf(pat)]: the last index at which [pat] occurs, or -1. *)
Definition lastIndexOf (s pat : string) : Z :=
  match lastIndexOf_from pat s 0 None with
  | Some i => Z.of_nat i
  | None => -1
  end.

(** A one-character pattern occurs in [s]. *)
Definition contains (s : string) (c : ascii) : Prop := In c (chars s).

End JsString.

(** ** Coercion of a string to a number, then to an index

    [StringToNumber] followed by [ToIntegerOrInfinity] (ECMA-262, 7.1.4.1.1
    and 7.1.5).  The numeric value is kept exact (a decimal mantissa and a
    power of ten) and rounded to binary64 before truncation. *)

Module StringToNumber.

Definition code (c : ascii) : Z := Z.of_N (N_of_ascii c).

(** [StrWhiteSpaceChar], for code units below 256. *)
Definition is_ws (c : ascii) : bool :=
  let n := code c in
  ((9 <=? n) && (n <=? 13)) || (n =? 32) || (n =? 160).

Definition is_digit (c : ascii) : bool := (48 <=? code c) && (code c <=? 57).
Definition is_octal (c : ascii) : bool := (48 <=? code c) && (code c <=? 55).
Definition is_binary (c : ascii) : bool := (48 <=? code c) && (code c <=? 49).
Definition is_hex (c : ascii) : bool :=
  is_digit c || ((97 <=? code c) && (code c <=? 102))
             || ((65 <=? code c) && (code c <=? 70)).

Definition digit_val (c : ascii) : Z :=
  let n := code c in
  if n <=? 57 then n - 48 else if n <=? 70 then n - 55 else n - 87.

Definition value_in (base : Z) (ds : list ascii) : Z :=
  fold_left (fun acc c => base * acc + digit_val c) ds 0.

Fixpoint drop_ws (l : list ascii) : list ascii :=
  match l with
  | c :: l' => if is_ws c then drop_ws l' else l
  | [] => []
  end.

Definition trim (l : list ascii) : list ascii :=
  rev (drop_ws (rev (drop_ws l))).

Fixpoint span (p : ascii -> bool) (l : list ascii) : list ascii * list ascii :=
  match l with
  | c :: l' =>
      if p c then let '(a, b) := span p l' in (c :: a, b) else ([], l)
  | [] => ([], [])
  end.

(** The mathematical value of a literal: [Finite neg m e] is
    (-1)^neg * m * 10^e. *)
Inductive MV : Type :=
| Finite (neg : bool) (mant : Z) (exp10 : Z)
| Infinite (neg : bool).

Definition nonempty (l : list ascii) : bool :=
  match l with [] => false | _ => true end.

(** [ExponentPart] (optional); the rest must be empty. *)
Definition parse_exponent (l : list ascii) : option Z :=
  match l with
  | [] => Some 0
  | c :: r =>
      if (code c =? 101) || (code c =? 69) then
        let '(neg, r') :=
          match r with
          | s :: r'' =>
              if code s =? 45 then (true, r'')
              else if code s =? 43 then (false, r'')
              else (false, r)
          | [] => (false, r)
          end in
        if nonempty r' && forallb is_digit r'
        then Some (if neg then - value_in 10 r' else value_in 10 r')
        else None
      else None
  end.

(** [StrUnsignedDecimalLiteral] without the [Infinity] alternative. *)
Definition parse_unsigned (neg : bool) (l : list ascii) : option MV :=
  let '(ip, r1) := span is_digit l in
  let '(fp, r2) :=
    match r1 with
    | c :: r => if code c =? 46 then span is_digit r else ([], r1)
    | [] => ([], r1)
    end in
  if nonempty ip || nonempty fp then
    match parse_exponent r2 with
    | Some e => Some (Finite neg (value_in 10 (ip ++ fp)) (e - Z.of_nat (List.length fp)))
    | None => None
    end
  else None.

Definition Infinity_chars : list ascii := list_ascii_of_string "Infinity".

Definition parse_decimal (neg : bool) (l : list ascii) : option MV :=
  if decide (l = Infinity_chars) then Some (Infinite neg)
  else parse_unsigned neg l.

(** [StrDecimalLiteral]: an optional sign, then the unsigned literal. *)
Definition parse_signed (l : list ascii) : option MV :=
  match l with
  | s :: r =>
      if code s =? 45 then parse_decimal true r
      else if code s =? 43 then parse_decimal false r
      else parse_decimal false l
  | [] => None
  end.

Definition parse_radix (p : ascii -> bool) (base : Z) (ds : list ascii) : option MV :=
  if nonempty ds && forallb p ds then Some (Finite false (value_in base ds) 0) else None.

(** [StrNumericLiteral]: a non-decimal integer literal (no sign) or a
    decimal literal. *)
Definition parse_numeric (l : list ascii) : option MV :=
  match l with
  | z :: m :: ds =>
      if code z =? 48 then
        if (code m =? 120) || (code m =? 88) then parse_radix is_hex 16 ds
        else if (code m =? 111) || (code m =? 79) then parse_radix is_octal 8 ds
        else if (code m =? 98) || (code m =? 66) then parse_radix is_binary 2 ds
        else parse_signed l
      else parse_signed l
  | _ => parse_signed l
  end.

(** Round the positive rational [n/d] to the nearest binary64 value (ties
    to even) and truncate it to an integer; [None] is an overflow to
    infinity. *)
Definition round_trunc (n d : Z) : option Z :=
  let e0 := Z.log2 n - Z.log2 d in
  let below := if 0 <=? e0 then n <? d * 2 ^ e0 else n * 2 ^ (- e0) <? d in
  let e := if below then e0 - 1 else e0 in
  let p := Z.max (e - 52) (-1074) in
  let num := if 0 <=? p then n else n * 2 ^ (- p) in
  let den := if 0 <=? p then d * 2 ^ p else d in
  let q := num / den in
  let r := num mod den in
  let m := if (den <? 2 * r) || ((den =? 2 * r) && Z.odd q) then q + 1 else q in
  if 0 <=? p then
    if 2 ^ 1024 <=? m * 2 ^ p then None else Some (m * 2 ^ p)
  else Some (m / 2 ^ (- p)).

Definition mv_to_integer (v : MV) : IntInf :=
  match v with
  | Infinite neg => if neg then NegInf else PosInf
  | Finite neg m e =>
      if m =? 0 then Int 0
      else
        let r := if 0 <=? e then round_trunc (m * 10 ^ e) 1
                 else round_trunc m (10 ^ (- e)) in
        match r with
        | Some z => Int (if neg then - z else z)
        | None => if neg then NegInf else PosInf
        end
  end.

(** [ToIntegerOrInfinity(StringToNumber(s))]: white space is trimmed, the
    empty string is 0, a string that is no numeric literal is NaN, and NaN
    becomes 0. *)
Definition to_integer (s : string) : IntInf :=
  match trim (list_ascii_of_string s) with
  | [] => Int 0
  | l => match parse_numeric l with
         | Some v => mv_to_integer v
         | None => Int 0
         end
  end.

(** [s] is a numeric literal (its coercion to a number is not NaN). *)
Definition is_numeric (s : string) : bool :=
  match trim (list_ascii_of_string s) with
  | [] => true
  | l => match parse_numeric l with Some _ => true | None => false end
  end.

(** The characters of which numeric literals are made. *)
Definition numeric_char (c : ascii) : bool :=
  is_hex c || existsb (fun k => code c =? k)
    [46; 43; 45; 120; 88; 111; 79; 73; 110; 105; 116; 121].

End StringToNumber.

(** ** SHA-256 (FIPS 180-4), as computed by [crypto.createHash("sha256")] *)

Module Sha256.

Definition w32 (x : Z) : Z := x mod 2 ^ 32.
Definition add32 (x y : Z) : Z := w32 (x + y).
Definition rotr (n x : Z) : Z := Z.lor (Z.shiftr x n) (w32 (Z.shiftl x (32 - n))).
Definition not32 (x : Z) : Z := Z.lxor x 0xffffffff.

Definition Ch (x y z : Z) : Z := Z.lxor (Z.land x y) (Z.land (not32 x) z).
Definition Maj (x y z : Z) : Z :=
  Z.lxor (Z.lxor (Z.land x y) (Z.land x z)) (Z.land y z).
Definition Sigma0 (x : Z) : Z := Z.lxor (Z.lxor (rotr 2 x) (rotr 13 x)) (rotr 22 x).
Definition Sigma1 (x : Z) : Z := Z.lxor (Z.lxor (rotr 6 x) (rotr 11 x)) (rotr 25 x).
Definition sigma0 (x : Z) : Z := Z.lxor (Z.lxor (rotr 7 x) (rotr 18 x)) (Z.shiftr x 3).
Definition sigma1 (x : Z) : Z := Z.lxor (Z.lxor (rotr 17 x) (rotr 19 x)) (Z.shiftr x 10).

(** Integer cube root by bisection: the root lies in [[lo, hi)]. *)
Fixpoint cbrt_between (fuel : nat) (n lo hi : Z) : Z :=
  match fuel with
  | O => lo
  | S fuel' =>
      let mid := (lo + hi) / 2 in
      if mid * mid * mid <=? n then cbrt_between fuel' n mid hi
      else cbrt_between fuel' n lo mid
  end.

Definition is_prime (n : Z) : bool :=
  forallb (fun d => negb (n mod Z.of_nat d =? 0)) (seq 2 (Z.to_nat n - 2)).

(** The first 64 primes, 2 to 311. *)
Definition primes : list Z := filter is_prime (map Z.of_nat (seq 2 310)).

(** The round constants: the first 32 bits of the fractional parts of the
    cube roots of the first 64 primes. *)
Definition K : list Z :=
  map (fun p => w32 (cbrt_between 40 (p * 2 ^ 96) 0 (2 ^ 36))) primes.

(** The eight working words. *)
Record Words : Type := mkWords { wa : Z; wb : Z; wc : Z; wd : Z; we : Z; wf : Z; wg : Z; wh : Z }.

(** The initial hash value: the first 32 bits of the fractional parts of
    the square roots of the first 8 primes. *)
Definition H0 : Words :=
  match map (fun p => w32 (Z.sqrt (p * 2 ^ 64))) (take 8 primes) with
  | [a; b; c; d; e; f; g; h] => mkWords a b c d e f g h
  | _ => mkWords 0 0 0 0 0 0 0 0
  end.

Definition be_bytes (n : nat) (x : Z) : list Z :=
  map (fun i => Z.land (Z.shiftr x (8 * Z.of_nat i)) 255) (rev (seq 0 n)).

(** Padding: a 1 bit, zeros up to 56 mod 64 bytes, the bit length on 64 bits. *)
Definition pad (msg : list Z) : list Z :=
  let len := Z.of_nat (List.length msg) in
  msg ++ [128] ++ repeat 0 (Z.to_nat ((55 - len) mod 64)) ++ be_bytes 8 (8 * len).

Fixpoint be_words (bs : list Z) : list Z :=
  match bs with
  | b0 :: b1 :: b2 :: b3 :: bs' =>
      (Z.shiftl b0 24 + Z.shiftl b1 16 + Z.shiftl b2 8 + b3) :: be_words bs'
  | _ => []
  end.

(** The message schedule: 16 words of the block extended to 64. *)
Fixpoint extend (n : nat) (w : list Z) : list Z :=
  match n with
  | O => w
  | S n' =>
      let t := List.length w in
      let at_ k := nth (t - k) w 0 in
      extend n' (w ++ [add32 (add32 (sigma1 (at_ 2%nat)) (at_ 7%nat))
                             (add32 (sigma0 (at_ 15%nat)) (at_ 16%nat))])
  end.

Definition round (s : Words) (kw : Z * Z) : Words :=
  let t1 := add32 (add32 (add32 (wh s) (Sigma1 (we s))) (Ch (we s) (wf s) (wg s)))
                  (add32 (fst kw) (snd kw)) in
  let t2 := add32 (Sigma0 (wa s)) (Maj (wa s) (wb s) (wc s)) in
  mkWords (add32 t1 t2) (wa s) (wb s) (wc s) (add32 (wd s) t1) (we s) (wf s) (wg s).

Definition compress (h : Words) (block : list Z) : Words :=
  let w := extend 48 (be_words block) in
  let s := fold_left round (combine K w) h in
  mkWords (add32 (wa h) (wa s)) (add32 (wb h) (wb s)) (add32 (wc h) (wc s))
          (add32 (wd h) (wd s)) (add32 (we h) (we s)) (add32 (wf h) (wf s))
          (add32 (wg h) (wg s)) (add32 (wh h) (wh s)).

Fixpoint blocks (n : nat) (h : Words) (bs : list Z) : Words :=
  match n with
  | O => h
  | S n' => blocks n' (compress h (take 64 bs)) (drop 64 bs)
  end.

Definition hash (msg : list byte) : Words :=
  let bs := pad (map (fun b => Z.of_N (Byte.to_N b)) msg) in
  blocks (List.length bs / 64) H0 bs.

Definition hex_digit (n : Z) : ascii :=
  nth (Z.to_nat (Z.land n 15)) (list_ascii_of_string "0123456789abcdef") "0"%char.

Definition hex_word (x : Z) : list ascii :=
  map (fun i => hex_digit (Z.shiftr x (4 * Z.of_nat i))) (rev (seq 0 8)).

(** [hash.digest('hex')] *)
Definition hex (msg : list byte) : string :=
  let h := hash msg in
  string_of_list_ascii
    (hex_word (wa h) ++ hex_word (wb h) ++ hex_word (wc h) ++ hex_word (wd h) ++
     hex_word (we h) ++ hex_word (wf h) ++ hex_word (wg h) ++ hex_word (wh h)).

End Sha256.

(** ** Operations of the language on values *)

Module Js.

Definition number_to_string (n : Z) : string :=
  DecimalString.NilZero.string_of_int (Z.to_int n).

Fixpoint join (sep : string) (l : list string) : string :=
  match l with
  | [] => ""
  | [x] => x
  | x :: l' => x +:+ sep +:+ join sep l'
  end.

(** [ToString] *)
Fixpoint ToString (v : JsVal) : string :=
  match v with
  | VUndef => "undefined"
  | VNaN => "NaN"
  | VNum n => number_to_string n
  | VStr s => s
  | VArr xs =>
      join "," (map (fun x => match x with VUndef => "" | _ => ToString x end) xs)
  | VObj _ => "[object Object]"
  | VPromise _ => "[object Promise]"
  end.

(** [ToIntegerOrInfinity]: NaN becomes 0; a string or an object goes
    through its string form. *)
Definition ToIntegerOrInfinity (v : JsVal) : IntInf :=
  match v with
  | VUndef | VNaN => Int 0
  | VNum n => Int n
  | _ => StringToNumber.to_integer (ToString v)
  end.

(** [ToBoolean] *)
Definition ToBoolean (v : JsVal) : bool :=
  match v with
  | VUndef | VNaN => false
  | VNum n => negb (n =? 0)
  | VStr s => negb (String.eqb s "")
  | _ => true
  end.

(** [a + b]: concatenation when an operand is a string or an object,
    numeric addition otherwise. *)
Definition add (a b : JsVal) : JsVal :=
  let primitive_number v :=
    match v with VUndef | VNaN | VNum _ => true | _ => false end in
  match a, b with
  | VNum x, VNum y => VNum (x + y)
  | _, _ =>
      if primitive_number a && primitive_number b then VNaN
      else VStr (ToString a +:+ ToString b)
  end.

Fixpoint lookup_prop (props : list (string * JsVal)) (k : string) : option JsVal :=
  match props with
  | [] => None
  | (k', v) :: ps => if String.eqb k' k then Some v else lookup_prop ps k
  end.

(** [v.k] for an object [v]; a promise has no property of the names used
    here, and a missing property reads as [undefined]. *)
Definition get_prop (v : JsVal) (k : string) : JsVal :=
  match v with
  | VObj props => default VUndef (lookup_prop props k)
  | _ => VUndef
  end.

(** [o.k = v]: overwrite in place, or append a new property. *)
Fixpoint set_prop (props : list (string * JsVal)) (k : string) (v : JsVal)
  : list (string * JsVal) :=
  match props with
  | [] => [(k, v)]
  | (k', v') :: ps =>
      if String.eqb k' k then (k', v) :: ps else (k', v') :: set_prop ps k v
  end.

(** [await v]: the settled value of a promise, the value itself otherwise. *)
Definition await (v : JsVal) : Completion JsVal :=
  match v with
  | VPromise r => r
  | _ => Normal v
  end.

(** Identifier resolution along a scope chain. *)
Definition resolve (scope : list (string * JsVal)) (x : string) : Completion JsVal :=
  match lookup_prop scope x with
  | Some v => Normal v
  | None => Throw (ReferenceError x)
  end.

End Js.

(** ** JSON.stringify *)

Module JSON.

Definition hex4 (n : Z) : list ascii :=
  map (fun i => Sha256.hex_digit (Z.shiftr n (4 * Z.of_nat i))) (rev (seq 0 4)).

(** [QuoteJSONString], one code unit. *)
Definition escape (c : ascii) : list ascii :=
  let n := StringToNumber.code c in
  if n =? 8 then list_ascii_of_string "\b"
  else if n =? 9 then list_ascii_of_string "\t"
  else if n =? 10 then list_ascii_of_string "\n"
  else if n =? 12 then list_ascii_of_string "\f"
  else if n =? 13 then list_ascii_of_string "\r"
  else if n =? 34 then ["\"%char; c]
  else if n =? 92 then ["\"%char; c]
  else if n <? 32 then list_ascii_of_string "\u" ++ hex4 n
  else [c].

Definition quote (s : string) : string :=
  let q := String (ascii_of_nat 34) "" in
  q +:+ string_of_list_ascii (flat_map escape (list_ascii_of_string s)) +:+ q.

(** [JSON.stringify v]; [None] is [undefined].  A property whose value is
    [undefined] is left out; in an array it is written [null]. *)
Fixpoint stringify (v : JsVal) : option string :=
  match v with
  | VUndef => None
  | VNaN => Some "null"
  | VNum n => Some (Js.number_to_string n)
  | VStr s => Some (quote s)
  | VArr xs =>
      Some ("[" +:+ Js.join "," (map (fun x => default "null" (stringify x)) xs) +:+ "]")
  | VObj props =>
      Some ("{" +:+
            Js.join ","
              (flat_map (fun kv =>
                 match stringify (snd kv) with
                 | Some t => [quote (fst kv) +:+ ":" +:+ t]
                 | None => []
                 end) props) +:+ "}")
  | VPromise _ => Some "{}"
  end.

End JSON.

(** ** The file system

    A file system is a finite map from the paths of its files to their
    contents.  The content recorded for a file open for writing is what
    has been handed to its stream so far.  The directories that exist are
    given apart, as the list of their paths: the program makes them once,
    in a directory that [mkdtemp] has just made, and removes none.  Paths
    are compared as texts ([.] and [..] are not resolved); the separators
    that end a path or repeat do not count. *)

Module Fs.

Definition ENOENT (syscall path : string) : JsError :=
  SystemError "ENOENT" syscall path.

Definition ENOTDIR (syscall path : string) : JsError :=
  SystemError "ENOTDIR" syscall path.

Definition is_sep (c : ascii) : bool := Ascii.eqb c "/".

Fixpoint skip_seps (l : list ascii) : list ascii :=
  match l with
  | c :: t => if is_sep c then skip_seps t else l
  | [] => []
  end.

Fixpoint skip_name (l : list ascii) : list ascii :=
  match l with
  | c :: t => if is_sep c then l else skip_name t
  | [] => []
  end.

(** The directory that holds the last component of [path]. *)
Definition dirname (path : string) : string :=
  JsString.of_chars
    (rev (skip_seps (skip_name (skip_seps (rev (JsString.chars path)))))).

Definition ends_with_sep (path : string) : bool :=
  match rev (JsString.chars path) with
  | c :: _ => is_sep c
  | [] => false
  end.

(** The directories above a path and the path itself; [before] is what
    has been read of the path, in reverse. *)
Fixpoint ancestors (before l : list ascii) : list string :=
  match l with
  | [] => [JsString.of_chars (rev before)]
  | c :: t =>
      (if is_sep c then [JsString.of_chars (rev before)] else [])
      ++ ancestors (c :: before) t
  end.

(** [fsPromises.mkdir(path, {recursive: true})]: the directory is made,
    with the ones above it. *)
Definition mkdir (path : string) (dirs : list string) : list string :=
  ancestors [] (JsString.chars path) ++ dirs.

Definition is_dir (dirs : list string) (path : string) : bool :=
  existsb (String.eqb path) dirs.

(** [fsPromises.rename(src, dst)], [src] being a file or missing
    (rename(2)): [ENOENT] when [src] is missing or the directory of [dst]
    does not exist, [ENOTDIR] when [dst] ends with a separator. *)
Definition rename {A : Type} (dirs : list string) (src dst : string) (fs : gmap string A)
  : Completion (gmap string A) :=
  match fs !! src with
  | Some c =>
      if negb (is_dir dirs (dirname dst)) then Throw (ENOENT "rename" src)
      else if ends_with_sep dst then Throw (ENOTDIR "rename" src)
      else Normal (<[dst := c]> (delete src fs))
  | None => Throw (ENOENT "rename" src)
  end.

(** [fsPromises.stat(path)]: a promise of the [Stats] object. *)
Definition stat (path : string) (fs : gmap string (list byte)) : JsVal :=
  VPromise
    match fs !! path with
    | Some c => Normal (VObj [("size", VNum (Z.of_nat (List.length c)))])
    | None => Throw (ENOENT "stat" path)
    end.

(** The UTF-8 encoding of a text: one byte for a code unit below 128, two
    for the others (all below 256). *)
Definition utf8_unit (c : ascii) : list byte :=
  let n := StringToNumber.code c in
  if n <? 128 then [byte_of_ascii c]
  else [byte_of_ascii (ascii_of_N (Z.to_N (192 + n / 64)));
        byte_of_ascii (ascii_of_N (Z.to_N (128 + n mod 64)))].

Definition utf8 (text : string) : list byte :=
  flat_map utf8_unit (JsString.chars text).

(** [fsPromises.writeFile(path, text)]: the text is encoded in UTF-8. *)
Definition writeFile (path : string) (text : string) (fs : gmap string (list byte))
  : gmap string (list byte) :=
  <[path := utf8 text]> fs.

(** [fs.createWriteStream(path)]: the file is created or truncated. *)
Definition createWriteStream (path : string) (fs : gmap string (list byte))
  : gmap string (list byte) :=
  <[path := []]> fs.

(** [chunk] placed at offset [pos] of a content, over what was there;
    a gap before [pos] reads as zeros. *)
Definition write_at (pos : nat) (chunk c : list byte) : list byte :=
  take pos c ++ replicate (pos - List.length c) Byte.x00 ++ chunk
    ++ drop (pos + List.length chunk) c.

(** A chunk written through a stream opened on [path], at the position
    [pos] that the stream has reached.  (A file that was renamed away is
    not followed under its new name.) *)
Definition write (path : string) (pos : nat) (chunk : list byte)
    (fs : gmap string (list byte)) : gmap string (list byte) :=
  alter (write_at pos chunk) path fs.

End Fs.

(** * The program *)

Definition ManifestVersion : Z := 2.
Definition ManifestType : string := "application/vnd.docker.distribution.manifest.v2+json".
Definition ConfigType : string := "application/vnd.docker.container.image.v1+json".
Definition LayerType : string := "application/vnd.docker.image.rootfs.diff.tar.gzip".

(** The bindings of the module: its [require]d libraries, its constants and
    its functions (libraries and functions are objects whose properties are
    not needed here), then the names that Node.js gives every module and
    some of those of its global object, which has no property [content].
    A free identifier of a function body is resolved in the function's own
    bindings followed by these. *)
Definition module_scope : list (string * JsVal) :=
  [("tar", VObj []); ("fs", VObj []); ("fsPromises", VObj []); ("Dat", VObj []);
   ("crypto", VObj []); ("rmdir", VObj []);
   ("ManifestVersion", VNum ManifestVersion); ("ManifestType", VStr ManifestType);
   ("ConfigType", VStr ConfigType); ("LayerType", VStr LayerType);
   ("getInput", VObj []); ("untar", VObj []); ("parseJsonFromFile", VObj []);
   ("parseRepositories", VObj []); ("parseManifest", VObj []);
   ("simplifyName", VObj []); ("createDirectoryStructure", VObj []);
   ("copyRootLayer", VObj []); ("compressLayer", VObj []);
   ("copyOtherLayers", VObj []); ("writeManifest", VObj []);
   ("createDatRepo", VObj []); ("run", VObj []);
   ("exports", VObj []); ("require", VObj []); ("module", VObj []);
   ("__filename", VStr "index.js"); ("__dirname", VStr ".");
   ("globalThis", VObj []); ("global", VObj []); ("process", VObj []);
   ("console", VObj []); ("Buffer", VObj []); ("Object", VObj []);
   ("JSON", VObj []); ("Promise", VObj [])].

(** ** [simplifyName] *)

Definition simplifyName (imageName : string) : Completion string :=
  let lastSlashPos := JsString.lastIndexOf imageName "/" in
  if lastSlashPos <? 0 then
    (* no need to simplify *)
    Normal imageName
  else
    let scope :=
      [("imageName", VStr imageName); ("lastSlashPos", VNum lastSlashPos)] ++ module_scope in
    content ← Js.resolve scope "content";
    let firstPart :=
      JsString.substr imageName (Int 0) (Some (Js.ToIntegerOrInfinity content)) in
    let scope := ("firstPart", VStr firstPart) :: scope in
    if (JsString.indexOf firstPart "." >? -1)
       || Js.ToBoolean (VNum (JsString.indexOf firstPart ":"))
    then
      (* the first part of the name is a host. Return what is after *)
      content ← Js.resolve scope "content";
      Normal (JsString.substr imageName
                (Js.ToIntegerOrInfinity (Js.add content (VNum 1))) None)
    else Normal imageName.

(** ** [copyRootLayer]

    The object it returns is given by its properties. *)

(** One entry of [manifest.json]. *)
Record SourceManifest : Type := mkSourceManifest {
  Config : string;
  Layers : list string;
}.

(** ** [createDirectoryStructure] *)

Definition createDirectoryStructure (dir name : string) (dirs : list string)
  : list string :=
  let dirs := Fs.mkdir (dir +:+ "/work/" +:+ name +:+ "/manifests") dirs in
  Fs.mkdir (dir +:+ "/work/" +:+ name +:+ "/blobs") dirs.

(** The directories of the destination when [copyRootLayer] and the
    handlers of the layers run: [run] has called
    [createDirectoryStructure(destTempDir, name)] on the directory that
    [mkdtemp] has just made, and nothing else makes or removes a
    directory. *)
Definition directories (destDir imageName : string) : list string :=
  createDirectoryStructure destDir imageName [destDir].

(** [<destDir>/work/<imageName>/blobs/sha256:<sha>] *)
Definition blob_file (destDir imageName sha : string) : string :=
  destDir +:+ "/work/" +:+ imageName +:+ "/blobs/sha256:" +:+ sha.

(** [config.substr(config, config.length - 5)] *)
Definition rootLayerSha (config : string) : string :=
  JsString.substr config (Js.ToIntegerOrInfinity (VStr config))
    (Some (Int (JsString.length config - 5))).

Definition copyRootLayer (sourceManifest : SourceManifest)
    (imageName sourceDir destDir : string) (fs : gmap string (list byte))
  : Completion (list (string * JsVal) * gmap string (list byte)) :=
  let config := Config sourceManifest in
  let rootLayerSha := rootLayerSha config in
  let destFile := blob_file destDir imageName rootLayerSha in
  fs' ← Fs.rename (directories destDir imageName) (sourceDir +:+ "/" +:+ config)
          destFile fs;
  size ← Js.await (Js.get_prop (Fs.stat destFile fs') "size");
  Normal
    ([("SchemaVersion", VNum ManifestVersion);
      ("MediaType", VStr ManifestType);
      ("Config", VObj [("MediaType", VStr ConfigType);
                       ("Digest", VStr ("sha256:" +:+ rootLayerSha));
                       ("Size", size)]);
      ("Layers", VArr [])],
     fs').

(** ** [compressLayer] *)

(** What a readable stream emits. *)
Inductive StreamEvent : Type :=
| SData (chunk : list byte)
| SEnd
| SError (e : JsError).

(** The content of a file cut into chunks of at most [S size] bytes. *)
Fixpoint chunks (fuel size : nat) (bs : list byte) : list (list byte) :=
  match fuel, bs with
  | S fuel', _ :: _ => take (S size) bs :: chunks fuel' size (drop (S size) bs)
  | _, _ => []
  end.

(** [fs.createReadStream(path)]: the events the stream will emit, each
    ['data'] carrying at most [S hwm] bytes (the stream's high water mark);
    a file that cannot be opened gives a single ['error'].  The content is
    taken when the stream is created: the program writes to no file of the
    source directory afterwards. *)
Definition createReadStream (hwm : nat) (path : string) (fs : gmap string (list byte))
  : list StreamEvent :=
  match fs !! path with
  | Some c => map SData (chunks (List.length c) hwm c) ++ [SEnd]
  | None => [SError (Fs.ENOENT "open" path)]
  end.

Inductive TaskStatus : Type :=
| Streaming                (* waiting for the source stream's events *)
| Renaming (sha : string)  (* in the ['end'] handler, at [await rename] *)
| Resolved                 (* [resolve(layerJson)] was called *)
| Faulted (e : JsError).   (* the ['end'] handler threw: nothing settles the promise *)

(** The closure that one call of [compressLayer] leaves behind. *)
Record LayerTask : Type := mkLayerTask {
  t_layerJson : nat;                  (* the object passed as [layerJson] *)
  t_imageName : string;
  t_destDir : string;
  t_destTempFile : string;
  t_sourceStream : list StreamEvent;  (* events not yet emitted *)
  t_destStream : nat;                 (* position reached by the write stream *)
  t_sha256Digester : list byte;       (* bytes absorbed by the hash object *)
  t_status : TaskStatus;
}.

Definition destTempFile_of (layerFile destDir : string) : string :=
  let slashPos := JsString.indexOf layerFile "/" in
  let sha := JsString.substring layerFile (Int 0) (Int slashPos) in
  destDir +:+ "/" +:+ sha +:+ ".tmp".

(** The synchronous part of [compressLayer]: both streams are opened and
    the handlers installed. *)
Definition compressLayer (hwm : nat) (layerJson : nat)
    (layerFile imageName sourceDir destDir : string) (fs : gmap string (list byte))
  : LayerTask * gmap string (list byte) :=
  let destTempFile := destTempFile_of layerFile destDir in
  let sourceFile := sourceDir +:+ "/" +:+ layerFile in
  let sourceStream := createReadStream hwm sourceFile fs in
  let fs' := Fs.createWriteStream destTempFile fs in
  (mkLayerTask layerJson imageName destDir destTempFile sourceStream 0 [] Streaming, fs').

(** ** The driver: [copyOtherLayers], [writeManifest], [run] *)

(** The settled state of the promise returned by [run]. *)
Inductive RunResult : Type :=
| Pending
| Fulfilled (path : string)
| Rejected (e : JsError).

Record Machine : Type := mkMachine {
  m_fs : gmap string (list byte);
  m_name : string;                          (* [name] in [run] *)
  m_destTempDir : string;                   (* [destTempDir] in [run] *)
  m_manifest : list (string * JsVal);       (* own properties of [manifest] *)
  m_Layers : list nat;                      (* [manifest.Layers], as references *)
  m_heap : list (list (string * JsVal));    (* the [layerJson] objects *)
  m_layerJson : option nat;                 (* the global that [layerJson = ...] creates *)
  m_tasks : list LayerTask;                 (* the calls of [compressLayer], in order *)
  m_result : RunResult;
  m_uncaught : option JsError;              (* the process ended on an uncaught exception *)
}.

Definition with_fs (fs : gmap string (list byte)) (m : Machine) : Machine :=
  mkMachine fs (m_name m) (m_destTempDir m) (m_manifest m) (m_Layers m) (m_heap m)
            (m_layerJson m) (m_tasks m) (m_result m) (m_uncaught m).
Definition with_heap (h : list (list (string * JsVal))) (m : Machine) : Machine :=
  mkMachine (m_fs m) (m_name m) (m_destTempDir m) (m_manifest m) (m_Layers m) h
            (m_layerJson m) (m_tasks m) (m_result m) (m_uncaught m).
Definition with_tasks (ts : list LayerTask) (m : Machine) : Machine :=
  mkMachine (m_fs m) (m_name m) (m_destTempDir m) (m_manifest m) (m_Layers m) (m_heap m)
            (m_layerJson m) ts (m_result m) (m_uncaught m).
Definition with_result (r : RunResult) (m : Machine) : Machine :=
  mkMachine (m_fs m) (m_name m) (m_destTempDir m) (m_manifest m) (m_Layers m) (m_heap m)
            (m_layerJson m) (m_tasks m) r (m_uncaught m).
Definition with_uncaught (e : JsError) (m : Machine) : Machine :=
  mkMachine (m_fs m) (m_name m) (m_destTempDir m) (m_manifest m) (m_Layers m) (m_heap m)
            (m_layerJson m) (m_tasks m) (m_result m) (Some e).

Definition with_status (s : TaskStatus) (t : LayerTask) : LayerTask :=
  mkLayerTask (t_layerJson t) (t_imageName t) (t_destDir t) (t_destTempFile t)
              (t_sourceStream t) (t_destStream t) (t_sha256Digester t) s.

(** The value of [manifest], with the objects of its [Layers] array read
    from the heap. *)
Definition manifest_value (m : Machine) : JsVal :=
  let existing := match Js.get_prop (VObj (m_manifest m)) "Layers" with
                  | VArr xs => xs
                  | _ => []
                  end in
  VObj (Js.set_prop (m_manifest m) "Layers"
          (VArr (existing ++ map (fun r => VObj (default [] (m_heap m !! r))) (m_Layers m)))).

Definition manifest_file (destDir imageName : string) : string :=
  destDir +:+ "/work/" +:+ imageName +:+ "/manifests/latest-v2".

(** [writeManifest] *)
Definition writeManifest (m : Machine) : Machine :=
  let destFile := manifest_file (m_destTempDir m) (m_name m) in
  match JSON.stringify (manifest_value m) with
  | Some text => with_fs (Fs.writeFile destFile text (m_fs m)) m
  | None => m
  end.

(** One iteration of the [layers.map] callback of [copyOtherLayers], up to
    its [await]: a fresh object is stored in the global [layerJson], pushed
    on [manifest.Layers] and handed to [compressLayer]. *)
Definition launch (hwm : nat) (sourceDir : string) (m : Machine) (l : string) : Machine :=
  let ref := List.length (m_heap m) in
  let heap := m_heap m ++ [[("MediaType", VStr LayerType)]] in
  let global_layerJson := ref in
  let Layers := m_Layers m ++ [global_layerJson] in
  let '(task, fs) :=
    compressLayer hwm global_layerJson l (m_name m) sourceDir (m_destTempDir m) (m_fs m) in
  mkMachine fs (m_name m) (m_destTempDir m) (m_manifest m) Layers heap
            (Some global_layerJson) (m_tasks m ++ [task]) (m_result m) (m_uncaught m).

Definition copyOtherLayers (hwm : nat) (sourceDir : string) (layers : list string)
    (m : Machine) : Machine :=
  foldl (launch hwm sourceDir) m layers.

Definition is_resolved (t : LayerTask) : bool :=
  match t_status t with Resolved => true | _ => false end.

(** What [run] does once [Promise.all] is fulfilled: the manifest is
    written and the path of the work directory returned.  (The Dat
    repository and the removal of the source directory are left to their
    libraries.) *)
Definition join (m : Machine) : Machine :=
  match m_result m with
  | Pending =>
      if forallb is_resolved (m_tasks m)
      then with_result (Fulfilled (m_destTempDir m +:+ "/work")) (writeManifest m)
      else m
  | _ => m
  end.

(** The handlers of one layer. *)

(** ['data']: the chunk goes to both pipes, [destStream] and
    [sha256Digester].  For the file of a write stream, the file system of
    this machine holds the bytes handed to the stream: the write itself is
    done later, at an event that no handler of the program waits for, and
    nothing reads the file in between ([fsPromises.stat] is not awaited
    before [.size] is taken).  [Async] below follows the writes one by
    one. *)
Definition on_data (i : nat) (t : LayerTask) (chunk : list byte)
    (rest : list StreamEvent) (m : Machine) : Machine :=
  let t' := mkLayerTask (t_layerJson t) (t_imageName t) (t_destDir t) (t_destTempFile t)
                        rest (t_destStream t + List.length chunk)
                        (t_sha256Digester t ++ chunk) (t_status t) in
  with_tasks (<[i := t']> (m_tasks m))
    (with_fs (Fs.write (t_destTempFile t) (t_destStream t) chunk (m_fs m)) m).

(** ['end'], up to [await fsPromises.rename]: the digest is taken. *)
Definition on_end (i : nat) (t : LayerTask) (rest : list StreamEvent) (m : Machine)
  : Machine :=
  let sha := Sha256.hex (t_sha256Digester t) in
  let t' := mkLayerTask (t_layerJson t) (t_imageName t) (t_destDir t) (t_destTempFile t)
                        rest (t_destStream t) (t_sha256Digester t) (Renaming sha) in
  with_tasks (<[i := t']> (m_tasks m)) m.

(** The rest of the ['end'] handler, once the rename has settled. *)
Definition on_renamed (i : nat) (t : LayerTask) (sha : string) (m : Machine) : Machine :=
  let destFileName := blob_file (t_destDir t) (t_imageName t) sha in
  match Fs.rename (directories (t_destDir t) (t_imageName t)) (t_destTempFile t)
          destFileName (m_fs m) with
  | Throw e => with_tasks (<[i := with_status (Faulted e) t]> (m_tasks m)) m
  | Normal fs =>
      match Js.await (Js.get_prop (Fs.stat destFileName fs) "size") with
      | Throw e => with_tasks (<[i := with_status (Faulted e) t]> (m_tasks m)) (with_fs fs m)
      | Normal size =>
          let set k v := alter (fun o => Js.set_prop o k v) (t_layerJson t) in
          let heap := set "Digest" (VStr ("sha256:" +:+ sha)) (set "Size" size (m_heap m)) in
          join (with_tasks (<[i := with_status Resolved t]> (m_tasks m))
                  (with_heap heap (with_fs fs m)))
      end
  end.

(** One event of layer [i] is delivered.  An ['error'] of the source stream
    finds no listener, so it is thrown and ends the process. *)
Definition step (m : Machine) (i : nat) : Machine :=
  match m_uncaught m, m_tasks m !! i with
  | None, Some t =>
      match t_status t with
      | Streaming =>
          match t_sourceStream t with
          | SData chunk :: rest => on_data i t chunk rest m
          | SEnd :: rest => on_end i t rest m
          | SError e :: _ => with_uncaught e m
          | [] => m
          end
      | Renaming sha => on_renamed i t sha m
      | Resolved | Faulted _ => m
      end
  | _, _ => m
  end.

(** [fsPromises.mkdtemp(prefix)]: the prefix followed by random characters. *)
Definition mkdtemp (prefix random : string) : string := prefix +:+ random.

(** [run], up to its first wait for the layers.  [image] is the first key
    of [repositories], [firstManifest] the first entry of [manifest.json],
    [fs] the file system once the archive is unpacked, [random1] and
    [random2] the characters that [mkdtemp] draws.
    [createDirectoryStructure] makes directories only: it leaves the files
    of [fs] as they are, and what it makes is [directories].  A thrown
    error rejects the promise of [run]. *)
Definition run (hwm : nat) (random1 random2 : string) (image : string)
    (firstManifest : SourceManifest) (fs : gmap string (list byte)) : Machine :=
  let sourceTempDir := mkdtemp "image2dat_src_" random1 in
  let destTempDir := mkdtemp "image2dat_dest_" random2 in
  let failed name e := mkMachine fs name destTempDir [] [] [] None [] (Rejected e) None in
  match simplifyName image with
  | Throw e => failed image e
  | Normal name =>
      match copyRootLayer firstManifest name sourceTempDir destTempDir fs with
      | Throw e => failed name e
      | Normal (manifest, fs') =>
          let layers := Layers firstManifest in
          join (copyOtherLayers hwm sourceTempDir layers
                  (mkMachine fs' name destTempDir manifest [] [] None [] Pending None))
      end
  end.

(** The events of the layers are delivered in the order of [schedule]. *)
Definition run_events (schedule : list nat) (m : Machine) : Machine :=
  foldl step m schedule.

(** * What is proved of it: predicates and invariants *)

(** ** Digests *)

(** [s] without its last [n] characters. *)
Definition without_last (n : nat) (s : string) : string :=
  JsString.of_chars (take (String.length s - n) (JsString.chars s)).

Definition lower_hex (c : ascii) : bool :=
  StringToNumber.is_digit c
  || ((97 <=? StringToNumber.code c) && (StringToNumber.code c <=? 102)).

(** [s] is 64 lowercase hexadecimal digits. *)
Definition is_sha256_hex (s : string) : bool :=
  (String.length s =? 64)%nat && forallb lower_hex (JsString.chars s).

(** ** The descriptors of the manifest *)

(** The object a layer starts with, and the one it ends with. *)
Definition unprocessed : list (string * JsVal) := [("MediaType", VStr LayerType)].

Definition descriptor (c : list byte) : list (string * JsVal) :=
  [("MediaType", VStr LayerType); ("Size", VUndef);
   ("Digest", VStr ("sha256:" +:+ Sha256.hex c))].

(** The descriptors that the manifest holds. *)
Definition config_descriptor (m : Machine) : JsVal :=
  Js.get_prop (manifest_value m) "Config".

Definition layer_descriptors (m : Machine) : list JsVal :=
  match Js.get_prop (manifest_value m) "Layers" with
  | VArr xs => xs
  | _ => []
  end.

(** ** Invariants of the machine *)

Section InvariantDefs.

Variables (name dest : string) (manifest : list (string * JsVal)).

(** What holds of the task of layer [l], the [i]-th, whose source had
    content [src] when its stream was opened. *)
Definition task_inv (heap : list (list (string * JsVal))) (fs : gmap string (list byte))
    (i : nat) (l : string) (src : option (list byte)) (t : LayerTask) : Prop :=
  t_layerJson t = i /\ t_imageName t = name /\ t_destDir t = dest
  /\ t_destTempFile t = destTempFile_of l dest
  /\ match t_status t with
     | Streaming =>
         heap !! i = Some unprocessed
         /\ match src with
            | Some c => exists cs, t_sourceStream t = map SData cs ++ [SEnd]
                                   /\ t_sha256Digester t ++ concat cs = c
            | None => exists e, t_sourceStream t = [SError e]
            end
     | Renaming sha =>
         heap !! i = Some unprocessed
         /\ src = Some (t_sha256Digester t)
         /\ sha = Sha256.hex (t_sha256Digester t)
     | Resolved =>
         src = Some (t_sha256Digester t)
         /\ heap !! i = Some (descriptor (t_sha256Digester t))
         /\ is_Some (fs !! blob_file dest name (Sha256.hex (t_sha256Digester t)))
     | Faulted _ => src = Some (t_sha256Digester t)
     end.

Definition tasks_inv (layers : list string) (srcs : list (option (list byte)))
    (heap : list (list (string * JsVal))) (fs : gmap string (list byte))
    (tasks : list LayerTask) : Prop :=
  forall i t, tasks !! i = Some t ->
    exists l src, layers !! i = Some l /\ srcs !! i = Some src
                  /\ task_inv heap fs i l src t.

(** The shape of the machine once the layers are launched. *)
Definition Core (layers : list string) (srcs : list (option (list byte)))
    (m : Machine) : Prop :=
  m_name m = name /\ m_destTempDir m = dest /\ m_manifest m = manifest
  /\ m_Layers m = seq 0 (List.length layers)
  /\ List.length (m_heap m) = List.length layers
  /\ List.length (m_tasks m) = List.length layers
  /\ List.length srcs = List.length layers
  /\ tasks_inv layers srcs (m_heap m) (m_fs m) (m_tasks m).

(** The promise of [run] and the manifest file: the file is as it was
    ([before]) until the promise is fulfilled, and holds the serialised
    manifest from then on. *)
Definition Res (before : option (list byte)) (m : Machine) : Prop :=
  match m_result m with
  | Pending => m_fs m !! manifest_file dest name = before
  | Fulfilled p =>
      p = dest +:+ "/work"
      /\ forallb is_resolved (m_tasks m) = true
      /\ exists text, JSON.stringify (manifest_value m) = Some text
                      /\ m_fs m !! manifest_file dest name
                         = Some (Fs.utf8 text)
  | Rejected _ => False
  end.

(** The files of the layers, when no two layers share a temporary file:
    a temporary file holds what its layer has hashed so far, and the blob
    of a resolved layer hashes to the layer's digest. *)
Definition content_ok (fs : gmap string (list byte)) (t : LayerTask) : Prop :=
  match t_status t with
  | Streaming | Renaming _ =>
      fs !! t_destTempFile t = Some (t_sha256Digester t)
      /\ t_destStream t = List.length (t_sha256Digester t)
  | Resolved =>
      exists c, fs !! blob_file dest name (Sha256.hex (t_sha256Digester t)) = Some c
                /\ Sha256.hex c = Sha256.hex (t_sha256Digester t)
  | Faulted _ => True
  end.

Definition Content (m : Machine) : Prop :=
  forall i t, m_tasks m !! i = Some t -> content_ok (m_fs m) t.

Definition blobs_kept (fs fs' : gmap string (list byte)) : Prop :=
  forall sha, is_Some (fs !! blob_file dest name sha) ->
              is_Some (fs' !! blob_file dest name sha).

(** Blobs that hash to their name keep doing so. *)
Definition blobs_sound (fs fs' : gmap string (list byte)) : Prop :=
  forall sha c, fs !! blob_file dest name sha = Some c -> Sha256.hex c = sha ->
                exists c', fs' !! blob_file dest name sha = Some c' /\ Sha256.hex c' = sha.

End InvariantDefs.

(** The machine once the ['end'] handler of layer [i] has run to its
    end, before the layers are joined. *)
Definition resolved_machine (i : nat) (t : LayerTask) (sha : string)
    (fs : gmap string (list byte)) (m : Machine) : Machine :=
  with_tasks (<[i := with_status Resolved t]> (m_tasks m))
    (with_heap
       (alter (fun o => Js.set_prop o "Digest" (VStr ("sha256:" +:+ sha))) (t_layerJson t)
          (alter (fun o => Js.set_prop o "Size" VUndef) (t_layerJson t) (m_heap m)))
       (with_fs fs m)).

(** The content of each layer file when [copyOtherLayers] starts, [fs1]
    being the file system that [copyRootLayer] leaves. *)
Definition srcs_of (random1 : string) (fs1 : gmap string (list byte))
    (layers : list string) : list (option (list byte)) :=
  (fun l => fs1 !! (mkdtemp "image2dat_src_" random1 +:+ "/" +:+ l)) <$> layers.

(** The error of a source stream whose file cannot be opened. *)
Definition read_error (sourceDir l : string) : JsError :=
  Fs.ENOENT "open" (sourceDir +:+ "/" +:+ l).

(** The errors of the source streams: a stream carries no error but the
    one of the opening of its layer's file, and if the process has ended
    on an uncaught exception, it is the one of a layer whose file was
    missing when its stream was opened. *)
Definition Errors (sourceDir : string) (layers : list string)
    (srcs : list (option (list byte))) (m : Machine) : Prop :=
  (forall i t e, m_tasks m !! i = Some t -> In (SError e) (t_sourceStream t) ->
                 exists l, layers !! i = Some l /\ e = read_error sourceDir l)
  /\ (forall e, m_uncaught m = Some e ->
                exists i l, layers !! i = Some l /\ srcs !! i = Some None
                            /\ e = read_error sourceDir l).

(** Outside the temporary files, the file system is as it was. *)
Definition only_temps (random2 : string) (fs1 : gmap string (list byte))
    (m : Machine) : Prop :=
  forall p, (forall l, p <> destTempFile_of l (mkdtemp "image2dat_dest_" random2)) ->
            m_fs m !! p = fs1 !! p.

(** The machine when [copyOtherLayers] is entered. *)
Definition m0 (random2 name : string) (manifest : list (string * JsVal))
    (fs1 : gmap string (list byte)) : Machine :=
  mkMachine fs1 name (mkdtemp "image2dat_dest_" random2) manifest [] [] None [] Pending None.

(** ** Bundles used as examples *)

(** A bundle with a config file and two layers, the second one empty, and
    one whose two layers share their first path segment. *)
Definition example_fs : gmap string (list byte) :=
  list_to_map [("image2dat_src_A/abcd.json", list_byte_of_string "{}");
               ("image2dat_src_A/l1/layer.tar", list_byte_of_string "abc");
               ("image2dat_src_A/l2/layer.tar", list_byte_of_string "");
               ("image2dat_src_A/a/x.tar", list_byte_of_string "abc");
               ("image2dat_src_A/a/y.tar", list_byte_of_string "")].

Definition example_manifest : SourceManifest :=
  mkSourceManifest "abcd.json" ["l1/layer.tar"; "l2/layer.tar"].

(** The first bundle again, unpacked in another directory. *)
Definition example_fs_again : gmap string (list byte) :=
  list_to_map [("image2dat_src_C/abcd.json", list_byte_of_string "{}");
               ("image2dat_src_C/l1/layer.tar", list_byte_of_string "abc");
               ("image2dat_src_C/l2/layer.tar", list_byte_of_string "")].

Definition shared_segment_manifest : SourceManifest :=
  mkSourceManifest "abcd.json" ["a/x.tar"; "a/y.tar"].

Definition missing_layer_manifest : SourceManifest :=
  mkSourceManifest "abcd.json" ["l1/layer.tar"; "l9/layer.tar"].

(** Runs of these bundles.  The second layer is hashed and renamed before
    the first one delivers any data, which it then does, chunk by chunk of
    two bytes, up to its own rename. *)
Definition second_layer_first : Machine :=
  run_events [1; 1; 0; 0; 0; 0]%nat (run 1%nat "A" "B" "app" example_manifest example_fs).

(** The same run, stopped before the rename of the first layer. *)
Definition first_layer_pending : Machine :=
  run_events [1; 1; 0; 0; 0]%nat (run 1%nat "A" "B" "app" example_manifest example_fs).

(** The first layer alone is taken to its end. *)
Definition first_layer_alone : Machine :=
  run_events [0; 0; 0; 0]%nat (run 1%nat "A" "B" "app" example_manifest example_fs).

(** The first layer writes its three bytes to the shared temporary file,
    then the second, empty, layer ends and renames that file. *)
Definition shared_segment_run : Machine :=
  run_events [0; 1; 1]%nat (run 7%nat "A" "B" "app" shared_segment_manifest example_fs).

(** The first layer delivers its data, the second, missing, its error. *)
Definition missing_layer_run : Machine :=
  run_events [0; 1; 0]%nat (run 7%nat "A" "B" "app" missing_layer_manifest example_fs).

(** ** The files of the pipeline, and the progress of a layer *)

(** The paths that the layers and the manifest are written to: a
    temporary file, a blob file or the manifest file. *)
Definition pipeline_file (dest name p : string) : Prop :=
  (exists l, p = destTempFile_of l dest)
  \/ (exists sha, p = blob_file dest name sha)
  \/ p = manifest_file dest name.

(** The events that the task of a layer has yet to receive before its
    promise is resolved: those of its source stream, then the settlement of
    the rename. *)
Definition events_left (t : LayerTask) : nat :=
  match t_status t with
  | Streaming => List.length (t_sourceStream t) + 1
  | Renaming _ => 1
  | Resolved | Faulted _ => 0
  end.

(** The blob named [sha] holds the bytes of one of the source layers,
    and these hash to [sha]. *)
Definition sourced (dest name : string) (srcs : list (option (list byte)))
    (fs : gmap string (list byte)) (sha : string) : Prop :=
  exists j c, srcs !! j = Some (Some c)
              /\ fs !! blob_file dest name sha = Some c
              /\ Sha256.hex c = sha.

(** A run in which nothing went wrong so far: no uncaught exception, no
    handler that threw, and a promise that is fulfilled as soon as every
    layer is resolved. *)
Definition Live (m : Machine) : Prop :=
  m_uncaught m = None
  /\ (forall e, m_result m <> Rejected e)
  /\ (forall i t, m_tasks m !! i = Some t -> forall e, t_status t <> Faulted e)
  /\ (forallb is_resolved (m_tasks m) = true -> exists p, m_result m = Fulfilled p).

(** ** The text of the manifest *)

Definition dquote : string := String (ascii_of_nat 34) "".

(** A code unit that [JSON.stringify] writes as it is. *)
Definition plain (c : ascii) : bool :=
  (32 <=? StringToNumber.code c)%Z
  && negb (StringToNumber.code c =? 34)%Z
  && negb (StringToNumber.code c =? 92)%Z.

(** The text of the descriptor of a layer whose file holds [c]. *)
Definition layer_text (c : list byte) : string :=
  "{" +:+ dquote +:+ "MediaType" +:+ dquote +:+ ":" +:+ dquote +:+ LayerType +:+ dquote
  +:+ "," +:+ dquote +:+ "Digest" +:+ dquote +:+ ":"
  +:+ dquote +:+ "sha256:" +:+ Sha256.hex c +:+ dquote +:+ "}".

(** The text of the manifest of a bundle whose config file is named
    [config] and whose layer files hold [contents]. *)
Definition manifest_text (config : string) (contents : list (list byte)) : string :=
  "{" +:+ dquote +:+ "SchemaVersion" +:+ dquote +:+ ":2,"
  +:+ dquote +:+ "MediaType" +:+ dquote +:+ ":" +:+ dquote +:+ ManifestType +:+ dquote
  +:+ "," +:+ dquote +:+ "Config" +:+ dquote +:+ ":{"
  +:+ dquote +:+ "MediaType" +:+ dquote +:+ ":" +:+ dquote +:+ ConfigType +:+ dquote
  +:+ "," +:+ dquote +:+ "Digest" +:+ dquote +:+ ":"
  +:+ JSON.quote ("sha256:" +:+ rootLayerSha config) +:+ "},"
  +:+ dquote +:+ "Layers" +:+ dquote +:+ ":["
  +:+ Js.join "," (layer_text <$> contents) +:+ "]}".

(** Two more bundles: one without layers, one whose manifest names a
    config file that is not there. *)
Definition no_layers_manifest : SourceManifest :=
  mkSourceManifest "abcd.json" [].

Definition missing_config_manifest : SourceManifest :=
  mkSourceManifest "zzzz.json" ["l1/layer.tar"].

(** Every event of the two layers of [example_manifest], and one more. *)
Definition complete_schedule : list nat := [1; 0; 1; 0; 0; 0; 0]%nat.

(** * Reading the bundle *)

(** ** The values of [JSON.parse] *)

(** A number is kept as it is written; an object is the list of its own
    properties in the order of their creation. *)
Inductive Json : Type :=
| JNull
| JBool (b : bool)
| JNum (literal : string)
| JStr (s : string)
| JArr (xs : list Json)
| JObj (props : list (string * Json)).

(** What loading a file gives: a value, a thrown error, the [SyntaxError]
    of [JSON.parse], or a text that needs a code unit above 255 (in a
    string literal), about which nothing is said here. *)
Inductive Loaded (A : Type) : Type :=
| Value (v : A)
| Threw (e : JsError)
| ThrewSyntaxError
| NotModelled.
Arguments Value {A} v.
Arguments Threw {A} e.
Arguments ThrewSyntaxError {A}.
Arguments NotModelled {A}.

(** ** [JSON.parse] (ECMA-262, 25.5.1; the grammar of ECMA-404) *)

Module JsonParser.

(** The result of reading one construct at the head of a text. *)
Inductive Parsed (A : Type) : Type :=
| Ok (v : A) (rest : list ascii)
| SyntaxError
| Unmodelled
| NoFuel.
Arguments Ok {A} v rest.
Arguments SyntaxError {A}.
Arguments Unmodelled {A}.
Arguments NoFuel {A}.

Definition pmap {A B : Type} (f : A -> B) (p : Parsed A) : Parsed B :=
  match p with
  | Ok v rest => Ok (f v) rest
  | SyntaxError => SyntaxError
  | Unmodelled => Unmodelled
  | NoFuel => NoFuel
  end.

(** White space: tab, line feed, carriage return, space. *)
Definition is_ws (c : ascii) : bool :=
  let n := StringToNumber.code c in
  (n =? 9)%Z || (n =? 10)%Z || (n =? 13)%Z || (n =? 32)%Z.

Fixpoint skip_ws (l : list ascii) : list ascii :=
  match l with
  | c :: t => if is_ws c then skip_ws t else l
  | [] => []
  end.

(** [l] without its prefix [p]. *)
Fixpoint strip (p l : list ascii) : option (list ascii) :=
  match p, l with
  | [], _ => Some l
  | a :: p', b :: l' => if Ascii.eqb a b then strip p' l' else None
  | _ :: _, [] => None
  end.

Definition literal (word : string) (v : Json) (l : list ascii) : Parsed Json :=
  match strip (list_ascii_of_string word) l with
  | Some rest => Ok v rest
  | None => SyntaxError
  end.

Definition digits (l : list ascii) : list ascii * list ascii :=
  StringToNumber.span StringToNumber.is_digit l.

(** A number: an optional minus, an integer without leading zero, an
    optional fraction, an optional exponent. *)
Definition number (l : list ascii) : Parsed Json :=
  let '(sign, l1) :=
    match l with
    | c :: t => if (StringToNumber.code c =? 45)%Z then ([c], t) else ([], l)
    | [] => ([], l)
    end in
  let int :=
    match l1 with
    | c :: t =>
        if (StringToNumber.code c =? 48)%Z then Some ([c], t)
        else if StringToNumber.is_digit c then Some (digits l1)
        else None
    | [] => None
    end in
  match int with
  | None => SyntaxError
  | Some (i, l2) =>
      let frac :=
        match l2 with
        | c :: t =>
            if (StringToNumber.code c =? 46)%Z then
              match digits t with
              | ([], _) => None
              | (ds, r) => Some (c :: ds, r)
              end
            else Some ([], l2)
        | [] => Some ([], l2)
        end in
      match frac with
      | None => SyntaxError
      | Some (f, l3) =>
          let exp :=
            match l3 with
            | c :: t =>
                if (StringToNumber.code c =? 101)%Z || (StringToNumber.code c =? 69)%Z then
                  let '(s, t') :=
                    match t with
                    | d :: u =>
                        if (StringToNumber.code d =? 43)%Z || (StringToNumber.code d =? 45)%Z
                        then ([d], u) else ([], t)
                    | [] => ([], t)
                    end in
                  match digits t' with
                  | ([], _) => None
                  | (ds, r) => Some (c :: s ++ ds, r)
                  end
                else Some ([], l3)
            | [] => Some ([], l3)
            end in
          match exp with
          | None => SyntaxError
          | Some (e, rest) => Ok (JNum (string_of_list_ascii (sign ++ i ++ f ++ e))) rest
          end
      end
  end.

Definition cons_char (c : ascii) (p : Parsed string) : Parsed string :=
  pmap (String c) p.

(** The code unit written [\uXXXX]. *)
Definition unicode_escape (a b c d : ascii) : Parsed ascii :=
  if forallb StringToNumber.is_hex [a; b; c; d] then
    let v := StringToNumber.value_in 16 [a; b; c; d] in
    if (v <? 256)%Z then Ok (ascii_of_N (Z.to_N v)) [] else Unmodelled
  else SyntaxError.

(** The characters of a string literal, after its opening quote, up to
    its closing quote. *)
Fixpoint string_body (l : list ascii) : Parsed string :=
  match l with
  | [] => SyntaxError
  | c :: t =>
      let n := StringToNumber.code c in
      if (n =? 34)%Z then Ok EmptyString t
      else if (n =? 92)%Z then
        match t with
        | [] => SyntaxError
        | e :: t' =>
            let k := StringToNumber.code e in
            if (k =? 34)%Z || (k =? 92)%Z || (k =? 47)%Z then cons_char e (string_body t')
            else if (k =? 98)%Z then cons_char (ascii_of_nat 8) (string_body t')
            else if (k =? 102)%Z then cons_char (ascii_of_nat 12) (string_body t')
            else if (k =? 110)%Z then cons_char (ascii_of_nat 10) (string_body t')
            else if (k =? 114)%Z then cons_char (ascii_of_nat 13) (string_body t')
            else if (k =? 116)%Z then cons_char (ascii_of_nat 9) (string_body t')
            else if (k =? 117)%Z then
              match t' with
              | a :: b :: c' :: d :: t'' =>
                  match unicode_escape a b c' d with
                  | Ok u _ => cons_char u (string_body t'')
                  | SyntaxError => SyntaxError
                  | Unmodelled => Unmodelled
                  | NoFuel => NoFuel
                  end
              | _ => SyntaxError
              end
            else SyntaxError
        end
      else if (n <? 32)%Z then SyntaxError
      else if (128 <=? n)%Z then Unmodelled
      else cons_char c (string_body t)
  end.

(** A property is defined on an object under construction: a key that is
    already there keeps its place and takes the new value. *)
Fixpoint define (props : list (string * Json)) (k : string) (v : Json)
  : list (string * Json) :=
  match props with
  | [] => [(k, v)]
  | (k', v') :: ps =>
      if String.eqb k' k then (k', v) :: ps else (k', v') :: define ps k v
  end.

(** A value at the head of [l], white space skipped; [elements] are those
    of an array after its opening bracket, [members] those of an object
    after its opening brace.  Every nested value and every element takes
    one unit of [fuel]. *)
Fixpoint value (fuel : nat) (l : list ascii) {struct fuel} : Parsed Json :=
  match fuel with
  | O => NoFuel
  | S f =>
      match skip_ws l with
      | [] => SyntaxError
      | c :: t =>
          let n := StringToNumber.code c in
          if (n =? 34)%Z then pmap JStr (string_body t)
          else if (n =? 91)%Z then
            match skip_ws t with
            | c' :: t' =>
                if (StringToNumber.code c' =? 93)%Z then Ok (JArr []) t'
                else pmap JArr (elements f t)
            | [] => SyntaxError
            end
          else if (n =? 123)%Z then
            match skip_ws t with
            | c' :: t' =>
                if (StringToNumber.code c' =? 125)%Z then Ok (JObj []) t'
                else pmap JObj (members f t [])
            | [] => SyntaxError
            end
          else if (n =? 110)%Z then literal "null" JNull (c :: t)
          else if (n =? 116)%Z then literal "true" (JBool true) (c :: t)
          else if (n =? 102)%Z then literal "false" (JBool false) (c :: t)
          else number (c :: t)
      end
  end
with elements (fuel : nat) (l : list ascii) {struct fuel} : Parsed (list Json) :=
  match fuel with
  | O => NoFuel
  | S f =>
      match value f l with
      | Ok v rest =>
          match skip_ws rest with
          | c :: t =>
              if (StringToNumber.code c =? 44)%Z then pmap (cons v) (elements f t)
              else if (StringToNumber.code c =? 93)%Z then Ok [v] t
              else SyntaxError
          | [] => SyntaxError
          end
      | SyntaxError => SyntaxError
      | Unmodelled => Unmodelled
      | NoFuel => NoFuel
      end
  end
with members (fuel : nat) (l : list ascii) (acc : list (string * Json)) {struct fuel}
  : Parsed (list (string * Json)) :=
  match fuel with
  | O => NoFuel
  | S f =>
      match skip_ws l with
      | q :: t =>
          if (StringToNumber.code q =? 34)%Z then
            match string_body t with
            | Ok k rest =>
                match skip_ws rest with
                | c :: t' =>
                    if (StringToNumber.code c =? 58)%Z then
                      match value f t' with
                      | Ok v rest' =>
                          match skip_ws rest' with
                          | d :: t'' =>
                              if (StringToNumber.code d =? 44)%Z
                              then members f t'' (define acc k v)
                              else if (StringToNumber.code d =? 125)%Z
                              then Ok (define acc k v) t''
                              else SyntaxError
                          | [] => SyntaxError
                          end
                      | SyntaxError => SyntaxError
                      | Unmodelled => Unmodelled
                      | NoFuel => NoFuel
                      end
                    else SyntaxError
                | [] => SyntaxError
                end
            | SyntaxError => SyntaxError
            | Unmodelled => Unmodelled
            | NoFuel => NoFuel
            end
          else SyntaxError
      | [] => SyntaxError
      end
  end.

(** [JSON.parse(text)]: one value, with white space around it and nothing
    else.  The fuel given is more than a text of that length can use. *)
Definition parse (text : string) : Loaded Json :=
  let l := list_ascii_of_string text in
  match value (2 * List.length l + 2)%nat l with
  | Ok v rest =>
      match skip_ws rest with
      | [] => Value v
      | _ :: _ => ThrewSyntaxError
      end
  | SyntaxError => ThrewSyntaxError
  | Unmodelled | NoFuel => NotModelled
  end.

End JsonParser.

(** ** Operations of the language on parsed values *)

Module JsonOps.

(** [k] is an array index: the decimal form, without leading zero, of an
    integer below 2^32 - 1. *)
Definition array_index (k : string) : option Z :=
  let l := list_ascii_of_string k in
  match l with
  | [] => None
  | c :: t =>
      if forallb StringToNumber.is_digit l
         && (negb (StringToNumber.code c =? 48)%Z || match t with [] => true | _ => false end)
         && (StringToNumber.value_in 10 l <=? 4294967294)%Z
      then Some (StringToNumber.value_in 10 l)
      else None
  end.

Fixpoint insert_index (x : Z * string) (l : list (Z * string)) : list (Z * string) :=
  match l with
  | [] => [x]
  | y :: l' => if (fst x <? fst y)%Z then x :: l else y :: insert_index x l'
  end.

Definition indices (n : nat) : list string :=
  map (fun i => Js.number_to_string (Z.of_nat i)) (seq 0 n).

(** [Object.keys(v)]: the array indices in ascending order, then the
    other keys in the order of their creation. *)
Definition keys (v : Json) : Completion (list string) :=
  match v with
  | JNull => Throw (TypeError "Cannot convert undefined or null to object")
  | JBool _ | JNum _ => Normal []
  | JStr s => Normal (indices (String.length s))
  | JArr xs => Normal (indices (List.length xs))
  | JObj props =>
      let ks := map fst props in
      let indexed :=
        fold_right (fun k acc => match array_index k with
                                 | Some n => insert_index (n, k) acc
                                 | None => acc
                                 end) [] ks in
      Normal (map snd indexed
              ++ List.filter (fun k => match array_index k with Some _ => false | None => true end)
                   ks)
  end.

Fixpoint lookup_own (props : list (string * Json)) (k : string) : option Json :=
  match props with
  | [] => None
  | (k', v) :: ps => if String.eqb k' k then Some v else lookup_own ps k
  end.

(** [v[0]]; [None] is [undefined]. *)
Definition first (v : Json) : Completion (option Json) :=
  match v with
  | JNull => Throw (TypeError "Cannot read properties of null (reading '0')")
  | JBool _ | JNum _ => Normal None
  | JStr s => Normal match s with
                     | String c _ => Some (JStr (String c ""))
                     | EmptyString => None
                     end
  | JArr xs => Normal (head xs)
  | JObj props => Normal (lookup_own props "0")
  end.

(** [v[k]] for a key [k] that no prototype defines and that is neither an
    index nor [length], such as [Config] and [Layers]. *)
Definition named (v : option Json) (k : string) : Completion (option Json) :=
  match v with
  | None =>
      Throw (TypeError ("Cannot read properties of undefined (reading '" +:+ k +:+ "')"))
  | Some JNull =>
      Throw (TypeError ("Cannot read properties of null (reading '" +:+ k +:+ "')"))
  | Some (JObj props) => Normal (lookup_own props k)
  | Some _ => Normal None
  end.

(** The conversion of [v] to a string throws: an object with an own
    property [toString] (which cannot be called), or an array that holds
    such a value. *)
Fixpoint string_conversion_throws (v : Json) : bool :=
  match v with
  | JObj props => existsb (fun kv => String.eqb (fst kv) "toString") props
  | JArr xs => existsb string_conversion_throws xs
  | _ => false
  end.

End JsonOps.

(** ** [parseJsonFromFile], [parseRepositories], [parseManifest] *)

(** [fsPromises.readFile(path)] *)
Definition readFile (path : string) (fs : gmap string (list byte))
  : Completion (list byte) :=
  match fs !! path with
  | Some c => Normal c
  | None => Throw (Fs.ENOENT "open" path)
  end.

(** The buffer read is converted to text by [JSON.parse]; a byte above
    127 is kept as one code unit, which the parser refuses outside string
    literals and declines to read inside them. *)
Definition parseJsonFromFile (sourceTempDir file : string) (fs : gmap string (list byte))
  : Loaded Json :=
  match readFile (sourceTempDir +:+ "/" +:+ file) fs with
  | Normal content => JsonParser.parse (string_of_list_byte content)
  | Throw e => Threw e
  end.

Definition parseRepositories (sourceTempDir : string) (fs : gmap string (list byte))
  : Loaded Json :=
  parseJsonFromFile sourceTempDir "repositories" fs.

Definition parseManifest (sourceTempDir : string) (fs : gmap string (list byte))
  : Loaded Json :=
  parseJsonFromFile sourceTempDir "manifest.json" fs.

(** ** [run], from the reading of the bundle *)

(** What [run] comes to: a machine (the promise rejected before or in
    [copyOtherLayers], or the layers started), the [SyntaxError] of one of
    the two files, or a file that is not modelled. *)
Inductive BundleRun : Type :=
| Ran (m : Machine)
| SyntaxErrorIn (file : string)
| BundleNotModelled.

(** One iteration of the callback of [copyOtherLayers] on an element [l]
    of any kind.  The template literal of [console.log] converts [l] to a
    string, which may throw; then the object is created and pushed; then
    [compressLayer] calls [indexOf] and [substring] on [l], which only a
    string has both.  A thrown error rejects the promise of this
    iteration: the first one is the one [Promise.all] rejects with. *)
Definition launch_json (hwm : nat) (sourceDir : string)
    (st : Machine * option JsError) (l : Json) : Machine * option JsError :=
  let first_error e := match snd st with Some e0 => Some e0 | None => Some e end in
  let m := fst st in
  if JsonOps.string_conversion_throws l then
    (m, first_error (TypeError "Cannot convert object to primitive value"))
  else
    match l with
    | JStr s => (launch hwm sourceDir m s, snd st)
    | _ =>
        let ref := List.length (m_heap m) in
        (mkMachine (m_fs m) (m_name m) (m_destTempDir m) (m_manifest m)
           (m_Layers m ++ [ref]) (m_heap m ++ [[("MediaType", VStr LayerType)]])
           (Some ref) (m_tasks m) (m_result m) (m_uncaught m),
         first_error
           (TypeError
              match l with
              | JNull => "Cannot read properties of null (reading 'indexOf')"
              | JArr _ => "layerFile.substring is not a function"
              | _ => "layerFile.indexOf is not a function"
              end))
    end.

(** [run], with [fs] the file system once the archive is unpacked. *)
Definition run_bundle (hwm : nat) (random1 random2 : string)
    (fs : gmap string (list byte)) : BundleRun :=
  let sourceTempDir := mkdtemp "image2dat_src_" random1 in
  let destTempDir := mkdtemp "image2dat_dest_" random2 in
  let rejected name e := Ran (mkMachine fs name destTempDir [] [] [] None [] (Rejected e) None) in
  match parseRepositories sourceTempDir fs with
  | Threw e => rejected "" e
  | ThrewSyntaxError => SyntaxErrorIn "repositories"
  | NotModelled => BundleNotModelled
  | Value repositories =>
      match JsonOps.keys repositories with
      | Throw e => rejected "" e
      | Normal ks =>
          match head ks with
          | None =>
              rejected ""
                (TypeError "Cannot read properties of undefined (reading 'lastIndexOf')")
          | Some image =>
              match simplifyName image with
              | Throw e => rejected image e
              | Normal name =>
                  match parseManifest sourceTempDir fs with
                  | Threw e => rejected name e
                  | ThrewSyntaxError => SyntaxErrorIn "manifest.json"
                  | NotModelled => BundleNotModelled
                  | Value sourceManifest =>
                      match JsonOps.first sourceManifest with
                      | Throw e => rejected name e
                      | Normal firstManifest =>
                          match JsonOps.named firstManifest "Config" with
                          | Throw e => rejected name e
                          | Normal (Some (JStr config)) =>
                              match copyRootLayer (mkSourceManifest config []) name
                                      sourceTempDir destTempDir fs with
                              | Throw e => rejected name e
                              | Normal (manifest, fs') =>
                                  let started :=
                                    mkMachine fs' name destTempDir manifest [] [] None []
                                      Pending None in
                                  match JsonOps.named firstManifest "Layers" with
                                  | Normal (Some (JArr layers)) =>
                                      let '(m, err) :=
                                        foldl (launch_json hwm sourceTempDir)
                                          (started, None) layers in
                                      Ran match err with
                                          | Some e => with_result (Rejected e) m
                                          | None => join m
                                          end
                                  | Normal None =>
                                      Ran (with_result
                                             (Rejected
                                                (TypeError
                                                   "Cannot read properties of undefined (reading 'map')"))
                                             started)
                                  | Normal (Some JNull) =>
                                      Ran (with_result
                                             (Rejected
                                                (TypeError
                                                   "Cannot read properties of null (reading 'map')"))
                                             started)
                                  | Normal (Some _) =>
                                      Ran (with_result
                                             (Rejected (TypeError "layers.map is not a function"))
                                             started)
                                  | Throw e => Ran (with_result (Rejected e) started)
                                  end
                              end
                          | Normal None =>
                              rejected name
                                (TypeError
                                   "Cannot read properties of undefined (reading 'substr')")
                          | Normal (Some JNull) =>
                              rejected name
                                (TypeError "Cannot read properties of null (reading 'substr')")
                          | Normal (Some _) =>
                              rejected name (TypeError "config.substr is not a function")
                          end
                      end
                  end
              end
          end
      end
  end.

(** ** Bundles with their two metadata files *)

Definition quoted (s : string) : string := dquote +:+ s +:+ dquote.

(** [{"app":{"latest":"l2"}}] *)
Definition repositories_text : string :=
  "{" +:+ quoted "app" +:+ ":{" +:+ quoted "latest" +:+ ":" +:+ quoted "l2" +:+ "}}".

(** The manifest list of a bundle with one image, as [docker save] writes
    it, followed by a line feed. *)
Definition manifest_json_text (config : string) (layer1 layer2 : Json) : string :=
  "[{" +:+ quoted "Config" +:+ ":" +:+ quoted config +:+ ","
  +:+ quoted "RepoTags" +:+ ":[" +:+ quoted "app:latest" +:+ "],"
  +:+ quoted "Layers" +:+ ":["
  +:+ match layer1 with JStr s => quoted s | _ => "null" end +:+ ", "
  +:+ match layer2 with JStr s => quoted s | _ => "null" end +:+ "]}]"
  +:+ String (ascii_of_nat 10) "".

Definition with_metadata (repositories manifest : string) (fs : gmap string (list byte))
  : gmap string (list byte) :=
  <["image2dat_src_A/repositories" := list_byte_of_string repositories]>
    (<["image2dat_src_A/manifest.json" := list_byte_of_string manifest]> fs).

(** The bundle of [example_manifest], one whose index is empty, one whose
    manifest list is empty, one whose entry has no [Layers], and one whose
    second layer is [null]. *)
Definition bundle_fs : gmap string (list byte) :=
  with_metadata repositories_text
    (manifest_json_text "abcd.json" (JStr "l1/layer.tar") (JStr "l2/layer.tar")) example_fs.

Definition empty_index_fs : gmap string (list byte) :=
  with_metadata "{}"
    (manifest_json_text "abcd.json" (JStr "l1/layer.tar") (JStr "l2/layer.tar")) example_fs.

Definition empty_list_fs : gmap string (list byte) :=
  with_metadata repositories_text " [ ] " example_fs.

Definition no_layers_key_fs : gmap string (list byte) :=
  with_metadata repositories_text
    ("[{" +:+ quoted "Config" +:+ ":" +:+ quoted "abcd.json" +:+ "}]") example_fs.

Definition null_layer_fs : gmap string (list byte) :=
  with_metadata repositories_text
    (manifest_json_text "abcd.json" (JStr "l1/layer.tar") JNull) example_fs.

(** The fields of the tasks that name files: they never change. *)
Definition task_paths (dest name : string) (m : Machine) : Prop :=
  m_name m = name /\ m_destTempDir m = dest
  /\ forall i t, m_tasks m !! i = Some t ->
       t_imageName t = name /\ t_destDir t = dest
       /\ exists l, t_destTempFile t = destTempFile_of l dest.

(** ** The manifest as [JSON.parse] reads it *)

(** A code unit of ASCII: its byte in a file is the same in every
    encoding. *)
Definition ascii7 (c : ascii) : bool := (StringToNumber.code c <? 128)%Z.

Definition layer_json (c : list byte) : Json :=
  JObj [("MediaType", JStr LayerType); ("Digest", JStr ("sha256:" +:+ Sha256.hex c))].

Definition manifest_json (config : string) (contents : list (list byte)) : Json :=
  JObj [("SchemaVersion", JNum "2");
        ("MediaType", JStr ManifestType);
        ("Config", JObj [("MediaType", JStr ConfigType);
                         ("Digest", JStr ("sha256:" +:+ rootLayerSha config))]);
        ("Layers", JArr (layer_json <$> contents))].

(** The code units of the config object of the manifest. *)
Definition config_chars (config : string) : list ascii :=
  "{"%char :: JsString.chars (JSON.quote "MediaType") ++ ":"%char ::
    JsString.chars (JSON.quote ConfigType) ++ ","%char ::
    JsString.chars (JSON.quote "Digest") ++ ":"%char ::
    JsString.chars (JSON.quote ("sha256:" +:+ rootLayerSha config)) ++ ["}"%char].

(** * The streams of [compressLayer], write by write

    The embedding above records a chunk in the temporary file when it is
    handed to [destStream], and performs a rename when its promise is
    awaited.  The one below follows [compressLayer] more closely.  The file
    of [destStream] is opened after [createWriteStream] has returned; the
    chunks handed to the stream wait in a queue and are written one at a
    time, each at an event of its own; [pipe] pauses the source while the
    queue holds [highWaterMark] bytes or more; [fsPromises.rename] is
    performed at an event of its own, between the ['end'] of the source and
    the rest of the handler.  A file is followed through its descriptor,
    whatever names it goes by.  The content of a source file is taken when
    its stream is made, as above: the destination directory of [run] is a
    new one, so that the program writes to no file that was there before.
    Every order of these events that the code allows is one of the model (the pause that [pipe] makes for the hash
    object, which ends without any event of the file system, is not
    modelled: it only removes orders). *)

Module Async.

(** The files of a disk, numbered, and the names they go by. *)
Record Disk : Type := mkDisk {
  d_names : gmap string nat;
  d_files : list (list byte);
}.

(** The content of the file that [path] names. *)
Definition read (d : Disk) (path : string) : option (list byte) :=
  match d_names d !! path with
  | Some n => d_files d !! n
  | None => None
  end.

(** The files by their names, for the functions that read them. *)
Definition view (d : Disk) : gmap string (list byte) :=
  omap (fun n => d_files d !! n) (d_names d).

(** [open(path, 'w')]: the file is truncated, or made if no file goes by
    that name. *)
Definition open_w (path : string) (d : Disk) : nat * Disk :=
  match d_names d !! path with
  | Some n => (n, mkDisk (d_names d) (<[n := []]> (d_files d)))
  | None =>
      let n := List.length (d_files d) in
      (n, mkDisk (<[path := n]> (d_names d)) (d_files d ++ [[]]))
  end.

(** [write(fd, chunk)] at the offset [pos] that the descriptor has
    reached. *)
Definition pwrite (n pos : nat) (chunk : list byte) (d : Disk) : Disk :=
  mkDisk (d_names d) (alter (Fs.write_at pos chunk) n (d_files d)).

(** [rename(src, dst)]: the file goes by another name. *)
Definition rename (dirs : list string) (src dst : string) (d : Disk) : Completion Disk :=
  names ← Fs.rename dirs src dst (d_names d);
  Normal (mkDisk names (d_files d)).

Inductive Status : Type :=
| Streaming                        (* waiting for the source stream's events *)
| Renaming (sha : string)          (* at [await rename], the rename not yet performed *)
| Settling (sha : string) (failure : option JsError)
                                   (* the rename performed, the handler not yet resumed *)
| Resolved                         (* [resolve(layerJson)] was called *)
| Faulted (e : JsError).           (* the handler threw: nothing settles the promise *)

(** The closure that one call of [compressLayer] leaves behind. *)
Record Task : Type := mkTask {
  k_layerJson : list (string * JsVal);  (* own properties of [layerJson] *)
  k_imageName : string;
  k_destDir : string;
  k_destTempFile : string;
  k_sourceStream : list StreamEvent;    (* events not yet emitted *)
  k_sha256Digester : list byte;         (* bytes absorbed by the hash object *)
  k_fd : option nat;                    (* the file of [destStream], once open *)
  k_queue : list (list byte);           (* chunks handed to [destStream], not yet written *)
  k_written : nat;                      (* offset reached by the descriptor *)
  k_paused : bool;                      (* [pipe] has paused the source *)
  k_status : Status;
}.

Record Machine : Type := mkMachine {
  a_disk : Disk;
  a_tasks : list Task;
  a_uncaught : option JsError;          (* the process ended on an uncaught exception *)
}.

(** What happens, to the layer [i]. *)
Inductive Event : Type :=
| Source (i : nat)    (* the next event of its source stream *)
| Opened (i : nat)    (* the file of its [destStream] is open *)
| Written (i : nat)   (* the oldest chunk of its queue is written *)
| Renamed (i : nat)   (* its rename is performed *)
| Settled (i : nat).  (* its ['end'] handler resumes after [await rename] *)

(** [compressLayer], up to its return: the streams are made, nothing is
    open yet. *)
Definition compressLayer (hwm : nat) (layerJson : list (string * JsVal))
    (layerFile imageName sourceDir destDir : string) (d : Disk) : Task :=
  let destTempFile := destTempFile_of layerFile destDir in
  let sourceFile := sourceDir +:+ "/" +:+ layerFile in
  let sourceStream := createReadStream hwm sourceFile (view d) in
  mkTask layerJson imageName destDir destTempFile sourceStream
         [] None [] 0%nat false Streaming.

(** [copyOtherLayers], up to its return: one call of [compressLayer] per
    layer, each with a [layerJson] of its own (the manifest, into which the
    same objects are pushed, is followed by the machine above). *)
Definition copyOtherLayers (hwm : nat) (imageName : string) (layers : list string)
    (sourceDir destDir : string) (d : Disk) : Machine :=
  mkMachine d
    ((fun l =>
        let layerJson := [("MediaType", VStr LayerType)] in
        compressLayer hwm layerJson l imageName sourceDir destDir d) <$> layers)
    None.

Definition with_task (i : nat) (t : Task) (d : Disk) (m : Machine) : Machine :=
  mkMachine d (<[i := t]> (a_tasks m)) (a_uncaught m).

(** An event of the source stream: a chunk goes to both pipes, and the
    source is paused when [destStream.write] returns [false]; at ['end'] the
    digest is taken and the rename asked for; an ['error'] finds no
    listener. *)
Definition on_source (whwm : Z) (i : nat) (t : Task) (m : Machine) : Machine :=
  match k_status t with
  | Streaming =>
      if k_paused t then m
      else
        match k_sourceStream t with
        | SData chunk :: rest =>
            let queue := k_queue t ++ [chunk] in
            let paused := whwm <=? Z.of_nat (List.length (concat queue)) in
            with_task i
              (mkTask (k_layerJson t) (k_imageName t) (k_destDir t) (k_destTempFile t)
                      rest (k_sha256Digester t ++ chunk) (k_fd t) queue (k_written t)
                      paused Streaming)
              (a_disk m) m
        | SEnd :: rest =>
            let sha := Sha256.hex (k_sha256Digester t) in
            with_task i
              (mkTask (k_layerJson t) (k_imageName t) (k_destDir t) (k_destTempFile t)
                      rest (k_sha256Digester t) (k_fd t) (k_queue t) (k_written t)
                      (k_paused t) (Renaming sha))
              (a_disk m) m
        | SError e :: _ => mkMachine (a_disk m) (a_tasks m) (Some e)
        | [] => m
        end
  | _ => m
  end.

Definition on_opened (i : nat) (t : Task) (m : Machine) : Machine :=
  match k_fd t with
  | None =>
      let '(n, d) := open_w (k_destTempFile t) (a_disk m) in
      with_task i
        (mkTask (k_layerJson t) (k_imageName t) (k_destDir t) (k_destTempFile t)
                (k_sourceStream t) (k_sha256Digester t) (Some n) (k_queue t) (k_written t)
                (k_paused t) (k_status t))
        d m
  | Some _ => m
  end.

(** A write is done: when the queue is empty the stream emits ['drain']
    and [pipe] resumes the source. *)
Definition on_written (i : nat) (t : Task) (m : Machine) : Machine :=
  match k_fd t, k_queue t with
  | Some n, chunk :: queue =>
      with_task i
        (mkTask (k_layerJson t) (k_imageName t) (k_destDir t) (k_destTempFile t)
                (k_sourceStream t) (k_sha256Digester t) (k_fd t) queue
                (k_written t + List.length chunk)
                (match queue with [] => false | _ :: _ => k_paused t end) (k_status t))
        (pwrite n (k_written t) chunk (a_disk m)) m
  | _, _ => m
  end.

Definition with_status (s : Status) (t : Task) : Task :=
  mkTask (k_layerJson t) (k_imageName t) (k_destDir t) (k_destTempFile t)
         (k_sourceStream t) (k_sha256Digester t) (k_fd t) (k_queue t) (k_written t)
         (k_paused t) s.

Definition on_renamed (i : nat) (t : Task) (m : Machine) : Machine :=
  match k_status t with
  | Renaming sha =>
      let destFileName := blob_file (k_destDir t) (k_imageName t) sha in
      match rename (directories (k_destDir t) (k_imageName t)) (k_destTempFile t)
              destFileName (a_disk m) with
      | Normal d => with_task i (with_status (Settling sha None) t) d m
      | Throw e => with_task i (with_status (Settling sha (Some e)) t) (a_disk m) m
      end
  | _ => m
  end.

(** The rest of the ['end'] handler. *)
Definition on_settled (i : nat) (t : Task) (m : Machine) : Machine :=
  match k_status t with
  | Settling sha (Some e) => with_task i (with_status (Faulted e) t) (a_disk m) m
  | Settling sha None =>
      let destFileName := blob_file (k_destDir t) (k_imageName t) sha in
      match Js.await (Js.get_prop (Fs.stat destFileName (view (a_disk m))) "size") with
      | Throw e => with_task i (with_status (Faulted e) t) (a_disk m) m
      | Normal size =>
          let layerJson :=
            Js.set_prop (Js.set_prop (k_layerJson t) "Size" size)
              "Digest" (VStr ("sha256:" +:+ sha)) in
          with_task i
            (mkTask layerJson (k_imageName t) (k_destDir t) (k_destTempFile t)
                    (k_sourceStream t) (k_sha256Digester t) (k_fd t) (k_queue t)
                    (k_written t) (k_paused t) Resolved)
            (a_disk m) m
      end
  | _ => m
  end.

Definition event_layer (ev : Event) : nat :=
  match ev with
  | Source i | Opened i | Written i | Renamed i | Settled i => i
  end.

(** One event; none once the process has ended. *)
Definition step (whwm : Z) (m : Machine) (ev : Event) : Machine :=
  match a_uncaught m, a_tasks m !! event_layer ev with
  | None, Some t =>
      match ev with
      | Source i => on_source whwm i t m
      | Opened i => on_opened i t m
      | Written i => on_written i t m
      | Renamed i => on_renamed i t m
      | Settled i => on_settled i t m
      end
  | _, _ => m
  end.

Definition run_events (whwm : Z) (events : list Event) (m : Machine) : Machine :=
  foldl (step whwm) m events.

End Async.

(** ** Invariants of the streams *)

Section AsyncInvariantDefs.

Variables (name dest sourceDir : string) (d0 : Async.Disk).

(** The content of the file of layer [l] when the streams are made. *)
Definition source_of (l : string) : option (list byte) :=
  Async.read d0 (sourceDir +:+ "/" +:+ l).

(** The rename of the task was performed, with success. *)
Definition renamed (t : Async.Task) : Prop :=
  match Async.k_status t with
  | Async.Settling _ None | Async.Resolved => True
  | _ => False
  end.

(** The source stream, the hash object and the descriptor. *)
Definition stream_ok (src : option (list byte)) (t : Async.Task) : Prop :=
  match Async.k_status t with
  | Async.Streaming =>
      Async.k_layerJson t = unprocessed
      /\ match src with
         | Some c => exists cs, Async.k_sourceStream t = map SData cs ++ [SEnd]
                                /\ Async.k_sha256Digester t ++ concat cs = c
         | None => exists e, Async.k_sourceStream t = [SError e]
         end
  | Async.Renaming sha | Async.Settling sha _ =>
      Async.k_layerJson t = unprocessed
      /\ src = Some (Async.k_sha256Digester t)
      /\ sha = Sha256.hex (Async.k_sha256Digester t)
  | Async.Resolved =>
      Async.k_layerJson t = descriptor (Async.k_sha256Digester t)
      /\ src = Some (Async.k_sha256Digester t)
  | Async.Faulted _ => src = Some (Async.k_sha256Digester t)
  end.

(** What was handed to [destStream] is what was hashed: the bytes not yet
    written are those of the queue. *)
Definition handed_ok (t : Async.Task) : Prop :=
  (Async.k_written t <= List.length (Async.k_sha256Digester t))%nat
  /\ drop (Async.k_written t) (Async.k_sha256Digester t) = concat (Async.k_queue t).

(** The blob path of [sha] names the file of a layer with that digest
    whose rename was performed. *)
Definition blob_held (d : Async.Disk) (tasks : list Async.Task) (sha : string) : Prop :=
  exists (j : nat) (tj : Async.Task) (nj : nat),
    tasks !! j = Some tj /\ Async.k_fd tj = Some nj /\ renamed tj
    /\ Async.d_names d !! blob_file dest name sha = Some nj
    /\ Sha256.hex (Async.k_sha256Digester tj) = sha.

(** The file of [destStream]: it holds the bytes written so far; it goes
    by the name of the temporary file until the rename, and then the blob
    path names the file of a layer with the same digest (this one, unless
    another one was renamed over it). *)
Definition file_ok (d : Async.Disk) (tasks : list Async.Task) (t : Async.Task) : Prop :=
  match Async.k_fd t with
  | None =>
      Async.d_names d !! Async.k_destTempFile t = None
      /\ Async.k_written t = 0%nat
      /\ ~ renamed t
  | Some n =>
      Async.d_files d !! n
      = Some (take (Async.k_written t) (Async.k_sha256Digester t))
      /\ match Async.k_status t with
         | Async.Streaming | Async.Renaming _ =>
             Async.d_names d !! Async.k_destTempFile t = Some n
         | Async.Settling _ None | Async.Resolved =>
             Async.d_names d !! Async.k_destTempFile t = None
             /\ blob_held d tasks (Sha256.hex (Async.k_sha256Digester t))
         | Async.Settling _ (Some _) | Async.Faulted _ => True
         end
  end.

Definition fds_distinct (tasks : list Async.Task) : Prop :=
  forall (i j : nat) (ti tj : Async.Task) (n : nat),
    tasks !! i = Some ti -> tasks !! j = Some tj ->
    Async.k_fd ti = Some n -> Async.k_fd tj = Some n -> i = j.

(** What holds of the tasks in every state, whatever the layers. *)
Definition ACore (layers : list string) (m : Async.Machine) : Prop :=
  List.length (Async.a_tasks m) = List.length layers
  /\ forall (i : nat) (t : Async.Task),
       Async.a_tasks m !! i = Some t ->
       exists l : string,
         layers !! i = Some l
         /\ Async.k_imageName t = name /\ Async.k_destDir t = dest
         /\ Async.k_destTempFile t = destTempFile_of l dest
         /\ stream_ok (source_of l) t /\ handed_ok t
         /\ (renamed t ->
             is_Some (Async.d_names (Async.a_disk m)
                        !! blob_file dest name (Sha256.hex (Async.k_sha256Digester t)))).

(** What holds of their files when no two layers share a temporary
    file. *)
Definition AFiles (m : Async.Machine) : Prop :=
  fds_distinct (Async.a_tasks m)
  /\ forall (i : nat) (t : Async.Task),
       Async.a_tasks m !! i = Some t ->
       file_ok (Async.a_disk m) (Async.a_tasks m) t.

End AsyncInvariantDefs.

(** ** A layer whose write is still queued when its promise resolves *)

(** One layer of three bytes, in a destination that holds the config blob
    only; the write stream's high water mark is the one of Node.js. *)
Definition async_disk : Async.Disk :=
  Async.mkDisk
    (list_to_map [("image2dat_src_A/l1/layer.tar", 0%nat);
                  ("image2dat_dest_B/work/app/blobs/sha256:abcd", 1%nat)])
    [list_byte_of_string "abc"; list_byte_of_string "{}"].

Definition async_start : Async.Machine :=
  Async.copyOtherLayers 7 "app" ["l1/layer.tar"] "image2dat_src_A" "image2dat_dest_B"
    async_disk.

(** The file is opened, the chunk is read and handed to both pipes, the
    source ends, the rename is performed and the handler resumes: the
    promise is resolved, and the chunk is still in the queue. *)
Definition resolved_before_written : Async.Machine :=
  Async.run_events 16384
    [Async.Opened 0%nat; Async.Source 0%nat; Async.Source 0%nat; Async.Renamed 0%nat;
     Async.Settled 0%nat]
    async_start.

(** The write is done afterwards. *)
Definition written_at_last : Async.Machine :=
  Async.step 16384 resolved_before_written (Async.Written 0%nat).

(** * Properties *)

(** ** Strings *)

Section StringFacts.

Lemma chars_app (a b : string) :
  JsString.chars (a +:+ b) = JsString.chars a ++ JsString.chars b.
Proof.
  unfold JsString.chars. induction a as [|c a IH]; [reflexivity|].
  change (String c a +:+ b) with (String c (a +:+ b)).
  cbn [list_ascii_of_string]. rewrite IH. reflexivity.
Qed.

Lemma chars_length (s : string) :
  List.length (JsString.chars s) = String.length s.
Proof. induction s as [|c s IH]; [reflexivity|]. cbn. f_equal. exact IH. Qed.

Lemma of_chars_chars (s : string) : JsString.of_chars (JsString.chars s) = s.
Proof. apply string_of_list_ascii_of_string. Qed.

Lemma chars_of_chars (l : list ascii) : JsString.chars (JsString.of_chars l) = l.
Proof. apply list_ascii_of_string_of_list_ascii. Qed.

Lemma of_chars_app (a b : list ascii) :
  JsString.of_chars (a ++ b) = JsString.of_chars a +:+ JsString.of_chars b.
Proof.
  rewrite <- (of_chars_chars (JsString.of_chars a +:+ JsString.of_chars b)).
  rewrite chars_app, !chars_of_chars. reflexivity.
Qed.

Lemma js_length_app (a b : string) :
  JsString.length (a +:+ b) = JsString.length a + JsString.length b.
Proof.
  unfold JsString.length. rewrite <- !chars_length, chars_app, length_app. lia.
Qed.

Lemma length_nonneg (s : string) : 0 <= JsString.length s.
Proof. unfold JsString.length. lia. Qed.

(** The first [n] code units of [s]. *)
Lemma slice_0 (s : string) (n : Z) :
  JsString.slice s 0 n = JsString.of_chars (take (Z.to_nat n) (JsString.chars s)).
Proof. unfold JsString.slice. rewrite Z.sub_0_r. reflexivity. Qed.

Lemma slice_0_app (a b : string) :
  JsString.slice (a +:+ b) 0 (JsString.length a) = a.
Proof.
  rewrite slice_0, chars_app. unfold JsString.length.
  rewrite Nat2Z.id, <- chars_length, take_app_length. apply of_chars_chars.
Qed.

(** [substr] from index 0: the string without its last characters. *)
Lemma substr_0 (s : string) (n : Z) :
  0 <= n <= JsString.length s ->
  JsString.substr s (Int 0) (Some (Int n)) = JsString.slice s 0 n.
Proof.
  intros Hn. unfold JsString.substr, JsString.clamp. cbn.
  replace (Z.min 0 (JsString.length s)) with 0 by lia.
  f_equal. lia.
Qed.

Lemma substr_0_neg (s : string) (n : Z) :
  n <= 0 -> JsString.substr s (Int 0) (Some (Int n)) = "".
Proof.
  intros Hn. pose proof (length_nonneg s).
  unfold JsString.substr, JsString.clamp, JsString.slice. cbn.
  replace (Z.min 0 (JsString.length s)) with 0 by lia.
  replace (Z.to_nat _) with 0%nat by lia. reflexivity.
Qed.

(** Occurrences of a one-character pattern. *)
Lemma prefix_char (c : ascii) (s : string) :
  String.prefix (String c "") s = true <-> exists s', s = String c s'.
Proof.
  destruct s as [|d s]; cbn.
  - split; [discriminate | intros [? ?]; discriminate].
  - destruct (Ascii.ascii_dec c d) as [->|Hne].
    + destruct s; split; eauto.
    + split; [discriminate | intros [? [=]]; congruence].
Qed.

Lemma indexOf_from_char (c : ascii) (s : string) (i : nat) :
  match JsString.indexOf_from (String c "") s i with
  | Some k => exists a b, s = a +:+ String c b /\ ~ In c (JsString.chars a)
                          /\ k = (i + String.length a)%nat
  | None => ~ In c (JsString.chars s)
  end.
Proof.
  revert i. induction s as [|d s IH]; intros i.
  - cbn. tauto.
  - cbn [JsString.indexOf_from].
    destruct (String.prefix (String c "") (String d s)) eqn:Hp.
    + apply prefix_char in Hp as [s' [= -> ->]].
      exists "", s'. cbn. split; [reflexivity|]. split; [tauto | lia].
    + specialize (IH (S i)).
      assert (Hcd : c <> d).
      { intros ->. assert (String.prefix (String d "") (String d s) = true) as E
          by (apply prefix_char; eauto). congruence. }
      destruct (JsString.indexOf_from (String c "") s (S i)) as [k|].
      * destruct IH as (a & b & -> & Hna & ->).
        exists (String d a), b. split; [reflexivity|]. split.
        -- cbn. intros [?|?]; [congruence | tauto].
        -- cbn. lia.
      * cbn. intros [?|?]; [congruence | tauto].
Qed.

Lemma lastIndexOf_from_char (c : ascii) (s : string) (i : nat) (found : option nat) :
  JsString.lastIndexOf_from (String c "") s i found = None <->
  found = None /\ ~ In c (JsString.chars s).
Proof.
  revert i found. induction s as [|d s IH]; intros i found.
  - cbn. tauto.
  - cbn [JsString.lastIndexOf_from]. rewrite IH.
    destruct (String.prefix (String c "") (String d s)) eqn:Hp.
    + apply prefix_char in Hp as [s' [= -> ->]].
      cbn. split; [intros [[=] _] | intros [_ H]; exfalso; apply H; auto].
    + assert (Hcd : c <> d).
      { intros ->. assert (String.prefix (String d "") (String d s) = true) as E
          by (apply prefix_char; eauto). congruence. }
      cbn. split; intros [? H]; (split; [assumption|]).
      * intros [?|?]; [congruence | tauto].
      * intros ?. apply H. auto.
Qed.

(** [lastIndexOf] is negative exactly when the character does not occur. *)
Lemma lastIndexOf_char_neg (s : string) (c : ascii) :
  (JsString.lastIndexOf s (String c "") <? 0) = true <-> ~ JsString.contains s c.
Proof.
  unfold JsString.lastIndexOf, JsString.contains.
  pose proof (lastIndexOf_from_char c s 0 None) as H.
  destruct (JsString.lastIndexOf_from (String c "") s 0 None) as [k|].
  - split.
    + intros E. apply Z.ltb_lt in E. lia.
    + intros E. destruct H as [_ H]. discriminate H. auto.
  - split; [intros _; apply H; reflexivity | intros _; reflexivity].
Qed.

(** The part of a path before its first separator has no separator. *)
Lemma substring_before_first (s : string) (c : ascii) :
  ~ In c (JsString.chars
            (JsString.substring s (Int 0) (Int (JsString.indexOf s (String c ""))))).
Proof.
  unfold JsString.indexOf.
  pose proof (indexOf_from_char c s 0) as H.
  destruct (JsString.indexOf_from (String c "") s 0) as [k|].
  - destruct H as (a & b & -> & Hna & ->).
    unfold JsString.substring, JsString.clamp.
    pose proof (length_nonneg (a +:+ String c b)) as Hl.
    rewrite js_length_app in *. pose proof (length_nonneg (String c b)).
    replace (Z.max 0 (Z.min 0 _)) with 0 by lia.
    replace (Z.max 0 (Z.min (Z.of_nat (0 + String.length a)) _))
      with (JsString.length a) by (unfold JsString.length in *; lia).
    rewrite Z.min_l, Z.max_r by apply length_nonneg.
    rewrite slice_0_app. exact Hna.
  - unfold JsString.substring, JsString.clamp.
    pose proof (length_nonneg s).
    replace (Z.max 0 (Z.min 0 _)) with 0 by lia.
    replace (Z.max 0 (Z.min (-1) _)) with 0 by lia.
    cbn. tauto.
Qed.

End StringFacts.

(** ** The coercion of a string to an index *)

Section StringToNumberFacts.
Import StringToNumber.

Lemma drop_ws_keeps (c : ascii) (l : list ascii) :
  In c l -> is_ws c = false -> In c (drop_ws l).
Proof.
  intros Hin Hc. induction l as [|d l IH]; [destruct Hin|].
  cbn. destruct (is_ws d) eqn:Hd.
  - destruct Hin as [->|Hin]; [congruence | auto].
  - exact Hin.
Qed.

Lemma trim_keeps (c : ascii) (l : list ascii) :
  In c l -> is_ws c = false -> In c (trim l).
Proof.
  intros Hin Hc. unfold trim.
  apply in_rev. rewrite rev_involutive.
  apply drop_ws_keeps; [|exact Hc].
  apply in_rev. rewrite rev_involutive.
  apply drop_ws_keeps; assumption.
Qed.

Lemma span_spec (p : ascii -> bool) (l a b : list ascii) :
  span p l = (a, b) -> l = a ++ b /\ forallb p a = true.
Proof.
  revert a b. induction l as [|c l IH]; intros a b; cbn.
  - intros [= <- <-]. split; reflexivity.
  - destruct (p c) eqn:Hc.
    + destruct (span p l) as [a' b'] eqn:Hs. intros [= <- <-].
      destruct (IH _ _ eq_refl) as [-> Ha]. cbn. rewrite Hc, Ha. split; reflexivity.
    + intros [= <- <-]. split; reflexivity.
Qed.

Lemma code_numeric (c : ascii) (k : Z) :
  In k [46; 43; 45; 120; 88; 111; 79; 73; 110; 105; 116; 121] ->
  (code c =? k) = true -> numeric_char c = true.
Proof.
  intros Hk E. apply Z.eqb_eq in E. unfold numeric_char.
  apply orb_true_iff. right. apply existsb_exists.
  exists k. split; [exact Hk | apply Z.eqb_eq; exact E].
Qed.

Lemma hex_numeric (c : ascii) : is_hex c = true -> numeric_char c = true.
Proof. intros H. unfold numeric_char. rewrite H. reflexivity. Qed.

Lemma digit_numeric (c : ascii) : is_digit c = true -> numeric_char c = true.
Proof. intros H. apply hex_numeric. unfold is_hex. rewrite H. reflexivity. Qed.

Lemma octal_numeric (c : ascii) : is_octal c = true -> numeric_char c = true.
Proof.
  intros H. apply digit_numeric. unfold is_octal, is_digit in *.
  apply andb_true_iff in H as [H1 H2]. apply Z.leb_le in H2.
  rewrite H1. apply Z.leb_le. lia.
Qed.

Lemma binary_numeric (c : ascii) : is_binary c = true -> numeric_char c = true.
Proof.
  intros H. apply digit_numeric. unfold is_binary, is_digit in *.
  apply andb_true_iff in H as [H1 H2]. apply Z.leb_le in H2.
  rewrite H1. apply Z.leb_le. lia.
Qed.

Lemma exponent_letter_numeric (c : ascii) :
  (code c =? 101) || (code c =? 69) = true -> numeric_char c = true.
Proof.
  intros H. apply hex_numeric. unfold is_hex.
  apply orb_true_iff in H as [H|H]; apply Z.eqb_eq in H; rewrite H;
    apply orb_true_iff; [left; apply orb_true_iff; right | right]; reflexivity.
Qed.

Lemma forallb_weaken (p q : ascii -> bool) (l : list ascii) :
  (forall c, p c = true -> q c = true) -> forallb p l = true -> forallb q l = true.
Proof.
  intros Hpq. rewrite !forallb_forall. auto.
Qed.

Lemma parse_exponent_chars (l : list ascii) (e : Z) :
  parse_exponent l = Some e -> forallb numeric_char l = true.
Proof.
  destruct l as [|c r]; [reflexivity|]. cbn [parse_exponent].
  destruct ((code c =? 101) || (code c =? 69)) eqn:Hc; [|discriminate].
  apply exponent_letter_numeric in Hc. cbn [forallb]. rewrite Hc. cbn.
  destruct r as [|s r'].
  - cbn. discriminate.
  - destruct (code s =? 45) eqn:H45.
    { destruct (nonempty r' && forallb is_digit r') eqn:Hd; [|discriminate].
      intros _. apply andb_true_iff in Hd as [_ Hd]. cbn.
      rewrite (code_numeric s 45) by (cbn; tauto || assumption). cbn.
      eapply forallb_weaken; [apply digit_numeric | exact Hd]. }
    destruct (code s =? 43) eqn:H43.
    { destruct (nonempty r' && forallb is_digit r') eqn:Hd; [|discriminate].
      intros _. apply andb_true_iff in Hd as [_ Hd]. cbn.
      rewrite (code_numeric s 43) by (cbn; tauto || assumption). cbn.
      eapply forallb_weaken; [apply digit_numeric | exact Hd]. }
    destruct (nonempty (s :: r') && forallb is_digit (s :: r')) eqn:Hd; [|discriminate].
    intros _. apply andb_true_iff in Hd as [_ Hd].
    eapply forallb_weaken; [apply digit_numeric | exact Hd].
Qed.

Lemma parse_unsigned_chars (neg : bool) (l : list ascii) (v : MV) :
  parse_unsigned neg l = Some v -> forallb numeric_char l = true.
Proof.
  unfold parse_unsigned.
  destruct (span is_digit l) as [ip r1] eqn:Hip.
  apply span_spec in Hip as [-> Hip].
  assert (Hipn : forallb numeric_char ip = true)
    by (eapply forallb_weaken; [apply digit_numeric | exact Hip]).
  rewrite forallb_app, Hipn. cbn.
  destruct r1 as [|c r].
  - cbn. reflexivity.
  - destruct (code c =? 46) eqn:Hdot.
    + destruct (span is_digit r) as [fp r2] eqn:Hfp.
      apply span_spec in Hfp as [-> Hfp].
      destruct (nonempty ip || nonempty fp); [|discriminate].
      destruct (parse_exponent r2) as [e|] eqn:He; [|discriminate].
      intros _. cbn. rewrite (code_numeric c 46) by (cbn; tauto || assumption). cbn.
      rewrite forallb_app. apply andb_true_iff. split.
      * eapply forallb_weaken; [apply digit_numeric | exact Hfp].
      * eapply parse_exponent_chars; exact He.
    + destruct (nonempty ip || nonempty []); [|discriminate].
      destruct (parse_exponent (c :: r)) as [e|] eqn:He; [|discriminate].
      intros _. eapply parse_exponent_chars; exact He.
Qed.

Lemma parse_decimal_chars (neg : bool) (l : list ascii) (v : MV) :
  parse_decimal neg l = Some v -> forallb numeric_char l = true.
Proof.
  unfold parse_decimal. destruct (decide (l = Infinity_chars)) as [->|_].
  - intros _. reflexivity.
  - apply parse_unsigned_chars.
Qed.

Lemma parse_signed_chars (l : list ascii) (v : MV) :
  parse_signed l = Some v -> forallb numeric_char l = true.
Proof.
  destruct l as [|s r]; [discriminate|]. cbn [parse_signed].
  destruct (code s =? 45) eqn:H45.
  { intros H. apply parse_decimal_chars in H. cbn.
    rewrite (code_numeric s 45) by (cbn; tauto || assumption). exact H. }
  destruct (code s =? 43) eqn:H43.
  { intros H. apply parse_decimal_chars in H. cbn.
    rewrite (code_numeric s 43) by (cbn; tauto || assumption). exact H. }
  apply parse_decimal_chars.
Qed.

Lemma parse_radix_chars (p : ascii -> bool) (base : Z) (ds : list ascii) (v : MV) :
  (forall c, p c = true -> numeric_char c = true) ->
  parse_radix p base ds = Some v -> forallb numeric_char ds = true.
Proof.
  intros Hp. unfold parse_radix.
  destruct (nonempty ds && forallb p ds) eqn:Hd; [|discriminate].
  intros _. apply andb_true_iff in Hd as [_ Hd].
  eapply forallb_weaken; [exact Hp | exact Hd].
Qed.

(** A numeric literal is made of the characters of [numeric_char] only. *)
Lemma parse_numeric_chars (l : list ascii) (v : MV) :
  parse_numeric l = Some v -> forallb numeric_char l = true.
Proof.
  destruct l as [|z [|m ds]]; try apply parse_signed_chars.
  cbn [parse_numeric].
  destruct (code z =? 48) eqn:Hz; [|apply parse_signed_chars].
  assert (Hzn : numeric_char z = true).
  { apply digit_numeric. unfold is_digit. apply Z.eqb_eq in Hz. rewrite Hz. reflexivity. }
  destruct ((code m =? 120) || (code m =? 88)) eqn:Hx.
  { intros H. apply parse_radix_chars in H; [|apply hex_numeric].
    cbn. rewrite Hzn, H. cbn. apply andb_true_iff. split; [|reflexivity].
    apply orb_true_iff in Hx as [Hx|Hx];
      [apply (code_numeric m 120) | apply (code_numeric m 88)]; cbn; tauto || assumption. }
  destruct ((code m =? 111) || (code m =? 79)) eqn:Ho.
  { intros H. apply parse_radix_chars in H; [|apply octal_numeric].
    cbn. rewrite Hzn, H. cbn. apply andb_true_iff. split; [|reflexivity].
    apply orb_true_iff in Ho as [Ho|Ho];
      [apply (code_numeric m 111) | apply (code_numeric m 79)]; cbn; tauto || assumption. }
  destruct ((code m =? 98) || (code m =? 66)) eqn:Hb.
  { intros H. apply parse_radix_chars in H; [|apply binary_numeric].
    cbn. rewrite Hzn, H. cbn. apply andb_true_iff. split; [|reflexivity].
    apply hex_numeric. unfold is_hex.
    apply orb_true_iff in Hb as [Hb|Hb]; apply Z.eqb_eq in Hb; rewrite Hb;
      apply orb_true_iff; [left; apply orb_true_iff; right | right]; reflexivity. }
  apply parse_signed_chars.
Qed.

(** A string holding a character that is neither white space nor part
    of any numeric literal is not numeric. *)
Lemma not_numeric (s : string) (c : ascii) :
  JsString.contains s c -> is_ws c = false -> numeric_char c = false ->
  is_numeric s = false.
Proof.
  intros Hin Hws Hnum. unfold is_numeric.
  pose proof (trim_keeps c _ Hin Hws) as Ht. unfold JsString.chars in Ht.
  destruct (trim (list_ascii_of_string s)) as [|d l] eqn:El; [exfalso; exact Ht|].
  destruct (parse_numeric (d :: l)) as [v|] eqn:Ep; [|reflexivity].
  apply parse_numeric_chars in Ep.
  rewrite forallb_forall in Ep. specialize (Ep c Ht). congruence.
Qed.

(** Its coercion to a number is NaN, which gives index 0. *)
Lemma to_integer_not_numeric (s : string) :
  is_numeric s = false -> to_integer s = Int 0.
Proof.
  unfold is_numeric, to_integer.
  destruct (trim (list_ascii_of_string s)); [discriminate|].
  destruct (parse_numeric (a :: l)); [discriminate | reflexivity].
Qed.

End StringToNumberFacts.

(** ** [simplifyName] *)

(** No binding named [content] is in scope in [simplifyName]. *)
Lemma content_unbound (locals : list (string * JsVal)) :
  Js.lookup_prop locals "content" = None ->
  Js.resolve (locals ++ module_scope) "content" = Throw (ReferenceError "content").
Proof.
  intros H. unfold Js.resolve.
  induction locals as [|[k v] locals IH].
  - reflexivity.
  - cbn in *. destruct (String.eqb k "content"); [discriminate | auto].
Qed.

(** What [simplifyName] computes: its input when it has no separator, a
    [ReferenceError] otherwise. *)
Lemma simplifyName_spec (imageName : string) :
  simplifyName imageName =
  if JsString.lastIndexOf imageName "/" <? 0 then Normal imageName
  else Throw (ReferenceError "content").
Proof.
  unfold simplifyName.
  destruct (JsString.lastIndexOf imageName "/" <? 0); [reflexivity|].
  rewrite content_unbound by reflexivity. reflexivity.
Qed.

(** C6 (the code departs from it).  For every reference, [simplifyName]
    returns the reference unchanged when it has no separator; when it has
    one, the evaluation of the undeclared identifier [content] throws a
    [ReferenceError] before any first segment is inspected, so no
    remainder is ever returned: on
    ["registry.example.com:5000/team/app"] the result is the error, not
    ["team/app"]. *)
Theorem simplifyName_separator_throws :
  simplifyName "registry.example.com:5000/team/app" = Throw (ReferenceError "content")
  /\ forall imageName : string,
       match simplifyName imageName with
       | Normal r => ~ JsString.contains imageName "/" /\ r = imageName
       | Throw e => JsString.contains imageName "/" /\ e = ReferenceError "content"
       end.
Proof.
  split; [reflexivity|].
  intros imageName. rewrite simplifyName_spec.
  pose proof (lastIndexOf_char_neg imageName "/") as H.
  destruct (JsString.lastIndexOf imageName "/" <? 0).
  - split; [apply H; reflexivity | reflexivity].
  - split; [|reflexivity].
    destruct (in_dec Ascii.ascii_dec "/"%char (JsString.chars imageName)) as [Hin|Hn];
      [exact Hin|].
    apply H in Hn. discriminate.
Qed.

(** C7 (the code departs from it).  [simplifyName] throws on a string
    input: on ["a/b"] it ends with a [ReferenceError], and it returns
    normally exactly on the strings without a separator. *)
Theorem simplifyName_throws :
  simplifyName "a/b" = Throw (ReferenceError "content")
  /\ forall imageName : string,
       (exists r, simplifyName imageName = Normal r) <-> ~ JsString.contains imageName "/".
Proof.
  split; [reflexivity|].
  intros imageName. rewrite simplifyName_spec.
  pose proof (lastIndexOf_char_neg imageName "/") as H.
  destruct (JsString.lastIndexOf imageName "/" <? 0).
  - split; [intros _; apply H; reflexivity | intros _; eauto].
  - split; [intros [r [=]] | intros Hn; apply H in Hn; discriminate].
Qed.

(** ** [copyRootLayer]: the digest taken from the name of the config file *)

Lemma rootLayerSha_not_numeric (config : string) :
  StringToNumber.is_numeric config = false ->
  rootLayerSha config = without_last 5 config.
Proof.
  intros H. unfold rootLayerSha, without_last.
  cbn [Js.ToIntegerOrInfinity Js.ToString].
  rewrite (to_integer_not_numeric _ H).
  destruct (Z.le_gt_cases 5 (JsString.length config)) as [Hl|Hl].
  - rewrite substr_0 by lia. rewrite slice_0. f_equal. f_equal.
    unfold JsString.length. lia.
  - rewrite substr_0_neg by lia.
    replace (String.length config - 5)%nat with 0%nat
      by (unfold JsString.length in Hl; lia).
    reflexivity.
Qed.

Lemma rootLayerSha_json (stem : string) : rootLayerSha (stem +:+ ".json") = stem.
Proof.
  rewrite rootLayerSha_not_numeric.
  - unfold without_last. rewrite chars_app.
    replace (String.length (stem +:+ ".json") - 5)%nat
      with (List.length (JsString.chars stem)).
    + rewrite take_app_length. apply of_chars_chars.
    + rewrite <- (chars_length (stem +:+ ".json")), chars_app, List.length_app. cbn. lia.
  - apply (not_numeric _ "j"); [|reflexivity..].
    unfold JsString.contains. rewrite chars_app. apply in_or_app. right. cbn. tauto.
Qed.

Lemma rootLayerSha_separator (dir file : string) :
  (5 <= String.length file)%nat ->
  rootLayerSha (dir +:+ "/" +:+ file) = dir +:+ "/" +:+ without_last 5 file.
Proof.
  intros Hl. rewrite rootLayerSha_not_numeric.
  - unfold without_last. rewrite !chars_app.
    replace (String.length (dir +:+ "/" +:+ file) - 5)%nat
      with (List.length (JsString.chars dir)
            + (List.length (JsString.chars "/") + (String.length file - 5)))%nat.
    + rewrite !take_app_add, !of_chars_app, !of_chars_chars. reflexivity.
    + rewrite <- (chars_length (dir +:+ "/" +:+ file)), !chars_app, !List.length_app.
      rewrite (chars_length file). cbn. lia.
  - apply (not_numeric _ "/"); [|reflexivity..].
    unfold JsString.contains. rewrite !chars_app. apply in_or_app. right.
    apply in_or_app. left. cbn. tauto.
Qed.

(** ** Directories *)

Lemma of_chars_length (l : list ascii) :
  String.length (JsString.of_chars l) = List.length l.
Proof. rewrite <- chars_length, chars_of_chars. reflexivity. Qed.

Lemma ancestors_self (before l : list ascii) :
  In (JsString.of_chars (rev before ++ l)) (Fs.ancestors before l).
Proof.
  revert before. induction l as [|c l IH]; intros before; cbn [Fs.ancestors].
  - rewrite app_nil_r. left. reflexivity.
  - apply in_or_app. right. specialize (IH (c :: before)).
    cbn [rev] in IH. rewrite <- app_assoc in IH. exact IH.
Qed.

Lemma ancestors_length (before l : list ascii) (d : string) :
  In d (Fs.ancestors before l) ->
  (String.length d <= List.length before + List.length l)%nat.
Proof.
  revert before. induction l as [|c l IH]; intros before; cbn [Fs.ancestors].
  - intros [<-|[]]. rewrite of_chars_length, length_rev. lia.
  - intros H. apply in_app_or in H as [H|H].
    + destruct (Fs.is_sep c); [|destruct H].
      destruct H as [<-|[]]. rewrite of_chars_length, length_rev. lia.
    + apply IH in H. cbn [List.length] in H |- *. lia.
Qed.

(** The directory of the blobs exists. *)
Lemma is_dir_blobs (d n : string) :
  Fs.is_dir (directories d n) (d +:+ "/work/" +:+ n +:+ "/blobs") = true.
Proof.
  unfold Fs.is_dir, directories, createDirectoryStructure, Fs.mkdir.
  apply existsb_exists. exists (d +:+ "/work/" +:+ n +:+ "/blobs").
  split; [|apply String.eqb_refl].
  apply in_or_app. left.
  pose proof (ancestors_self [] (JsString.chars (d +:+ "/work/" +:+ n +:+ "/blobs"))) as H.
  cbn [rev app] in H. rewrite of_chars_chars in H. exact H.
Qed.

(** No directory has a longer path than the one of the manifests. *)
Lemma is_dir_long (d n p : string) :
  (String.length (d +:+ "/work/" +:+ n +:+ "/manifests") < String.length p)%nat ->
  Fs.is_dir (directories d n) p = false.
Proof.
  intros Hlen. unfold Fs.is_dir.
  destruct (existsb (String.eqb p) (directories d n)) eqn:E; [|reflexivity].
  apply existsb_exists in E as (x & Hin & Hx). apply String.eqb_eq in Hx. subst x.
  exfalso. revert Hlen.
  rewrite <- !chars_length, !chars_app, !List.length_app.
  unfold directories, createDirectoryStructure, Fs.mkdir in Hin.
  apply in_app_or in Hin as [Hin|Hin]; [|apply in_app_or in Hin as [Hin|Hin]].
  - apply ancestors_length in Hin. revert Hin.
    rewrite <- chars_length, !chars_app, !List.length_app. cbn. lia.
  - apply ancestors_length in Hin. revert Hin.
    rewrite <- chars_length, !chars_app, !List.length_app. cbn. lia.
  - destruct Hin as [<-|[]]. cbn. lia.
Qed.

Lemma skip_seps_keeps (l : list ascii) (c : ascii) :
  Fs.is_sep c = false -> Fs.skip_seps (c :: l) = c :: l.
Proof. intros H. cbn. rewrite H. reflexivity. Qed.

Lemma skip_name_all (l r : list ascii) :
  ~ In "/"%char l -> Fs.skip_name (l ++ "/"%char :: r) = "/"%char :: r.
Proof.
  induction l as [|c l IH]; intros H; [reflexivity|].
  cbn [app Fs.skip_name]. unfold Fs.is_sep.
  destruct (Ascii.eqb_spec c "/") as [->|_]; [destruct H; left; reflexivity|].
  apply IH. intros Hin. apply H. right. exact Hin.
Qed.

Lemma skip_name_within (l r : list ascii) :
  In "/"%char l -> exists y, Fs.skip_name (l ++ r) = y ++ r.
Proof.
  induction l as [|c l IH]; intros H; [destruct H|].
  cbn [app Fs.skip_name]. destruct (Fs.is_sep c) eqn:E.
  - exists (c :: l). reflexivity.
  - apply IH. destruct H as [->|H]; [discriminate E | exact H].
Qed.

Lemma skip_seps_within (l r : list ascii) (c : ascii) :
  Fs.is_sep c = false -> exists y, Fs.skip_seps (l ++ c :: r) = y ++ c :: r.
Proof.
  intros Hc. induction l as [|a l IH].
  - exists []. apply skip_seps_keeps, Hc.
  - cbn [app Fs.skip_seps]. destruct (Fs.is_sep a).
    + exact IH.
    + exists (a :: l). reflexivity.
Qed.

(** What [dirname] reads of a path given from its end: a last component
    [rl], a separator, and a directory that ends with [c]. *)
Lemma skip_last_component (rl rq : list ascii) (c : ascii) :
  rl <> [] -> ~ In "/"%char rl -> Fs.is_sep c = false ->
  Fs.skip_seps (Fs.skip_name (Fs.skip_seps (rl ++ "/"%char :: c :: rq))) = c :: rq.
Proof.
  intros Hne Hno Hc. destruct rl as [|x rl]; [congruence|].
  assert (Hx : Fs.is_sep x = false).
  { unfold Fs.is_sep. destruct (Ascii.eqb_spec x "/") as [->|_]; [|reflexivity].
    destruct Hno. left. reflexivity. }
  change ((x :: rl) ++ "/"%char :: c :: rq) with (x :: (rl ++ "/"%char :: c :: rq)).
  rewrite (skip_seps_keeps _ _ Hx).
  change (x :: (rl ++ "/"%char :: c :: rq)) with ((x :: rl) ++ "/"%char :: c :: rq).
  rewrite (skip_name_all _ _ Hno).
  change (Fs.skip_seps ("/"%char :: c :: rq)) with (Fs.skip_seps (c :: rq)).
  apply skip_seps_keeps, Hc.
Qed.

(** The code units of the path of a blob, from its end. *)
Lemma blob_file_rev (d n sha : string) :
  rev (JsString.chars (blob_file d n sha))
  = (rev (JsString.chars sha) ++ rev (JsString.chars "sha256:"))
    ++ "/"%char :: "s"%char :: rev (JsString.chars (d +:+ "/work/" +:+ n +:+ "/blob")).
Proof.
  replace (JsString.chars (blob_file d n sha))
    with (JsString.chars (d +:+ "/work/" +:+ n +:+ "/blob")
          ++ "s"%char :: "/"%char :: JsString.chars "sha256:" ++ JsString.chars sha).
  - rewrite rev_app_distr. cbn [rev]. rewrite rev_app_distr.
    rewrite <- !app_assoc. reflexivity.
  - unfold blob_file. rewrite !chars_app, <- !app_assoc. reflexivity.
Qed.

(** A blob whose digest has no separator is in the directory of the
    blobs. *)
Lemma dirname_blob (d n sha : string) :
  ~ JsString.contains sha "/" ->
  Fs.dirname (blob_file d n sha) = d +:+ "/work/" +:+ n +:+ "/blobs"
  /\ Fs.ends_with_sep (blob_file d n sha) = false.
Proof.
  intros Hsha. unfold Fs.dirname, Fs.ends_with_sep. rewrite blob_file_rev.
  assert (Hno : ~ In "/"%char (rev (JsString.chars sha) ++ rev (JsString.chars "sha256:"))).
  { intros H. apply in_app_or in H as [H|H].
    - apply Hsha. apply in_rev. exact H.
    - cbn in H. intuition discriminate. }
  assert (Hne : rev (JsString.chars sha) ++ rev (JsString.chars "sha256:") <> []).
  { intros E. apply (f_equal (@List.length ascii)) in E. rewrite List.length_app in E.
    cbn in E. lia. }
  split.
  - rewrite (skip_last_component _ _ "s"%char Hne Hno eq_refl).
    cbn [rev]. rewrite rev_involutive.
    rewrite <- (of_chars_chars (d +:+ "/work/" +:+ n +:+ "/blobs")). f_equal.
    rewrite !chars_app, <- !app_assoc. reflexivity.
  - destruct (rev (JsString.chars sha) ++ rev (JsString.chars "sha256:")) as [|c l];
      [congruence|].
    cbn [app]. unfold Fs.is_sep. destruct (Ascii.eqb_spec c "/") as [->|_]; [|reflexivity].
    destruct Hno. left. reflexivity.
Qed.

(** A blob whose digest has a separator and does not end with one is in
    no directory that exists. *)
Lemma dirname_blob_separator (d n sha : string) :
  JsString.contains sha "/" ->
  Fs.ends_with_sep (blob_file d n sha) = false ->
  Fs.is_dir (directories d n) (Fs.dirname (blob_file d n sha)) = false.
Proof.
  intros Hsha Hend. apply is_dir_long.
  unfold Fs.dirname, Fs.ends_with_sep in *. rewrite blob_file_rev in *.
  assert (Hin : In "/"%char (rev (JsString.chars sha))) by (apply in_rev in Hsha; exact Hsha).
  rewrite <- app_assoc in *.
  destruct (rev (JsString.chars sha)) as [|c l] eqn:E; [destruct Hin|].
  cbn [app] in Hend. rewrite <- app_comm_cons, (skip_seps_keeps _ _ Hend).
  rewrite app_comm_cons.
  destruct (skip_name_within (c :: l)
              (rev (JsString.chars "sha256:")
               ++ "/"%char :: "s"%char
                  :: rev (JsString.chars (d +:+ "/work/" +:+ n +:+ "/blob")))
              Hin) as [y ->].
  change (rev (JsString.chars "sha256:") ++ ?r)
    with (":"%char :: (rev (JsString.chars "sha256") ++ r)).
  destruct (skip_seps_within y
              (rev (JsString.chars "sha256") ++ "/"%char :: "s"%char
               :: rev (JsString.chars (d +:+ "/work/" +:+ n +:+ "/blob")))
              ":"%char eq_refl) as [z ->].
  rewrite of_chars_length, length_rev, List.length_app. cbn [List.length].
  rewrite List.length_app. cbn [List.length]. rewrite !length_rev.
  rewrite <- !chars_length, !chars_app, !List.length_app. cbn. lia.
Qed.

(** [rename] to the path of a blob whose digest has no separator. *)
Lemma rename_blob {A : Type} (d n sha src : string) (fs : gmap string A) :
  ~ JsString.contains sha "/" ->
  Fs.rename (directories d n) src (blob_file d n sha) fs
  = match fs !! src with
    | Some c => Normal (<[blob_file d n sha := c]> (delete src fs))
    | None => Throw (Fs.ENOENT "rename" src)
    end.
Proof.
  intros Hsha. unfold Fs.rename.
  destruct (dirname_blob d n sha Hsha) as [-> ->]. rewrite is_dir_blobs. reflexivity.
Qed.

(** [rename] to the path of a blob whose digest has a separator fails:
    the directory was not made. *)
Lemma rename_blob_separator {A : Type} (d n sha src : string) (fs : gmap string A) :
  JsString.contains sha "/" ->
  exists code : string,
    Fs.rename (directories d n) src (blob_file d n sha) fs
    = Throw (SystemError code "rename" src)
    /\ (code = "ENOENT" \/ code = "ENOTDIR")
    /\ (Fs.ends_with_sep (blob_file d n sha) = false -> code = "ENOENT").
Proof.
  intros Hsha. unfold Fs.rename.
  destruct (fs !! src) as [c|]; [|exists "ENOENT"; auto].
  destruct (Fs.ends_with_sep (blob_file d n sha)) eqn:Hend.
  - destruct (Fs.is_dir (directories d n) (Fs.dirname (blob_file d n sha))).
    + exists "ENOTDIR". cbn. split; [reflexivity|]. split; [auto | discriminate].
    + exists "ENOENT". cbn. auto.
  - rewrite (dirname_blob_separator d n sha Hsha Hend). exists "ENOENT". cbn. auto.
Qed.

(** ** UTF-8 *)

(** A text of ASCII has one byte per code unit. *)
Lemma utf8_ascii (s : string) :
  forallb ascii7 (JsString.chars s) = true -> Fs.utf8 s = list_byte_of_string s.
Proof.
  unfold Fs.utf8, list_byte_of_string. fold (JsString.chars s).
  induction (JsString.chars s) as [|c l IH]; intros H; [reflexivity|].
  cbn [forallb] in H. apply andb_true_iff in H as [Hc Hl].
  cbn [flat_map map]. rewrite (IH Hl). unfold Fs.utf8_unit.
  unfold ascii7 in Hc. rewrite Hc. reflexivity.
Qed.


Lemma contains_not_hex (s : string) (c : ascii) :
  JsString.contains s c -> lower_hex c = false -> is_sha256_hex s = false.
Proof.
  intros Hin Hc. unfold is_sha256_hex.
  apply andb_false_iff. right.
  destruct (forallb lower_hex (JsString.chars s)) eqn:E; [|reflexivity].
  rewrite forallb_forall in E. specialize (E c Hin). congruence.
Qed.

Lemma hex_digit_lower (n : Z) : lower_hex (Sha256.hex_digit n) = true.
Proof.
  unfold Sha256.hex_digit.
  assert (H : (Z.to_nat (Z.land n 15) < 16)%nat).
  { change 15%Z with (Z.ones 4). rewrite Z.land_ones by lia.
    pose proof (Z.mod_pos_bound n (2 ^ 4) ltac:(lia)). lia. }
  set (k := Z.to_nat (Z.land n 15)) in *. clearbody k.
  do 16 (destruct k as [|k]; [reflexivity|]). lia.
Qed.

Lemma hex_word_lower (x : Z) : forallb lower_hex (Sha256.hex_word x) = true.
Proof.
  unfold Sha256.hex_word. apply forallb_forall. intros c Hc.
  apply in_map_iff in Hc as (i & <- & _). apply hex_digit_lower.
Qed.

(** [digest('hex')] is 64 lowercase hexadecimal digits. *)
Lemma sha256_hex_format (msg : list byte) : is_sha256_hex (Sha256.hex msg) = true.
Proof.
  unfold is_sha256_hex, Sha256.hex. apply andb_true_iff. split.
  - rewrite <- chars_length. unfold JsString.chars.
    rewrite list_ascii_of_string_of_list_ascii. reflexivity.
  - unfold JsString.chars. rewrite list_ascii_of_string_of_list_ascii.
    rewrite !forallb_app, !hex_word_lower. reflexivity.
Qed.

(** A digest of 64 hexadecimal digits has no separator. *)
Lemma hex_no_separator (msg : list byte) : ~ JsString.contains (Sha256.hex msg) "/".
Proof.
  intros H. pose proof (sha256_hex_format msg) as E.
  rewrite (contains_not_hex _ "/" H eq_refl) in E. discriminate.
Qed.

(** What [copyRootLayer] does when the rename succeeds. *)
Lemma copyRootLayer_ok (sm : SourceManifest) (imageName sourceDir destDir : string)
    (fs fs' : gmap string (list byte)) (manifest : list (string * JsVal)) :
  copyRootLayer sm imageName sourceDir destDir fs = Normal (manifest, fs') ->
  exists c,
    fs !! (sourceDir +:+ "/" +:+ Config sm) = Some c
    /\ fs' = <[blob_file destDir imageName (rootLayerSha (Config sm)) := c]>
               (delete (sourceDir +:+ "/" +:+ Config sm) fs)
    /\ manifest =
         [("SchemaVersion", VNum 2);
          ("MediaType", VStr ManifestType);
          ("Config", VObj [("MediaType", VStr ConfigType);
                           ("Digest", VStr ("sha256:" +:+ rootLayerSha (Config sm)));
                           ("Size", VUndef)]);
          ("Layers", VArr [])].
Proof.
  unfold copyRootLayer.
  destruct (in_dec ascii_dec "/"%char (JsString.chars (rootLayerSha (Config sm))))
    as [Hin|Hno].
  { destruct (rename_blob_separator destDir imageName _
                (sourceDir +:+ "/" +:+ Config sm) fs Hin) as (code & -> & _).
    discriminate. }
  rewrite rename_blob by exact Hno.
  destruct (fs !! (sourceDir +:+ "/" +:+ Config sm)) as [c|] eqn:E; [|discriminate].
  cbn. intros [= <- <-]. exists c. auto.
Qed.

(** [copyRootLayer] succeeds only with a digest without separator: the
    directory of any other was not made. *)
Lemma copyRootLayer_digest (sm : SourceManifest) (imageName sourceDir destDir : string)
    (fs fs' : gmap string (list byte)) (manifest : list (string * JsVal)) :
  copyRootLayer sm imageName sourceDir destDir fs = Normal (manifest, fs') ->
  ~ JsString.contains (rootLayerSha (Config sm)) "/".
Proof.
  unfold copyRootLayer. intros H Hin.
  destruct (rename_blob_separator destDir imageName _
              (sourceDir +:+ "/" +:+ Config sm) fs Hin) as (code & E & _).
  rewrite E in H. discriminate.
Qed.

(** What [copyRootLayer] does in the other cases. *)
Lemma copyRootLayer_throws (sm : SourceManifest) (imageName sourceDir destDir : string)
    (fs : gmap string (list byte)) :
  (fs !! (sourceDir +:+ "/" +:+ Config sm) = None ->
   copyRootLayer sm imageName sourceDir destDir fs
   = Throw (Fs.ENOENT "rename" (sourceDir +:+ "/" +:+ Config sm)))
  /\ (JsString.contains (rootLayerSha (Config sm)) "/" ->
      exists code : string,
        copyRootLayer sm imageName sourceDir destDir fs
        = Throw (SystemError code "rename" (sourceDir +:+ "/" +:+ Config sm))
        /\ (code = "ENOENT" \/ code = "ENOTDIR")
        /\ (Fs.ends_with_sep (blob_file destDir imageName (rootLayerSha (Config sm)))
            = false -> code = "ENOENT")).
Proof.
  unfold copyRootLayer. split.
  - intros Hmissing. unfold Fs.rename. rewrite Hmissing. reflexivity.
  - intros Hin.
    destruct (rename_blob_separator destDir imageName _
                (sourceDir +:+ "/" +:+ Config sm) fs Hin) as (code & -> & H).
    exists code. split; [reflexivity | exact H].
Qed.

(** A run starts its layers when the image reference has no separator,
    the config file exists and the digest taken from its name has no
    separator. *)
Lemma started_from_inputs (random1 random2 image : string) (sm : SourceManifest)
    (fs : gmap string (list byte)) :
  ~ JsString.contains image "/" ->
  ~ JsString.contains (rootLayerSha (Config sm)) "/" ->
  is_Some (fs !! (mkdtemp "image2dat_src_" random1 +:+ "/" +:+ Config sm)) ->
  exists manifest fs1,
    simplifyName image = Normal image
    /\ copyRootLayer sm image (mkdtemp "image2dat_src_" random1)
         (mkdtemp "image2dat_dest_" random2) fs = Normal (manifest, fs1).
Proof.
  intros Hsep Hdigest [c Hc].
  assert (H1 : simplifyName image = Normal image).
  { rewrite simplifyName_spec.
    rewrite (proj2 (lastIndexOf_char_neg image "/") Hsep). reflexivity. }
  unfold copyRootLayer. rewrite rename_blob by exact Hdigest. rewrite Hc. cbn. eauto.
Qed.




(** ** Paths *)

Section Paths.

Lemma app_chars_inj (a b : string) : JsString.chars a = JsString.chars b -> a = b.
Proof.
  intros H. rewrite <- (of_chars_chars a), <- (of_chars_chars b), H. reflexivity.
Qed.

(** A temporary file is no blob file. *)
Lemma temp_not_blob (l dest name sha : string) :
  destTempFile_of l dest <> blob_file dest name sha.
Proof.
  unfold destTempFile_of, blob_file. intros H.
  apply (inj (String.app dest)) in H.
  pose proof (substring_before_first l "/") as Hn.
  set (seg := JsString.substring _ _ _) in *.
  apply (f_equal JsString.chars) in H. rewrite !chars_app in H.
  cbn in H. injection H as H.
  match type of H with
  | ?L = _ => assert (Hin : In "/"%char L) by (rewrite H; cbn; tauto)
  end.
  apply in_app_or in Hin as [Hin|Hin]; [exact (Hn Hin)|].
  cbn in Hin. intuition discriminate.
Qed.

(** A temporary file is not the manifest file. *)
Lemma temp_not_manifest (l dest name : string) :
  destTempFile_of l dest <> manifest_file dest name.
Proof.
  unfold destTempFile_of, manifest_file. intros H.
  apply (inj (String.app dest)) in H.
  pose proof (substring_before_first l "/") as Hn.
  set (seg := JsString.substring _ _ _) in *.
  apply (f_equal JsString.chars) in H. rewrite !chars_app in H.
  cbn in H. injection H as H.
  match type of H with
  | ?L = _ => assert (Hin : In "/"%char L) by (rewrite H; cbn; tauto)
  end.
  apply in_app_or in Hin as [Hin|Hin]; [exact (Hn Hin)|].
  cbn in Hin. intuition discriminate.
Qed.

(** A blob file is not the manifest file. *)
Lemma blob_not_manifest (dest name sha : string) :
  blob_file dest name sha <> manifest_file dest name.
Proof.
  unfold blob_file, manifest_file. intros H.
  apply (inj (String.app dest)) in H.
  apply (inj (String.app "/work/")) in H.
  apply (inj (String.app name)) in H.
  apply (f_equal JsString.chars) in H. rewrite !chars_app in H.
  cbn in H. discriminate.
Qed.

Lemma blob_file_inj (dest name sha1 sha2 : string) :
  blob_file dest name sha1 = blob_file dest name sha2 -> sha1 = sha2.
Proof.
  unfold blob_file. intros H.
  apply (inj (String.app dest)) in H.
  apply (inj (String.app "/work/")) in H.
  apply (inj (String.app name)) in H.
  apply (inj (String.app "/blobs/sha256:")) in H. exact H.
Qed.

(** The two temporary directories have no path in common. *)
Lemma src_not_dest (random1 random2 p q : string) :
  mkdtemp "image2dat_src_" random1 +:+ p <> mkdtemp "image2dat_dest_" random2 +:+ q.
Proof.
  unfold mkdtemp. intros H.
  apply (f_equal JsString.chars) in H. rewrite !chars_app in H.
  cbn in H. discriminate.
Qed.

End Paths.

(** ** Streams and writes *)

Local Close Scope Z_scope.

Arguments Sha256.hex : simpl never.
Arguments blob_file : simpl never.
Arguments manifest_file : simpl never.
Arguments destTempFile_of : simpl never.

Lemma concat_chunks (fuel size : nat) (bs : list byte) :
  List.length bs <= fuel -> concat (chunks fuel size bs) = bs.
Proof.
  revert bs. induction fuel as [|fuel IH]; intros bs Hl.
  - destruct bs; [reflexivity | cbn in Hl; lia].
  - destruct bs as [|b bs]; [reflexivity|].
    cbn [chunks concat]. rewrite IH.
    + apply take_drop.
    + rewrite length_drop. cbn in *. lia.
Qed.

(** A read stream on an existing file delivers its content, then ['end']. *)
Lemma createReadStream_Some (hwm : nat) (path : string) (fs : gmap string (list byte))
    (c : list byte) :
  fs !! path = Some c ->
  exists cs, createReadStream hwm path fs = map SData cs ++ [SEnd] /\ concat cs = c.
Proof.
  intros H. unfold createReadStream. rewrite H.
  eexists. split; [reflexivity|]. apply concat_chunks. lia.
Qed.

Lemma createReadStream_None (hwm : nat) (path : string) (fs : gmap string (list byte)) :
  fs !! path = None ->
  createReadStream hwm path fs = [SError (Fs.ENOENT "open" path)].
Proof. intros H. unfold createReadStream. rewrite H. reflexivity. Qed.

(** Writing at the end of a content appends. *)
Lemma write_at_end (chunk c : list byte) :
  Fs.write_at (List.length c) chunk c = c ++ chunk.
Proof.
  unfold Fs.write_at. rewrite firstn_all, Nat.sub_diag.
  rewrite drop_ge by lia. cbn. rewrite app_nil_r. reflexivity.
Qed.

(** [await fsPromises.stat(file).size]: the property is read on the
    promise, not on the [Stats] object it settles to. *)
Lemma await_stat_size (file : string) (fs : gmap string (list byte)) :
  Js.await (Js.get_prop (Fs.stat file fs) "size") = Normal VUndef.
Proof. reflexivity. Qed.

(** ** The run: invariants of the machine *)

Section Invariants.

Variables (name dest : string) (manifest : list (string * JsVal)).

Lemma task_inv_kept heap heap' fs fs' i l src t :
  task_inv name dest heap fs i l src t ->
  heap' !! i = heap !! i -> blobs_kept name dest fs fs' ->
  task_inv name dest heap' fs' i l src t.
Proof.
  intros (H1 & H2 & H3 & H4 & H5) Hh Hf.
  repeat (split; [assumption|]).
  destruct (t_status t); rewrite ?Hh; try exact H5.
  destruct H5 as (? & ? & ?). auto.
Qed.

(** Task [i] is replaced, the others keep their objects and blobs. *)
Lemma tasks_inv_update layers srcs heap heap' fs fs' tasks i t t' :
  tasks_inv name dest layers srcs heap fs tasks ->
  tasks !! i = Some t ->
  (forall l src, layers !! i = Some l -> srcs !! i = Some src ->
                 task_inv name dest heap fs i l src t -> task_inv name dest heap' fs' i l src t') ->
  (forall j, j <> i -> heap' !! j = heap !! j) ->
  blobs_kept name dest fs fs' ->
  tasks_inv name dest layers srcs heap' fs' (<[i := t']> tasks).
Proof.
  intros Hinv Hi Ht Hh Hf j tj Hj.
  destruct (decide (j = i)) as [->|Hne].
  - rewrite list_lookup_insert_eq in Hj by (eapply lookup_lt_Some; exact Hi).
    injection Hj as <-.
    destruct (Hinv _ _ Hi) as (l & src & Hl & Hs & Hti).
    exists l, src. auto.
  - rewrite list_lookup_insert_ne in Hj by congruence.
    destruct (Hinv _ _ Hj) as (l & src & Hl & Hs & Htj).
    exists l, src. split; [assumption|]. split; [assumption|].
    eapply task_inv_kept; eauto.
Qed.

Lemma blobs_kept_refl fs : blobs_kept name dest fs fs.
Proof. intros sha H. exact H. Qed.

Lemma blobs_kept_insert fs p c : blobs_kept name dest fs (<[p := c]> fs).
Proof.
  intros sha H. destruct (decide (p = blob_file dest name sha)) as [->|Hne].
  - rewrite lookup_insert_eq. eauto.
  - rewrite lookup_insert_ne by exact Hne. exact H.
Qed.

Lemma blobs_kept_write fs p pos chunk : blobs_kept name dest fs (Fs.write p pos chunk fs).
Proof. intros sha H. unfold Fs.write. apply lookup_alter_is_Some. exact H. Qed.

Lemma blobs_kept_rename fs l sha c :
  blobs_kept name dest fs (<[blob_file dest name sha := c]> (delete (destTempFile_of l dest) fs)).
Proof.
  intros sha' H. destruct (decide (blob_file dest name sha = blob_file dest name sha'))
    as [->|Hne].
  - rewrite lookup_insert_eq. eauto.
  - rewrite lookup_insert_ne by exact Hne.
    rewrite lookup_delete_ne by apply temp_not_blob. exact H.
Qed.

Lemma tasks_inv_kept layers srcs heap fs fs' tasks :
  tasks_inv name dest layers srcs heap fs tasks -> blobs_kept name dest fs fs' ->
  tasks_inv name dest layers srcs heap fs' tasks.
Proof.
  intros Hinv Hf i t Hi. destruct (Hinv _ _ Hi) as (l & src & Hl & Hs & Ht).
  exists l, src. split; [assumption|]. split; [assumption|].
  eapply task_inv_kept; eauto.
Qed.

Lemma writeManifest_fs m :
  exists text, JSON.stringify (manifest_value m) = Some text
               /\ writeManifest m
                  = with_fs (Fs.writeFile (manifest_file (m_destTempDir m) (m_name m))
                               text (m_fs m)) m.
Proof. unfold writeManifest, manifest_value. cbn. eauto. Qed.

Lemma join_Core layers srcs m :
  Core name dest manifest layers srcs m -> Core name dest manifest layers srcs (join m).
Proof.
  intros H. unfold join. destruct (m_result m); try exact H.
  destruct (forallb is_resolved (m_tasks m)); [|exact H].
  destruct (writeManifest_fs m) as (text & _ & ->).
  destruct H as (Hn & Hd & Hm & HL & Hh & Ht & Hs & Hinv).
  repeat (split; [assumption|]). cbn.
  eapply tasks_inv_kept; [exact Hinv|]. apply blobs_kept_insert.
Qed.

Lemma on_renamed_eq i t sha m :
  ~ JsString.contains sha "/" ->
  on_renamed i t sha m =
  match m_fs m !! t_destTempFile t with
  | Some c =>
      join (resolved_machine i t sha
              (<[blob_file (t_destDir t) (t_imageName t) sha := c]>
                 (delete (t_destTempFile t) (m_fs m))) m)
  | None =>
      with_tasks (<[i := with_status (Faulted (Fs.ENOENT "rename" (t_destTempFile t))) t]>
                    (m_tasks m)) m
  end.
Proof.
  intros Hsha. unfold on_renamed. rewrite rename_blob by exact Hsha.
  destruct (m_fs m !! t_destTempFile t); reflexivity.
Qed.

(** With a separator in the digest, the rename fails and the handler
    throws. *)
Lemma on_renamed_separator i t sha m :
  JsString.contains sha "/" ->
  exists e, on_renamed i t sha m
            = with_tasks (<[i := with_status (Faulted e) t]> (m_tasks m)) m.
Proof.
  intros Hsha. unfold on_renamed.
  destruct (rename_blob_separator (t_destDir t) (t_imageName t) sha (t_destTempFile t)
              (m_fs m) Hsha) as (code & -> & _).
  eexists. reflexivity.
Qed.

Lemma resolved_Core layers srcs m i t sha l c :
  Core name dest manifest layers srcs m ->
  m_tasks m !! i = Some t -> t_status t = Renaming sha -> layers !! i = Some l ->
  Core name dest manifest layers srcs
    (resolved_machine i t sha
       (<[blob_file dest name sha := c]> (delete (destTempFile_of l dest) (m_fs m))) m).
Proof.
  intros (Hn & Hd & Hm & HL & Hh & Ht & Hs & Hinv) Ei Est Hl.
  destruct (Hinv _ _ Ei) as (l' & src & Hl' & Hsrc & (T1 & T2 & T3 & T4 & T5)).
  assert (l' = l) as -> by congruence.
  rewrite Est in T5. destruct T5 as (Hheap & Hsrc' & Hsha).
  unfold Core, resolved_machine. cbn. rewrite length_insert, !length_alter.
  repeat (split; [assumption|]).
  eapply tasks_inv_update; [exact Hinv | exact Ei | | | apply blobs_kept_rename].
  - intros l' src' Hl'' Hsrc'' _. assert (l' = l) as -> by congruence.
    assert (src' = src) as -> by congruence.
    unfold task_inv. cbn. repeat (split; [assumption|]). split.
    + rewrite T1, !list_lookup_alter_eq, Hheap, Hsha. reflexivity.
    + rewrite <- Hsha, lookup_insert_eq. eauto.
  - intros j Hj. rewrite T1, !list_lookup_alter_ne by congruence. reflexivity.
Qed.

(** Every event keeps the shape of the machine. *)
Lemma step_Core layers srcs m i :
  Core name dest manifest layers srcs m -> Core name dest manifest layers srcs (step m i).
Proof.
  intros H. pose proof H as (Hn & Hd & Hm & HL & Hh & Ht & Hs & Hinv).
  unfold step. destruct (m_uncaught m); [exact H|].
  destruct (m_tasks m !! i) as [t|] eqn:Ei; [|exact H].
  destruct (Hinv _ _ Ei) as (l & src & Hl & Hsrc & (T1 & T2 & T3 & T4 & T5)).
  destruct (t_status t) eqn:Est; try exact H.
  - (* streaming *)
    destruct T5 as [Hheap Hstream].
    destruct (t_sourceStream t) as [|[chunk| |e] rest] eqn:Es; try exact H.
    + (* 'data' *)
      unfold on_data, Core. cbn. rewrite length_insert.
      repeat (split; [assumption|]).
      eapply tasks_inv_update; [exact Hinv | exact Ei | | reflexivity
                               | apply blobs_kept_write].
      intros l' src' Hl' Hsrc' _. assert (l' = l) as -> by congruence.
      assert (src' = src) as -> by congruence.
      unfold task_inv. cbn. rewrite Est.
      repeat (split; [assumption|]).
      destruct src as [c|].
      * destruct Hstream as (cs & Hcs & Hc). destruct cs as [|c0 cs]; [discriminate|].
        injection Hcs as -> ->. exists cs. split; [reflexivity|].
        rewrite <- Hc. cbn. rewrite <- app_assoc. reflexivity.
      * destruct Hstream as (e & [=]).
    + (* 'end' *)
      unfold on_end, Core. cbn. rewrite length_insert.
      repeat (split; [assumption|]).
      eapply tasks_inv_update; [exact Hinv | exact Ei | | reflexivity
                               | apply blobs_kept_refl].
      intros l' src' Hl' Hsrc' _. assert (l' = l) as -> by congruence.
      assert (src' = src) as -> by congruence.
      unfold task_inv. cbn.
      repeat (split; [assumption|]).
      destruct src as [c|].
      * destruct Hstream as (cs & Hcs & Hc). destruct cs as [|c0 cs]; [|discriminate].
        cbn in Hc. rewrite app_nil_r in Hc. subst c. split; reflexivity.
      * destruct Hstream as (e & [=]).
  - (* the rename has settled *)
    rewrite on_renamed_eq by (rewrite (proj2 (proj2 T5)); apply hex_no_separator).
    rewrite T2, T3, T4.
    destruct (m_fs m !! destTempFile_of l dest) as [c|] eqn:Etemp.
    + apply join_Core. eapply resolved_Core; eauto.
    + unfold Core. cbn. rewrite length_insert.
      repeat (split; [assumption|]).
      eapply tasks_inv_update; [exact Hinv | exact Ei | | reflexivity
                               | apply blobs_kept_refl].
      intros l' src' Hl' Hsrc'' _. assert (l' = l) as -> by congruence.
      assert (src' = src) as -> by congruence.
      destruct T5 as (_ & Hsrc' & _).
      unfold task_inv. cbn. auto.
Qed.

Lemma step_resolved m i :
  forallb is_resolved (m_tasks m) = true -> step m i = m.
Proof.
  intros Hall. unfold step. destruct (m_uncaught m); [reflexivity|].
  destruct (m_tasks m !! i) as [t|] eqn:Ei; [|reflexivity].
  rewrite forallb_forall in Hall.
  assert (Hr : is_resolved t = true).
  { apply Hall, list_elem_of_In, list_elem_of_lookup. eauto. }
  unfold is_resolved in Hr. destruct (t_status t); try discriminate. reflexivity.
Qed.

Lemma join_Res before m :
  m_name m = name -> m_destTempDir m = dest -> m_result m = Pending ->
  m_fs m !! manifest_file dest name = before ->
  Res name dest before (join m).
Proof.
  intros Hn Hd Hr Hf. unfold join. rewrite Hr.
  destruct (forallb is_resolved (m_tasks m)) eqn:Hall.
  - destruct (writeManifest_fs m) as (text & Htext & ->).
    unfold Res. cbn. rewrite Hd, Hn. split; [reflexivity|]. split; [exact Hall|].
    exists text. split; [exact Htext|]. unfold Fs.writeFile. apply lookup_insert_eq.
  - unfold Res. rewrite Hr. exact Hf.
Qed.

(** Every event keeps the promise of [run] and the manifest file in step. *)
Lemma step_Res layers srcs before m i :
  Core name dest manifest layers srcs m -> Res name dest before m ->
  Res name dest before (step m i).
Proof.
  intros (Hn & Hd & Hm & HL & Hh & Ht & Hs & Hinv) HR.
  unfold Res in HR. destruct (m_result m) as [|p|e] eqn:Hres; [| |destruct HR].
  2:{ destruct HR as (Hp & Hall & Htext). rewrite step_resolved by exact Hall.
      unfold Res. rewrite Hres. auto. }
  unfold step. destruct (m_uncaught m); [unfold Res; rewrite Hres; exact HR|].
  destruct (m_tasks m !! i) as [t|] eqn:Ei; [|unfold Res; rewrite Hres; exact HR].
  destruct (Hinv _ _ Ei) as (l & src & Hl & Hsrc & (T1 & T2 & T3 & T4 & T5)).
  destruct (t_status t) eqn:Est; try (unfold Res; rewrite Hres; exact HR).
  - destruct (t_sourceStream t) as [|[chunk| |e] rest] eqn:Es;
      try (unfold Res; cbn; rewrite Hres; exact HR).
    unfold on_data, Res. cbn. rewrite Hres, T4. unfold Fs.write.
    rewrite lookup_alter_ne by apply temp_not_manifest. exact HR.
  - unfold on_renamed.
    rewrite rename_blob by (rewrite (proj2 (proj2 T5)); apply hex_no_separator).
    rewrite T2, T3, T4.
    destruct (m_fs m !! destTempFile_of l dest) as [c|] eqn:Etemp.
    + rewrite await_stat_size. apply join_Res; cbn; try assumption.
      rewrite lookup_insert_ne by apply blob_not_manifest.
      rewrite lookup_delete_ne by apply temp_not_manifest. exact HR.
    + unfold Res. cbn. rewrite Hres. exact HR.
Qed.

Lemma blobs_sound_same fs fs' :
  (forall sha, fs' !! blob_file dest name sha = fs !! blob_file dest name sha) ->
  blobs_sound name dest fs fs'.
Proof. intros H sha c Hc Hh. exists c. rewrite H. auto. Qed.

Lemma blobs_sound_rename fs l c :
  blobs_sound name dest fs (<[blob_file dest name (Sha256.hex c) := c]>
                    (delete (destTempFile_of l dest) fs)).
Proof.
  intros sha c' Hc' Hh.
  destruct (decide (blob_file dest name (Sha256.hex c) = blob_file dest name sha))
    as [E|Hne].
  - exists c. rewrite E, lookup_insert_eq. split; [reflexivity|].
    apply blob_file_inj in E. exact E.
  - exists c'. rewrite lookup_insert_ne by exact Hne.
    rewrite lookup_delete_ne by apply temp_not_blob. auto.
Qed.

Lemma content_ok_kept fs fs' t :
  content_ok name dest fs t ->
  fs' !! t_destTempFile t = fs !! t_destTempFile t ->
  blobs_sound name dest fs fs' ->
  content_ok name dest fs' t.
Proof.
  unfold content_ok. intros H Ht Hb.
  destruct (t_status t); rewrite ?Ht; try exact H.
  destruct H as (c & Hc & Hh). apply (Hb _ _ Hc Hh).
Qed.

Lemma join_Content layers srcs m :
  Core name dest manifest layers srcs m -> Content name dest m -> Content name dest (join m).
Proof.
  intros (Hn & Hd & Hm & HL & Hh & Ht & Hs & Hinv) HC.
  unfold join. destruct (m_result m); try exact HC.
  destruct (forallb is_resolved (m_tasks m)); [|exact HC].
  destruct (writeManifest_fs m) as (text & _ & ->).
  intros i t Hi. cbn in Hi |- *. rewrite Hd, Hn.
  destruct (Hinv _ _ Hi) as (l & src & Hl & Hsrc & (T1 & T2 & T3 & T4 & T5)).
  eapply content_ok_kept; [exact (HC _ _ Hi) | |].
  - unfold Fs.writeFile. rewrite T4. apply lookup_insert_ne.
    intros E. symmetry in E. exact (temp_not_manifest _ _ _ E).
  - apply blobs_sound_same. intros sha. unfold Fs.writeFile.
    apply lookup_insert_ne. intros E. symmetry in E. exact (blob_not_manifest _ _ _ E).
Qed.

Lemma temps_distinct layers srcs m i j ti tj :
  Core name dest manifest layers srcs m ->
  NoDup ((fun l => destTempFile_of l dest) <$> layers) ->
  m_tasks m !! i = Some ti -> m_tasks m !! j = Some tj -> j <> i ->
  t_destTempFile tj <> t_destTempFile ti.
Proof.
  intros (_ & _ & _ & _ & _ & _ & _ & Hinv) Hnd Hi Hj Hne E.
  destruct (Hinv _ _ Hi) as (li & ? & Hli & _ & (_ & _ & _ & Ti & _)).
  destruct (Hinv _ _ Hj) as (lj & ? & Hlj & _ & (_ & _ & _ & Tj & _)).
  apply Hne. eapply NoDup_lookup; [exact Hnd | |].
  - rewrite list_lookup_fmap, Hlj. cbn. rewrite <- Tj. reflexivity.
  - rewrite list_lookup_fmap, Hli. cbn. rewrite <- Ti, E. reflexivity.
Qed.

(** When no two layers share a temporary file, every event keeps the
    files of the layers in step with what was hashed. *)
Lemma step_Content layers srcs m i :
  Core name dest manifest layers srcs m ->
  NoDup ((fun l => destTempFile_of l dest) <$> layers) ->
  Content name dest m -> Content name dest (step m i).
Proof.
  intros HCore Hnd HC.
  pose proof HCore as (Hn & Hd & Hm & HL & Hh & Ht & Hs & Hinv).
  unfold step. destruct (m_uncaught m); [exact HC|].
  destruct (m_tasks m !! i) as [t|] eqn:Ei; [|exact HC].
  destruct (Hinv _ _ Ei) as (l & src & Hl & Hsrc & (T1 & T2 & T3 & T4 & T5)).
  pose proof (HC _ _ Ei) as Hti. unfold content_ok in Hti.
  assert (Hothers : forall fs', 
             (forall j tj, j <> i -> m_tasks m !! j = Some tj ->
                           fs' !! t_destTempFile tj = m_fs m !! t_destTempFile tj) ->
             blobs_sound name dest (m_fs m) fs' ->
             forall j tj, j <> i -> m_tasks m !! j = Some tj -> content_ok name dest fs' tj).
  { intros fs' Hsame Hb j tj Hj Htj.
    eapply content_ok_kept; [exact (HC _ _ Htj) | eauto | exact Hb]. }
  destruct (t_status t) eqn:Est; try exact HC.
  - destruct Hti as [Hfile Hpos].
    destruct (t_sourceStream t) as [|[chunk| |e] rest] eqn:Es; try exact HC.
    + (* 'data' *)
      unfold on_data. intros j tj Hj. cbn in Hj |- *.
      destruct (decide (j = i)) as [->|Hne].
      * rewrite list_lookup_insert_eq in Hj by (eapply lookup_lt_Some; exact Ei).
        injection Hj as <-. unfold content_ok. cbn. rewrite Est.
        unfold Fs.write. rewrite lookup_alter_eq, Hfile. cbn.
        rewrite Hpos, write_at_end, List.length_app. split; reflexivity.
      * rewrite list_lookup_insert_ne in Hj by congruence.
        apply (Hothers _) with (j := j); try assumption.
        -- intros j' tj' Hj' Htj'. unfold Fs.write. apply lookup_alter_ne.
           intros E. symmetry in E. revert E.
           eapply temps_distinct; eauto.
        -- apply blobs_sound_same. intros sha. unfold Fs.write.
           apply lookup_alter_ne. rewrite T4. apply temp_not_blob.
    + (* 'end' *)
      unfold on_end. intros j tj Hj. cbn in Hj |- *.
      destruct (decide (j = i)) as [->|Hne].
      * rewrite list_lookup_insert_eq in Hj by (eapply lookup_lt_Some; exact Ei).
        injection Hj as <-. unfold content_ok. cbn. auto.
      * rewrite list_lookup_insert_ne in Hj by congruence. exact (HC _ _ Hj).
  - (* the rename has settled *)
    destruct Hti as [Hfile Hpos]. destruct T5 as (Hheap & Hsrc' & Hsha).
    rewrite on_renamed_eq by (rewrite Hsha; apply hex_no_separator).
    rewrite Hfile, T2, T3, T4.
    eapply join_Content; [eapply resolved_Core; eauto|].
    unfold resolved_machine. intros j tj Hj. cbn in Hj |- *.
    destruct (decide (j = i)) as [->|Hne].
    + rewrite list_lookup_insert_eq in Hj by (eapply lookup_lt_Some; exact Ei).
      injection Hj as <-. unfold content_ok. cbn.
      exists (t_sha256Digester t). rewrite <- Hsha, lookup_insert_eq. auto.
    + rewrite list_lookup_insert_ne in Hj by congruence.
      apply (Hothers _) with (j := j); try assumption.
      * intros j' tj' Hj' Htj'.
        destruct (Hinv _ _ Htj') as (lj & ? & _ & _ & (_ & _ & _ & Tj & _)).
        rewrite lookup_insert_ne
          by (rewrite Tj; intros E; symmetry in E; exact (temp_not_blob _ _ _ _ E)).
        apply lookup_delete_ne. rewrite <- T4.
        intros E. symmetry in E. revert E. eapply temps_distinct; eauto.
      * rewrite Hsha. apply blobs_sound_rename.
Qed.

Lemma run_events_snoc (schedule : list nat) (i : nat) (m : Machine) :
  run_events (schedule ++ [i]) m = step (run_events schedule m) i.
Proof. unfold run_events. apply foldl_snoc. Qed.

(** Without layer tasks no event changes anything. *)
Lemma run_events_no_tasks (schedule : list nat) (m : Machine) :
  m_tasks m = [] -> run_events schedule m = m.
Proof.
  intros Ht. induction schedule as [|i schedule IH] using rev_ind; [reflexivity|].
  rewrite run_events_snoc, IH. unfold step. rewrite Ht.
  destruct (m_uncaught m); reflexivity.
Qed.

Lemma run_events_Core layers srcs (schedule : list nat) (m : Machine) :
  Core name dest manifest layers srcs m ->
  Core name dest manifest layers srcs (run_events schedule m).
Proof.
  intros HC. induction schedule as [|i schedule IH] using rev_ind; [exact HC|].
  rewrite run_events_snoc. apply step_Core. exact IH.
Qed.

Lemma run_events_Res layers srcs before (schedule : list nat) (m : Machine) :
  Core name dest manifest layers srcs m -> Res name dest before m ->
  Res name dest before (run_events schedule m).
Proof.
  intros HC HR. induction schedule as [|i schedule IH] using rev_ind; [exact HR|].
  rewrite run_events_snoc. eapply step_Res; [|exact IH].
  apply run_events_Core. exact HC.
Qed.

Lemma run_events_Content layers srcs (schedule : list nat) (m : Machine) :
  Core name dest manifest layers srcs m ->
  NoDup ((fun l => destTempFile_of l dest) <$> layers) ->
  Content name dest m -> Content name dest (run_events schedule m).
Proof.
  intros HC Hnd Hcont. induction schedule as [|i schedule IH] using rev_ind; [exact Hcont|].
  rewrite run_events_snoc. eapply step_Content; [|exact Hnd | exact IH].
  apply run_events_Core. exact HC.
Qed.

End Invariants.

(** ** The run: from [run] to any later state *)

Section Launch.

Variables (hwm : nat) (random1 random2 : string) (name : string)
          (manifest : list (string * JsVal)) (fs1 : gmap string (list byte)).

Let sourceDir : string := mkdtemp "image2dat_src_" random1.
Let dest : string := mkdtemp "image2dat_dest_" random2.

Lemma source_not_temp (l l' : string) :
  sourceDir +:+ "/" +:+ l <> destTempFile_of l' dest.
Proof. unfold destTempFile_of. apply src_not_dest. Qed.

Lemma launch_Core layers m l :
  Core name dest manifest layers (srcs_of random1 fs1 layers) m -> only_temps random2 fs1 m ->
  Core name dest manifest (layers ++ [l]) (srcs_of random1 fs1 (layers ++ [l]))
       (launch hwm sourceDir m l)
  /\ only_temps random2 fs1 (launch hwm sourceDir m l).
Proof.
  intros (Hn & Hd & Hm & HL & Hh & Ht & Hs & Hinv) Honly.
  unfold launch, compressLayer. cbn. split.
  - unfold Core, srcs_of. cbn.
    rewrite !List.length_app, length_fmap, HL, Hh, Ht. cbn.
    rewrite Nat.add_1_r, seq_S.
    repeat (split; [first [assumption | reflexivity
                          | rewrite length_app; cbn; lia]|]).
    intros i t Hi. apply lookup_snoc_Some in Hi as [[Hlt Hi]|[-> <-]].
    + destruct (Hinv _ _ Hi) as (li & src & Hli & Hsrc & Hti).
      exists li, src. split; [|split].
      * rewrite lookup_app_l by (eapply lookup_lt_Some; exact Hli). exact Hli.
      * rewrite fmap_app, lookup_app_l by (eapply lookup_lt_Some; exact Hsrc). exact Hsrc.
      * eapply task_inv_kept; [exact Hti | | apply blobs_kept_insert].
        apply lookup_app_l. lia.
    + exists l, (fs1 !! (sourceDir +:+ "/" +:+ l)). split; [|split].
      * rewrite lookup_app_r by lia. rewrite Ht, Nat.sub_diag. reflexivity.
      * rewrite fmap_app, lookup_app_r by (rewrite length_fmap; lia).
        rewrite length_fmap, Ht, Nat.sub_diag. reflexivity.
      * unfold task_inv. cbn. rewrite Hn, Hd, ?Hh, ?Ht.
        repeat (split; [reflexivity|]). split.
        -- rewrite lookup_app_r by lia. rewrite Hh, Nat.sub_diag. reflexivity.
        -- rewrite <- (Honly _ (source_not_temp l)).
           destruct (m_fs m !! (sourceDir +:+ "/" +:+ l)) as [c|] eqn:E.
           ++ destruct (createReadStream_Some hwm _ _ _ E) as (cs & -> & Hc). eauto.
           ++ rewrite (createReadStream_None hwm _ _ E). eauto.
  - intros p Hp. cbn. unfold Fs.createWriteStream.
    rewrite lookup_insert_ne; [apply Honly; exact Hp|].
    rewrite Hd. intros E. symmetry in E. exact (Hp _ E).
Qed.

Lemma m0_Core :
  Core name dest manifest [] (srcs_of random1 fs1 []) (m0 random2 name manifest fs1).
Proof.
  unfold Core, m0. cbn. repeat (split; [reflexivity|]).
  intros i t Hi. discriminate.
Qed.

Lemma copyOtherLayers_Core layers :
  Core name dest manifest layers (srcs_of random1 fs1 layers)
       (copyOtherLayers hwm sourceDir layers (m0 random2 name manifest fs1))
  /\ only_temps random2 fs1 (copyOtherLayers hwm sourceDir layers (m0 random2 name manifest fs1)).
Proof.
  unfold copyOtherLayers.
  induction layers as [|l layers IH] using rev_ind.
  - split; [apply m0_Core | intros p _; reflexivity].
  - rewrite foldl_snoc. destruct IH as [IH1 IH2]. apply launch_Core; assumption.
Qed.

Lemma launch_result m l :
  m_result (launch hwm sourceDir m l) = m_result m
  /\ m_uncaught (launch hwm sourceDir m l) = m_uncaught m.
Proof. unfold launch, compressLayer. cbn. auto. Qed.

Lemma copyOtherLayers_result layers :
  m_result (copyOtherLayers hwm sourceDir layers (m0 random2 name manifest fs1)) = Pending
  /\ m_uncaught (copyOtherLayers hwm sourceDir layers (m0 random2 name manifest fs1)) = None.
Proof.
  unfold copyOtherLayers.
  induction layers as [|l layers IH] using rev_ind; [split; reflexivity|].
  rewrite foldl_snoc.
  destruct (launch_result
              (foldl (launch hwm sourceDir) (m0 random2 name manifest fs1) layers) l)
    as [-> ->]. exact IH.
Qed.

(** With distinct temporary files, each holds nothing when the layers
    start. *)
Lemma copyOtherLayers_Content layers :
  NoDup ((fun l => destTempFile_of l dest) <$> layers) ->
  Content name dest (copyOtherLayers hwm sourceDir layers (m0 random2 name manifest fs1)).
Proof.
  unfold copyOtherLayers.
  induction layers as [|l layers IH] using rev_ind.
  - intros _ i t Hi. discriminate.
  - intros Hnd. rewrite fmap_app in Hnd. apply NoDup_app in Hnd as (Hnd & Hfresh & _).
    specialize (IH Hnd). rewrite foldl_snoc.
    destruct (copyOtherLayers_Core layers) as [HCore _].
    unfold copyOtherLayers in HCore.
    set (m := foldl (launch hwm sourceDir) (m0 random2 name manifest fs1) layers) in *.
    pose proof HCore as (Hn & Hd & Hm & HL & Hh & Ht & Hs & Hinv).
    unfold launch, compressLayer. intros i t Hi. cbn in Hi |- *.
    apply lookup_snoc_Some in Hi as [[Hlt Hi]|[-> <-]].
    + destruct (Hinv _ _ Hi) as (li & src & Hli & Hsrc & (T1 & T2 & T3 & T4 & T5)).
      eapply content_ok_kept; [exact (IH _ _ Hi) | |].
      * unfold Fs.createWriteStream. apply lookup_insert_ne. rewrite T4, Hd.
        intros E. apply (Hfresh (destTempFile_of li dest)).
        -- apply list_elem_of_fmap. exists li. split; [reflexivity|].
           apply list_elem_of_lookup. eauto.
        -- rewrite <- E. cbn. left.
      * apply blobs_sound_same. intros sha. unfold Fs.createWriteStream.
        apply lookup_insert_ne. rewrite Hd. apply temp_not_blob.
    + unfold content_ok. cbn. unfold Fs.createWriteStream.
      rewrite lookup_insert_eq. auto.
Qed.

End Launch.

Section RunFacts.

Variables (hwm : nat) (random1 random2 image : string) (sm : SourceManifest)
          (fs : gmap string (list byte)).

Let sourceDir : string := mkdtemp "image2dat_src_" random1.
Let dest : string := mkdtemp "image2dat_dest_" random2.

(** [run] ends at once when [simplifyName] or [copyRootLayer] throws. *)
Lemma run_rejected (e : JsError) :
  simplifyName image = Throw e
  \/ (exists name, simplifyName image = Normal name
                   /\ copyRootLayer sm name sourceDir dest fs = Throw e) ->
  exists nm, run hwm random1 random2 image sm fs
             = mkMachine fs nm dest [] [] [] None [] (Rejected e) None.
Proof.
  unfold run. intros [H|(name & H1 & H2)].
  - rewrite H. eauto.
  - rewrite H1. fold sourceDir dest. rewrite H2. eauto.
Qed.

Lemma run_started (name : string) (manifest : list (string * JsVal))
    (fs1 : gmap string (list byte)) :
  simplifyName image = Normal name ->
  copyRootLayer sm name sourceDir dest fs = Normal (manifest, fs1) ->
  run hwm random1 random2 image sm fs
  = join (copyOtherLayers hwm sourceDir (Layers sm) (m0 random2 name manifest fs1)).
Proof.
  unfold run. intros H1 H2. rewrite H1. fold sourceDir dest. rewrite H2. reflexivity.
Qed.

(** What [copyRootLayer] leaves of the file system: the manifest file and
    the layer files are as before, but for a layer that is the config
    file itself. *)
Lemma copyRootLayer_fs (name : string) (manifest : list (string * JsVal))
    (fs1 : gmap string (list byte)) :
  copyRootLayer sm name sourceDir dest fs = Normal (manifest, fs1) ->
  fs1 !! manifest_file dest name = fs !! manifest_file dest name
  /\ (forall l c, fs1 !! (sourceDir +:+ "/" +:+ l) = Some c ->
                  fs !! (sourceDir +:+ "/" +:+ l) = Some c)
  /\ (forall l, fs !! (sourceDir +:+ "/" +:+ l) = None ->
                fs1 !! (sourceDir +:+ "/" +:+ l) = None).
Proof.
  intros H. apply copyRootLayer_ok in H as (c & Hc & -> & _).
  assert (Hsrc : forall l, blob_file dest name (rootLayerSha (Config sm))
                           <> sourceDir +:+ "/" +:+ l).
  { intros l E. symmetry in E. revert E. unfold blob_file. apply src_not_dest. }
  split; [|split].
  - rewrite lookup_insert_ne by apply blob_not_manifest.
    apply lookup_delete_ne. unfold manifest_file. apply src_not_dest.
  - intros l c'. rewrite lookup_insert_ne by apply Hsrc.
    destruct (decide (sourceDir +:+ "/" +:+ Config sm = sourceDir +:+ "/" +:+ l))
      as [E|Hne].
    + rewrite E, lookup_delete_eq. discriminate.
    + rewrite lookup_delete_ne by exact Hne. auto.
  - intros l Hl. rewrite lookup_insert_ne by apply Hsrc.
    destruct (decide (sourceDir +:+ "/" +:+ Config sm = sourceDir +:+ "/" +:+ l))
      as [E|Hne].
    + rewrite E. apply lookup_delete_eq.
    + rewrite lookup_delete_ne by exact Hne. exact Hl.
Qed.

(** The invariants hold in every state that a started run reaches. *)
Lemma started_inv (name : string) (manifest : list (string * JsVal))
    (fs1 : gmap string (list byte)) (schedule : list nat) :
  simplifyName image = Normal name ->
  copyRootLayer sm name sourceDir dest fs = Normal (manifest, fs1) ->
  let m := run_events schedule (run hwm random1 random2 image sm fs) in
  Core name dest manifest (Layers sm) (srcs_of random1 fs1 (Layers sm)) m
  /\ Res name dest (fs !! manifest_file dest name) m
  /\ (NoDup ((fun l => destTempFile_of l dest) <$> Layers sm) -> Content name dest m).
Proof.
  intros H1 H2 m. subst m. rewrite (run_started _ _ _ H1 H2).
  destruct (copyOtherLayers_Core hwm random1 random2 name manifest fs1 (Layers sm))
    as [HC Honly].
  destruct (copyOtherLayers_result hwm random1 random2 name manifest fs1 (Layers sm))
    as [Hres _].
  fold sourceDir dest in HC, Honly, Hres.
  pose proof (join_Core _ _ _ _ _ _ HC) as HCj.
  split; [|split].
  - apply run_events_Core. exact HCj.
  - eapply run_events_Res; [exact HCj|].
    destruct HC as (Hn & Hd & _).
    apply join_Res; try assumption.
    rewrite Honly by (intros l E; symmetry in E; exact (temp_not_manifest _ _ _ E)).
    exact (proj1 (copyRootLayer_fs _ _ _ H2)).
  - intros Hnd. eapply run_events_Content; [exact HCj | exact Hnd |].
    eapply join_Content; [exact HC|].
    apply copyOtherLayers_Content. exact Hnd.
Qed.

End RunFacts.

(** ** Test vectors of SHA-256 *)

(** The digests of the empty message and of ["abc"] (FIPS 180-4 test
    vectors), and the first round constant and initial word. *)
Example sha256_empty :
  Sha256.hex [] = "e3b0c44298fc1c149afbf4c8996fb92427ae41e4649b934ca495991b7852b855".
Proof. vm_compute. reflexivity. Qed.

Example sha256_abc :
  Sha256.hex (list_byte_of_string "abc")
  = "ba7816bf8f01cfea414140de5dae2223b00361a396177a9cb410ff61f20015ad".
Proof. vm_compute. reflexivity. Qed.

Example sha256_two_blocks :
  Sha256.hex (list_byte_of_string
                "abcdbcdecdefdefgefghfghighijhijkijkljklmklmnlmnomnopnopq")
  = "248d6a61d20638b8e5c026930c3e6039a33ce45964ff2167f6ecedd419db06c1".
Proof. vm_compute. reflexivity. Qed.

Example sha256_constants :
  List.length Sha256.K = 64%nat
  /\ head Sha256.K = Some 0x428a2f98%Z
  /\ last Sha256.K = Some 0xc67178f2%Z
  /\ Sha256.wa Sha256.H0 = 0x6a09e667%Z
  /\ Sha256.wh Sha256.H0 = 0x5be0cd19%Z.
Proof. vm_compute. repeat split; reflexivity. Qed.

(** Coercions of strings to an index, as [substr] sees them. *)
Example to_integer_examples :
  StringToNumber.to_integer "123456" = Int 123456
  /\ StringToNumber.to_integer " 12.9e1 " = Int 129
  /\ StringToNumber.to_integer "0x1f" = Int 31
  /\ StringToNumber.to_integer "-Infinity" = NegInf
  /\ StringToNumber.to_integer "abcd.json" = Int 0
  /\ StringToNumber.to_integer "" = Int 0
  /\ StringToNumber.to_integer "0.99999999999999999999" = Int 1
  /\ StringToNumber.to_integer "9007199254740993" = Int 9007199254740992.
Proof. vm_compute. repeat split; reflexivity. Qed.

(** ** The manifest of a fulfilled run *)

Section Fulfilled.

Variables (hwm : nat) (random1 random2 image : string) (sm : SourceManifest)
          (fs : gmap string (list byte)).

Let sourceDir : string := mkdtemp "image2dat_src_" random1.
Let dest : string := mkdtemp "image2dat_dest_" random2.

(** A run that was rejected stays as it is. *)
Lemma rejected_stays (e : JsError) (schedule : list nat) :
  simplifyName image = Throw e
  \/ (exists name, simplifyName image = Normal name
                   /\ copyRootLayer sm name sourceDir dest fs = Throw e) ->
  exists nm, run_events schedule (run hwm random1 random2 image sm fs)
             = mkMachine fs nm dest [] [] [] None [] (Rejected e) None.
Proof.
  intros H. destruct (run_rejected hwm random1 random2 image sm fs e H) as (nm & ->).
  exists nm. apply run_events_no_tasks. reflexivity.
Qed.

(** Either [run] is rejected before any layer is started, or it starts
    its layers. *)
Lemma run_cases :
  (exists e, simplifyName image = Throw e
             \/ (exists name, simplifyName image = Normal name
                              /\ copyRootLayer sm name sourceDir dest fs = Throw e))
  \/ (exists name manifest fs1,
        simplifyName image = Normal name
        /\ copyRootLayer sm name sourceDir dest fs = Normal (manifest, fs1)).
Proof.
  destruct (simplifyName image) as [name|e] eqn:H1; [|left; eauto].
  destruct (copyRootLayer sm name sourceDir dest fs) as [[manifest fs1]|e] eqn:H2.
  - right. eauto.
  - left. exists e. right. eauto.
Qed.

(** The manifest of a fulfilled run: the fixed head, the config
    descriptor, and one descriptor per layer of the source manifest, in
    its order, each with the digest of that layer's file; this is the
    document written to the manifest file. *)
Lemma fulfilled_manifest (schedule : list nat) (path : string) :
  let m := run_events schedule (run hwm random1 random2 image sm fs) in
  m_result m = Fulfilled path ->
  exists contents : list (list byte),
    Forall2 (fun l c => fs !! (sourceDir +:+ "/" +:+ l) = Some c) (Layers sm) contents
    /\ manifest_value m
       = VObj [("SchemaVersion", VNum 2);
               ("MediaType", VStr ManifestType);
               ("Config", VObj [("MediaType", VStr ConfigType);
                                ("Digest", VStr ("sha256:" +:+ rootLayerSha (Config sm)));
                                ("Size", VUndef)]);
               ("Layers", VArr ((fun c => VObj (descriptor c)) <$> contents))]
    /\ exists text,
         JSON.stringify (manifest_value m) = Some text
         /\ m_fs m !! manifest_file dest (m_name m) = Some (Fs.utf8 text).
Proof.
  intros m Hres. destruct run_cases as [(e & H)|(name & manifest & fs1 & H1 & H2)].
  { destruct (rejected_stays e schedule H) as (nm & E). subst m.
    rewrite E in Hres. discriminate. }
  destruct (started_inv hwm random1 random2 image sm fs name manifest fs1 schedule H1 H2)
    as (HC & HR & _).
  fold sourceDir dest m in HC, HR.
  destruct HC as (Hn & Hd & Hm & HL & Hh & Ht & Hs & Hinv).
  unfold Res in HR. rewrite Hres in HR. destruct HR as (_ & Hall & text & Htext & Hfile).
  pose proof (copyRootLayer_ok _ _ _ _ _ _ _ H2) as (c0 & _ & _ & Hman).
  assert (Htask : forall i t, m_tasks m !! i = Some t ->
            exists l, Layers sm !! i = Some l
                      /\ fs !! (sourceDir +:+ "/" +:+ l) = Some (t_sha256Digester t)
                      /\ m_heap m !! i = Some (descriptor (t_sha256Digester t))).
  { intros i t Hi. destruct (Hinv _ _ Hi) as (l & src & Hl & Hsrc & (_ & _ & _ & _ & T5)).
    rewrite forallb_forall in Hall.
    assert (Hr : is_resolved t = true).
    { apply Hall, list_elem_of_In, list_elem_of_lookup. eauto. }
    unfold is_resolved in Hr. destruct (t_status t); try discriminate.
    destruct T5 as (-> & Hheap & _). exists l. split; [exact Hl|]. split; [|exact Hheap].
    unfold srcs_of in Hsrc. rewrite list_lookup_fmap, Hl in Hsrc. injection Hsrc as Hsrc.
    eapply (proj1 (proj2 (copyRootLayer_fs random1 random2 sm fs _ _ _ H2))). exact Hsrc. }
  exists (t_sha256Digester <$> m_tasks m). split; [|split].
  - apply Forall2_same_length_lookup. split; [rewrite length_fmap; lia|].
    intros i l c Hl Hc. rewrite list_lookup_fmap in Hc.
    destruct (m_tasks m !! i) as [t|] eqn:Hi; [|discriminate]. injection Hc as <-.
    destruct (Htask _ _ Hi) as (l' & Hl' & Hf & _). congruence.
  - assert (E : map (fun r => VObj (default [] (m_heap m !! r))) (m_Layers m)
                = (fun c => VObj (descriptor c)) <$> (t_sha256Digester <$> m_tasks m)).
    { rewrite HL, <- Ht. apply list_eq. intros i.
      change (map ?f ?l) with (f <$> l). rewrite !list_lookup_fmap.
      destruct (m_tasks m !! i) as [t|] eqn:Hi.
      + rewrite (proj2 (lookup_seq 0 _ i i))
          by (split; [lia | eapply lookup_lt_Some; eauto]).
        cbn. destruct (Htask _ _ Hi) as (_ & _ & _ & ->). reflexivity.
      + apply lookup_ge_None in Hi.
        rewrite (proj2 (lookup_ge_None (seq 0 (List.length (m_tasks m))) i))
          by (rewrite length_seq; lia).
        reflexivity. }
    unfold manifest_value. rewrite Hm, Hman. cbn. rewrite E. reflexivity.
  - exists text. rewrite Hn. auto.
Qed.

End Fulfilled.

(** ** Blobs stay where they were put *)

Section Kept.

Variables (name dest : string) (manifest : list (string * JsVal)).

Lemma blobs_kept_trans (fs1 fs2 fs3 : gmap string (list byte)) :
  blobs_kept name dest fs1 fs2 -> blobs_kept name dest fs2 fs3 ->
  blobs_kept name dest fs1 fs3.
Proof. intros H12 H23 sha H. apply H23, H12, H. Qed.

Lemma join_blobs_kept (m : Machine) :
  blobs_kept name dest (m_fs m) (m_fs (join m)).
Proof.
  unfold join. destruct (m_result m); try apply blobs_kept_refl.
  destruct (forallb is_resolved (m_tasks m)); [|apply blobs_kept_refl].
  destruct (writeManifest_fs m) as (text & _ & ->). cbn. apply blobs_kept_insert.
Qed.

Lemma step_blobs_kept layers srcs (m : Machine) (i : nat) :
  Core name dest manifest layers srcs m ->
  blobs_kept name dest (m_fs m) (m_fs (step m i)).
Proof.
  intros (Hn & Hd & Hm & HL & Hh & Ht & Hs & Hinv).
  unfold step. destruct (m_uncaught m); [apply blobs_kept_refl|].
  destruct (m_tasks m !! i) as [t|] eqn:Ei; [|apply blobs_kept_refl].
  destruct (Hinv _ _ Ei) as (l & src & Hl & Hsrc & (T1 & T2 & T3 & T4 & T5)).
  destruct (t_status t) eqn:Est; try apply blobs_kept_refl.
  - destruct (t_sourceStream t) as [|[chunk| |e] rest]; try apply blobs_kept_refl.
    unfold on_data. cbn. apply blobs_kept_write.
  - rewrite on_renamed_eq by (rewrite (proj2 (proj2 T5)); apply hex_no_separator).
    rewrite T2, T3, T4.
    destruct (m_fs m !! destTempFile_of l dest) as [c|]; [|apply blobs_kept_refl].
    eapply blobs_kept_trans; [|apply join_blobs_kept].
    unfold resolved_machine. cbn. apply blobs_kept_rename.
Qed.

Lemma run_events_blobs_kept layers srcs (schedule : list nat) (m : Machine) :
  Core name dest manifest layers srcs m ->
  blobs_kept name dest (m_fs m) (m_fs (run_events schedule m)).
Proof.
  intros HC. induction schedule as [|i schedule IH] using rev_ind.
  - apply blobs_kept_refl.
  - rewrite run_events_snoc. eapply blobs_kept_trans; [exact IH|].
    eapply step_blobs_kept. apply run_events_Core. exact HC.
Qed.

Lemma copyOtherLayers_blobs_kept hwm sourceDir (layers : list string) (m : Machine) :
  m_destTempDir m = dest ->
  blobs_kept name dest (m_fs m) (m_fs (copyOtherLayers hwm sourceDir layers m))
  /\ m_destTempDir (copyOtherLayers hwm sourceDir layers m) = dest.
Proof.
  intros Hd. unfold copyOtherLayers.
  induction layers as [|l layers [IH1 IH2]] using rev_ind.
  - split; [apply blobs_kept_refl | exact Hd].
  - rewrite foldl_snoc. split.
    + eapply blobs_kept_trans; [exact IH1|].
      unfold launch, compressLayer. cbn. apply blobs_kept_insert.
    + unfold launch, compressLayer. cbn. exact IH2.
Qed.

End Kept.

(** ** The descriptors of a started run *)

Section Started.

Variables (hwm : nat) (random1 random2 image : string) (sm : SourceManifest)
          (fs : gmap string (list byte)).
Variables (name : string) (manifest : list (string * JsVal))
          (fs1 : gmap string (list byte)).

Let sourceDir : string := mkdtemp "image2dat_src_" random1.
Let dest : string := mkdtemp "image2dat_dest_" random2.

Hypothesis Hname : simplifyName image = Normal name.
Hypothesis Hroot : copyRootLayer sm name sourceDir dest fs = Normal (manifest, fs1).

Variable schedule : list nat.
Let m : Machine := run_events schedule (run hwm random1 random2 image sm fs).

Lemma started_fields : m_name m = name /\ m_destTempDir m = dest.
Proof.
  destruct (started_inv hwm random1 random2 image sm fs name manifest fs1 schedule
              Hname Hroot) as ((Hn & Hd & _) & _). auto.
Qed.

Lemma started_config :
  config_descriptor m
  = VObj [("MediaType", VStr ConfigType);
          ("Digest", VStr ("sha256:" +:+ rootLayerSha (Config sm)));
          ("Size", VUndef)].
Proof.
  destruct (started_inv hwm random1 random2 image sm fs name manifest fs1 schedule
              Hname Hroot) as ((_ & _ & Hm & _) & _).
  fold sourceDir dest m in Hm.
  pose proof (copyRootLayer_ok _ _ _ _ _ _ _ Hroot) as (c0 & _ & _ & Hman).
  unfold config_descriptor, manifest_value. rewrite Hm, Hman. reflexivity.
Qed.

Lemma started_layers :
  layer_descriptors m
  = (fun r => VObj (default [] (m_heap m !! r))) <$> seq 0 (List.length (Layers sm)).
Proof.
  destruct (started_inv hwm random1 random2 image sm fs name manifest fs1 schedule
              Hname Hroot) as ((_ & _ & Hm & HL & _) & _).
  fold sourceDir dest m in Hm, HL.
  pose proof (copyRootLayer_ok _ _ _ _ _ _ _ Hroot) as (c0 & _ & _ & Hman).
  unfold layer_descriptors, manifest_value. rewrite Hm, Hman, HL. reflexivity.
Qed.

(** The descriptor of a resolved layer is its object of the heap. *)
Lemma started_resolved (i : nat) (t : LayerTask) :
  m_tasks m !! i = Some t -> t_status t = Resolved ->
  layer_descriptors m !! i = Some (VObj (descriptor (t_sha256Digester t)))
  /\ is_Some (m_fs m !! blob_file dest name (Sha256.hex (t_sha256Digester t))).
Proof.
  intros Hi Hst.
  destruct (started_inv hwm random1 random2 image sm fs name manifest fs1 schedule
              Hname Hroot) as ((_ & _ & _ & _ & _ & Ht & _ & Hinv) & _).
  fold sourceDir dest m in Ht, Hinv.
  destruct (Hinv _ _ Hi) as (l & src & _ & _ & (_ & _ & _ & _ & T5)).
  rewrite Hst in T5. destruct T5 as (_ & Hheap & Hblob).
  split; [|exact Hblob].
  rewrite started_layers, list_lookup_fmap.
  rewrite (proj2 (lookup_seq 0 _ i i))
    by (split; [lia | rewrite <- Ht; eapply lookup_lt_Some; eauto]).
  cbn. rewrite Hheap. reflexivity.
Qed.

(** The config blob is in place in every state of the run. *)
Lemma started_config_blob :
  is_Some (m_fs m !! blob_file dest name (rootLayerSha (Config sm))).
Proof.
  pose proof (copyRootLayer_ok _ _ _ _ _ _ _ Hroot) as (c0 & _ & Hfs1 & _).
  assert (H1 : is_Some (fs1 !! blob_file dest name (rootLayerSha (Config sm)))).
  { rewrite Hfs1, lookup_insert_eq. eauto. }
  subst m. rewrite (run_started hwm random1 random2 image sm fs _ _ _ Hname Hroot).
  fold sourceDir dest.
  destruct (copyOtherLayers_Core hwm random1 random2 name manifest fs1 (Layers sm))
    as [HC _]. fold sourceDir dest in HC.
  eapply run_events_blobs_kept; [apply join_Core; exact HC|].
  apply join_blobs_kept.
  eapply (proj1 (copyOtherLayers_blobs_kept name dest hwm sourceDir (Layers sm)
                   (m0 random2 name manifest fs1) eq_refl)).
  exact H1.
Qed.

End Started.

(** * The claims of the specification *)

(** C3.  Whatever the order in which the events of the layers are
    delivered, the manifest of a fulfilled run lists exactly one descriptor
    per layer of the source manifest, in the order of the source manifest:
    the [i]-th descriptor carries the digest of the [i]-th layer's file. *)
Theorem layer_order_preserved (hwm : nat) (random1 random2 image : string)
    (sm : SourceManifest) (fs : gmap string (list byte)) (schedule : list nat)
    (path : string) :
  m_result (run_events schedule (run hwm random1 random2 image sm fs)) = Fulfilled path ->
  List.length (layer_descriptors (run_events schedule (run hwm random1 random2 image sm fs)))
  = List.length (Layers sm)
  /\ Forall2
       (fun l d =>
          exists c, fs !! (mkdtemp "image2dat_src_" random1 +:+ "/" +:+ l) = Some c
                    /\ Js.get_prop d "Digest" = VStr ("sha256:" +:+ Sha256.hex c))
       (Layers sm)
       (layer_descriptors (run_events schedule (run hwm random1 random2 image sm fs))).
Proof.
  intros Hres.
  destruct (fulfilled_manifest hwm random1 random2 image sm fs schedule path Hres)
    as (contents & Hall & Hman & _).
  assert (E : layer_descriptors (run_events schedule (run hwm random1 random2 image sm fs))
              = (fun c => VObj (descriptor c)) <$> contents).
  { unfold layer_descriptors. rewrite Hman. reflexivity. }
  rewrite E. split.
  - rewrite length_fmap. symmetry. eapply Forall2_length. exact Hall.
  - apply Forall2_fmap_r. eapply Forall2_impl; [exact Hall|].
    intros l c Hc. exists c. split; [exact Hc | reflexivity].
Qed.

(** The second layer is hashed and renamed before the first one delivers
    any data; the descriptors still come in the order of the source. *)
Lemma layer_order_preserved_witness :
  m_result second_layer_first = Fulfilled "image2dat_dest_B/work"
  /\ List.length (layer_descriptors second_layer_first)
     = List.length (Layers example_manifest)
  /\ Forall2
       (fun l d =>
          exists c, example_fs !! (mkdtemp "image2dat_src_" "A" +:+ "/" +:+ l) = Some c
                    /\ Js.get_prop d "Digest" = VStr ("sha256:" +:+ Sha256.hex c))
       (Layers example_manifest)
       (layer_descriptors second_layer_first).
Proof.
  split; [vm_compute; reflexivity|].
  apply (layer_order_preserved 1 "A" "B" "app" example_manifest example_fs
           [1; 1; 0; 0; 0; 0] "image2dat_dest_B/work").
  vm_compute. reflexivity.
Defined.




Lemma blob_file_digest (dest name sha : string) :
  blob_file dest name sha = dest +:+ "/work/" +:+ name +:+ "/blobs/" +:+ "sha256:" +:+ sha.
Proof. reflexivity. Qed.

(** A run whose promise is not rejected has started its layers. *)
Lemma not_rejected_started (hwm : nat) (random1 random2 image : string)
    (sm : SourceManifest) (fs : gmap string (list byte)) (schedule : list nat) :
  (forall e, m_result (run_events schedule (run hwm random1 random2 image sm fs))
             <> Rejected e)
  \/ m_tasks (run_events schedule (run hwm random1 random2 image sm fs)) <> [] ->
  exists name manifest fs1,
    simplifyName image = Normal name
    /\ copyRootLayer sm name (mkdtemp "image2dat_src_" random1)
         (mkdtemp "image2dat_dest_" random2) fs = Normal (manifest, fs1).
Proof.
  intros H.
  destruct (run_cases random1 random2 image sm fs) as [(e & He)|Hs]; [|exact Hs].
  destruct (rejected_stays hwm random1 random2 image sm fs e schedule He) as (nm & E).
  rewrite E in H. cbn in H. destruct H as [H|H]; [destruct (H e) | destruct H]; reflexivity.
Qed.

(** C2.  [copyRootLayer] moves the config file to
    [<destRoot>/work/<imageName>/blobs/<digest>] for the digest [sha256:...]
    that it records in the config descriptor; in every state of a run that
    was not rejected, the config blob is at the path named in this way by
    the config descriptor, and the blob of every layer whose descriptor was
    produced is at the path named in the same way by the digest of that
    layer's descriptor. *)
Theorem blob_at_descriptor_digest (hwm : nat) (random1 random2 image : string)
    (sm : SourceManifest) (fs : gmap string (list byte)) (schedule : list nat) :
  (forall (imageName sourceDir destDir : string) (manifest : list (string * JsVal))
          (fs' : gmap string (list byte)),
      copyRootLayer sm imageName sourceDir destDir fs = Normal (manifest, fs') ->
      exists d c,
        Js.get_prop (Js.get_prop (VObj manifest) "Config") "Digest" = VStr d
        /\ fs !! (sourceDir +:+ "/" +:+ Config sm) = Some c
        /\ fs' !! (destDir +:+ "/work/" +:+ imageName +:+ "/blobs/" +:+ d) = Some c)
  /\ let m := run_events schedule (run hwm random1 random2 image sm fs) in
     (forall e, m_result m <> Rejected e) ->
     (exists d, Js.get_prop (config_descriptor m) "Digest" = VStr d
                /\ is_Some (m_fs m !! (m_destTempDir m +:+ "/work/" +:+ m_name m
                                        +:+ "/blobs/" +:+ d)))
     /\ forall i t, m_tasks m !! i = Some t -> t_status t = Resolved ->
          exists descr d,
            layer_descriptors m !! i = Some descr
            /\ Js.get_prop descr "Digest" = VStr d
            /\ is_Some (m_fs m !! (m_destTempDir m +:+ "/work/" +:+ m_name m
                                    +:+ "/blobs/" +:+ d)).
Proof.
  split.
  { intros imageName sourceDir destDir manifest fs' H.
    apply copyRootLayer_ok in H as (c & Hc & -> & ->).
    exists ("sha256:" +:+ rootLayerSha (Config sm)), c.
    split; [reflexivity|]. split; [exact Hc|].
    rewrite <- blob_file_digest. apply lookup_insert_eq. }
  intros m Hnr.
  destruct (not_rejected_started hwm random1 random2 image sm fs schedule (or_introl Hnr))
    as (name & manifest & fs1 & H1 & H2).
  destruct (started_fields hwm random1 random2 image sm fs name manifest fs1 H1 H2 schedule)
    as [Hn Hd].
  fold m in Hn, Hd. rewrite Hn, Hd. split.
  - exists ("sha256:" +:+ rootLayerSha (Config sm)). split.
    + unfold m. rewrite (started_config hwm random1 random2 image sm fs name manifest fs1 H1 H2).
      reflexivity.
    + rewrite <- blob_file_digest.
      apply (started_config_blob hwm random1 random2 image sm fs name manifest fs1 H1 H2).
  - intros i t Hi Hst.
    destruct (started_resolved hwm random1 random2 image sm fs name manifest fs1 H1 H2
                schedule i t Hi Hst) as [Hdescr Hblob].
    exists (VObj (descriptor (t_sha256Digester t))),
           ("sha256:" +:+ Sha256.hex (t_sha256Digester t)).
    split; [exact Hdescr|]. split; [reflexivity|].
    rewrite <- blob_file_digest. exact Hblob.
Qed.

Lemma blob_at_descriptor_digest_witness :
  (exists manifest fs',
     copyRootLayer example_manifest "app" (mkdtemp "image2dat_src_" "A")
       (mkdtemp "image2dat_dest_" "B") example_fs = Normal (manifest, fs')
     /\ exists d c,
          Js.get_prop (Js.get_prop (VObj manifest) "Config") "Digest" = VStr d
          /\ example_fs !! (mkdtemp "image2dat_src_" "A" +:+ "/" +:+ Config example_manifest)
             = Some c
          /\ fs' !! (mkdtemp "image2dat_dest_" "B" +:+ "/work/" +:+ "app" +:+ "/blobs/" +:+ d)
             = Some c)
  /\ (forall e, m_result first_layer_pending <> Rejected e)
  /\ (exists d, Js.get_prop (config_descriptor first_layer_pending) "Digest" = VStr d
                /\ is_Some (m_fs first_layer_pending !! (m_destTempDir first_layer_pending +:+ "/work/" +:+ m_name first_layer_pending
                                        +:+ "/blobs/" +:+ d)))
  /\ exists t, m_tasks first_layer_pending !! 1 = Some t /\ t_status t = Resolved
       /\ exists descr d,
            layer_descriptors first_layer_pending !! 1 = Some descr
            /\ Js.get_prop descr "Digest" = VStr d
            /\ is_Some (m_fs first_layer_pending !! (m_destTempDir first_layer_pending +:+ "/work/" +:+ m_name first_layer_pending
                                    +:+ "/blobs/" +:+ d)).
Proof.
  unfold first_layer_pending.
  assert (Hnr : forall e,
             m_result (run_events [1; 1; 0; 0; 0]
                         (run 1 "A" "B" "app" example_manifest example_fs)) <> Rejected e)
    by (intros e; vm_compute; discriminate).
  assert (Hsep : ~ JsString.contains "app" "/") by (vm_compute; intuition discriminate).
  assert (Hconfig : is_Some (example_fs !! (mkdtemp "image2dat_src_" "A" +:+ "/"
                                            +:+ Config example_manifest)))
    by (vm_compute; eexists; reflexivity).
  destruct (blob_at_descriptor_digest 1 "A" "B" "app" example_manifest example_fs
              [1; 1; 0; 0; 0]) as [Hroot Hrun].
  destruct (Hrun Hnr) as [Hcfg Hlayers].
  split.
  { destruct (started_from_inputs "A" "B" "app" example_manifest example_fs Hsep
              ltac:(vm_compute; intuition discriminate) Hconfig)
      as (manifest & fs1 & _ & H2).
    exists manifest, fs1. split; [exact H2 | exact (Hroot _ _ _ _ _ H2)]. }
  split; [exact Hnr|]. split; [exact Hcfg|].
  eexists. split; [vm_compute; reflexivity|]. split; [vm_compute; reflexivity|].
  eapply Hlayers; vm_compute; reflexivity.
Defined.




(** ** A layer that cannot be read *)

Lemma join_tasks (m : Machine) : m_tasks (join m) = m_tasks m.
Proof.
  unfold join. destruct (m_result m); try reflexivity.
  destruct (forallb is_resolved (m_tasks m)); [|reflexivity].
  destruct (writeManifest_fs m) as (text & _ & ->). reflexivity.
Qed.

Lemma join_uncaught (m : Machine) : m_uncaught (join m) = m_uncaught m.
Proof.
  unfold join. destruct (m_result m); try reflexivity.
  destruct (forallb is_resolved (m_tasks m)); [|reflexivity].
  destruct (writeManifest_fs m) as (text & _ & ->). reflexivity.
Qed.

Section Unreadable.

Variables (name dest : string) (manifest : list (string * JsVal)).
Variables (layers : list string) (srcs : list (option (list byte))).

(** Once the process has ended on an uncaught exception, nothing moves. *)
Lemma step_uncaught_stays (m : Machine) (i : nat) :
  is_Some (m_uncaught m) -> step m i = m.
Proof.
  intros [e He]. unfold step. rewrite He. reflexivity.
Qed.

(** The task of a layer whose source could not be opened keeps waiting
    for its stream. *)
Lemma unreadable_streaming (m : Machine) (i : nat) (t : LayerTask) :
  Core name dest manifest layers srcs m ->
  srcs !! i = Some None -> m_tasks m !! i = Some t ->
  t_status t = Streaming
  /\ (exists e, t_sourceStream t = [SError e]).
Proof.
  intros (_ & _ & _ & _ & _ & _ & _ & Hinv) Hsrc Hi.
  destruct (Hinv _ _ Hi) as (l & src & _ & Hsrc' & (_ & _ & _ & _ & T5)).
  assert (src = None) as -> by congruence.
  destruct (t_status t).
  - split; [reflexivity|]. apply T5.
  - destruct T5 as (_ & [=] & _).
  - destruct T5 as ([=] & _).
  - discriminate T5.
Qed.

(** The ['error'] of its stream, once delivered, ends the process. *)
Lemma unreadable_uncaught (schedule : list nat) (m : Machine) (i : nat) :
  Core name dest manifest layers srcs m ->
  srcs !! i = Some None -> i ∈ schedule ->
  is_Some (m_uncaught (run_events schedule m)).
Proof.
  intros HC Hsrc. induction schedule as [|j schedule IH] using rev_ind.
  - intros H. apply elem_of_nil in H. destruct H.
  - intros Hin. rewrite run_events_snoc.
    pose proof (run_events_Core name dest manifest layers srcs schedule m HC) as HC'.
    destruct (m_uncaught (run_events schedule m)) as [e|] eqn:Eu.
    { rewrite step_uncaught_stays by (rewrite Eu; eauto). rewrite Eu. eauto. }
    apply elem_of_app in Hin as [Hin|Hin].
    { destruct (IH Hin) as [e He]. discriminate. }
    apply list_elem_of_singleton in Hin as <-.
    assert (Hlt : i < List.length (m_tasks (run_events schedule m))).
    { destruct HC' as (_ & _ & _ & _ & _ & Ht & Hs & _). rewrite Ht, <- Hs.
      eapply lookup_lt_Some. exact Hsrc. }
    apply lookup_lt_is_Some in Hlt as [t Hi].
    destruct (unreadable_streaming _ _ _ HC' Hsrc Hi) as [Hst [e He]].
    unfold step. rewrite Eu, Hi, Hst, He. cbn. eauto.
Qed.

End Unreadable.

(** The layer files are where they were once the config file is moved. *)
Lemma copyRootLayer_keeps_layer (random1 random2 name : string) (sm : SourceManifest)
    (fs fs1 : gmap string (list byte)) (manifest : list (string * JsVal)) (l : string) :
  copyRootLayer sm name (mkdtemp "image2dat_src_" random1)
    (mkdtemp "image2dat_dest_" random2) fs = Normal (manifest, fs1) ->
  l <> Config sm ->
  fs1 !! (mkdtemp "image2dat_src_" random1 +:+ "/" +:+ l)
  = fs !! (mkdtemp "image2dat_src_" random1 +:+ "/" +:+ l).
Proof.
  intros H Hl. apply copyRootLayer_ok in H as (c0 & _ & -> & _).
  rewrite lookup_insert_ne
    by (intros E; symmetry in E; revert E; unfold blob_file; apply src_not_dest).
  apply lookup_delete_ne. intros E. apply Hl.
  apply (inj (String.app (mkdtemp "image2dat_src_" random1))) in E.
  apply (inj (String.app "/")) in E. symmetry. exact E.
Qed.

Section ReadErrors.

Variables (name dest : string) (manifest : list (string * JsVal)).
Variables (sourceDir : string) (layers : list string) (srcs : list (option (list byte))).

Lemma join_Errors (m : Machine) :
  Errors sourceDir layers srcs m -> Errors sourceDir layers srcs (join m).
Proof. unfold Errors. rewrite join_tasks, join_uncaught. auto. Qed.

(** A task whose status changes keeps its stream. *)
Lemma status_Errors (m : Machine) (i : nat) (t : LayerTask) (s : TaskStatus)
    (fs : gmap string (list byte)) (heap : list (list (string * JsVal))) :
  m_tasks m !! i = Some t ->
  Errors sourceDir layers srcs m ->
  Errors sourceDir layers srcs
    (with_tasks (<[i := with_status s t]> (m_tasks m)) (with_heap heap (with_fs fs m))).
Proof.
  intros Hi [Hstream Hunc]. split; [|exact Hunc].
  intros j tj e Hj He. cbn in Hj.
  destruct (decide (j = i)) as [->|Hne].
  - rewrite list_lookup_insert_eq in Hj by (eapply lookup_lt_Some; exact Hi).
    injection Hj as <-. exact (Hstream _ _ _ Hi He).
  - rewrite list_lookup_insert_ne in Hj by congruence. exact (Hstream _ _ _ Hj He).
Qed.

(** A task that consumes the head of its stream carries no new error. *)
Lemma consumed_Errors (m : Machine) (i : nat) (t t' : LayerTask) (ev : StreamEvent)
    (fs : gmap string (list byte)) :
  m_tasks m !! i = Some t ->
  t_sourceStream t = ev :: t_sourceStream t' ->
  Errors sourceDir layers srcs m ->
  Errors sourceDir layers srcs (with_tasks (<[i := t']> (m_tasks m)) (with_fs fs m)).
Proof.
  intros Hi Hs [Hstream Hunc]. split; [|exact Hunc].
  intros j tj e Hj He. cbn in Hj.
  destruct (decide (j = i)) as [->|Hne].
  - rewrite list_lookup_insert_eq in Hj by (eapply lookup_lt_Some; exact Hi).
    injection Hj as <-. apply (Hstream _ _ _ Hi). rewrite Hs. right. exact He.
  - rewrite list_lookup_insert_ne in Hj by congruence. exact (Hstream _ _ _ Hj He).
Qed.

Lemma step_Errors (m : Machine) (i : nat) :
  Core name dest manifest layers srcs m ->
  Errors sourceDir layers srcs m -> Errors sourceDir layers srcs (step m i).
Proof.
  intros (_ & _ & _ & _ & _ & _ & _ & Hinv) HE. unfold step.
  destruct (m_uncaught m) eqn:Eu; [exact HE|].
  destruct (m_tasks m !! i) as [t|] eqn:Ei; [|exact HE].
  destruct (Hinv _ _ Ei) as (l & src & Hl & Hsrc & (_ & _ & _ & _ & T5)).
  destruct (t_status t) eqn:Est; try exact HE.
  - destruct (t_sourceStream t) as [|[chunk| |e] rest] eqn:Es; try exact HE.
    + unfold on_data. eapply consumed_Errors; [exact Ei | rewrite Es; reflexivity | exact HE].
    + unfold on_end.
      replace m with (with_fs (m_fs m) m) at 2 by (destruct m; reflexivity).
      eapply consumed_Errors; [exact Ei | rewrite Es; reflexivity | exact HE].
    + destruct HE as [Hstream Hunc]. split; [exact Hstream|].
      intros e' [= <-].
      destruct (Hstream _ _ e Ei) as (l' & Hl' & ->); [rewrite Es; left; reflexivity|].
      exists i, l'. split; [exact Hl'|]. split; [|reflexivity].
      destruct T5 as [_ Hstr]. destruct src as [c|]; [|exact Hsrc].
      destruct Hstr as (cs & Hcs & _). destruct cs; discriminate Hcs.
  - unfold on_renamed.
    destruct (Fs.rename _ _ _ _) as [fs'|e].
    + rewrite await_stat_size. apply join_Errors.
      apply status_Errors; [exact Ei | exact HE].
    + replace m with (with_heap (m_heap m) (with_fs (m_fs m) m)) at 2
        by (destruct m; reflexivity).
      apply status_Errors; [exact Ei | exact HE].
Qed.

Lemma run_events_Errors (schedule : list nat) (m : Machine) :
  Core name dest manifest layers srcs m ->
  Errors sourceDir layers srcs m ->
  Errors sourceDir layers srcs (run_events schedule m).
Proof.
  intros HC HE. induction schedule as [|j schedule IH] using rev_ind; [exact HE|].
  rewrite run_events_snoc. apply step_Errors; [|exact IH].
  apply run_events_Core. exact HC.
Qed.

End ReadErrors.

Section LaunchErrors.

Variables (hwm : nat) (random1 random2 : string) (name : string)
          (manifest : list (string * JsVal)) (fs1 : gmap string (list byte)).

Let sourceDir : string := mkdtemp "image2dat_src_" random1.
Let dest : string := mkdtemp "image2dat_dest_" random2.

Lemma copyOtherLayers_Errors (layers : list string) :
  Errors sourceDir layers (srcs_of random1 fs1 layers)
    (copyOtherLayers hwm sourceDir layers (m0 random2 name manifest fs1)).
Proof.
  unfold copyOtherLayers.
  induction layers as [|l layers IH] using rev_ind.
  - split; [intros i t e Hi; discriminate | intros e He; discriminate].
  - rewrite foldl_snoc.
    destruct (copyOtherLayers_Core hwm random1 random2 name manifest fs1 layers)
      as [HCore _].
    unfold copyOtherLayers in HCore. fold sourceDir in HCore.
    set (m := foldl (launch hwm sourceDir) (m0 random2 name manifest fs1) layers) in *.
    destruct HCore as (_ & _ & _ & _ & _ & Ht & _).
    destruct IH as [Hstream Hunc]. split.
    + intros i t e Hi He. unfold launch, compressLayer in Hi. cbn in Hi.
      apply lookup_snoc_Some in Hi as [[Hlt Hi]|[-> <-]].
      * destruct (Hstream _ _ _ Hi He) as (li & Hli & ->).
        exists li. split; [|reflexivity]. apply lookup_app_l_Some. exact Hli.
      * exists l. split.
        { rewrite lookup_app_r by lia. rewrite Ht, Nat.sub_diag. reflexivity. }
        cbn in He. unfold createReadStream in He.
        destruct (m_fs m !! (sourceDir +:+ "/" +:+ l)) as [c|].
        -- apply in_app_or in He as [He|[He|[]]]; [|discriminate He].
           apply in_map_iff in He as (x & Hx & _). discriminate Hx.
        -- destruct He as [[= <-]|[]]. reflexivity.
    + intros e He.
      destruct (launch_result hwm random1 m l) as [_ Hu].
      fold sourceDir in Hu. rewrite Hu in He.
      destruct (Hunc e He) as (i & li & Hli & Hsi & ->).
      exists i, li. split; [apply lookup_app_l_Some; exact Hli|].
      split; [|reflexivity].
      unfold srcs_of in *. rewrite fmap_app. apply lookup_app_l_Some. exact Hsi.
Qed.

End LaunchErrors.

(** C8 (amended).  When a layer of the source manifest does not exist on
    disk, in a run that got as far as its layers (the image reference has
    no separator, the config file exists and the digest taken from its
    name has no separator): the task of that layer never settles (it keeps
    waiting for its stream, [compressLayer] having no error handler), so
    the promise of [run] stays pending, neither fulfilled nor rejected,
    and the manifest file is not written; once the error of that stream
    is emitted the process has ended on an uncaught exception, and the
    exception a process ends on is the [ENOENT] of the opening of a layer
    of the manifest whose file was missing (or was the config file, moved
    away by then). *)
Theorem unreadable_layer_never_settles (hwm : nat) (random1 random2 image : string)
    (sm : SourceManifest) (fs : gmap string (list byte)) (schedule : list nat)
    (i : nat) (l : string) :
  ~ JsString.contains image "/" ->
  ~ JsString.contains (rootLayerSha (Config sm)) "/" ->
  is_Some (fs !! (mkdtemp "image2dat_src_" random1 +:+ "/" +:+ Config sm)) ->
  Layers sm !! i = Some l ->
  fs !! (mkdtemp "image2dat_src_" random1 +:+ "/" +:+ l) = None ->
  let m := run_events schedule (run hwm random1 random2 image sm fs) in
  m_result m = Pending
  /\ (exists t, m_tasks m !! i = Some t /\ t_status t = Streaming)
  /\ m_fs m !! manifest_file (mkdtemp "image2dat_dest_" random2) image
     = fs !! manifest_file (mkdtemp "image2dat_dest_" random2) image
  /\ (i ∈ schedule -> is_Some (m_uncaught m))
  /\ (forall e, m_uncaught m = Some e ->
        exists (j : nat) (l' : string),
          Layers sm !! j = Some l'
          /\ (l' = Config sm
              \/ fs !! (mkdtemp "image2dat_src_" random1 +:+ "/" +:+ l') = None)
          /\ e = SystemError "ENOENT" "open"
                   (mkdtemp "image2dat_src_" random1 +:+ "/" +:+ l')).
Proof.
  intros Hsep Hdigest Hconfig Hl Hmissing m.
  destruct (started_from_inputs random1 random2 image sm fs Hsep Hdigest Hconfig)
    as (manifest & fs1 & H1 & H2).
  destruct (started_inv hwm random1 random2 image sm fs image manifest fs1 schedule H1 H2)
    as (HC & HR & _). fold m in HC, HR.
  assert (Hsrc : srcs_of random1 fs1 (Layers sm) !! i = Some None).
  { unfold srcs_of. rewrite list_lookup_fmap, Hl. cbn. f_equal.
    apply (proj2 (proj2 (copyRootLayer_fs random1 random2 sm fs _ _ _ H2))). exact Hmissing. }
  assert (Hlt : i < List.length (m_tasks m)).
  { destruct HC as (_ & _ & _ & _ & _ & Ht & _). rewrite Ht.
    eapply lookup_lt_Some. exact Hl. }
  apply lookup_lt_is_Some in Hlt as [t Hi].
  destruct (unreadable_streaming _ _ _ _ _ _ _ _ HC Hsrc Hi) as [Hst _].
  assert (Hpending : m_result m = Pending).
  { unfold Res in HR. destruct (m_result m) as [|p|e]; [reflexivity| |destruct HR].
    destruct HR as (_ & Hall & _). rewrite forallb_forall in Hall.
    assert (Hr : is_resolved t = true).
    { apply Hall, list_elem_of_In, list_elem_of_lookup. eauto. }
    unfold is_resolved in Hr. rewrite Hst in Hr. discriminate. }
  assert (HC0 : Core image (mkdtemp "image2dat_dest_" random2) manifest (Layers sm)
                  (srcs_of random1 fs1 (Layers sm))
                  (join (copyOtherLayers hwm (mkdtemp "image2dat_src_" random1) (Layers sm)
                           (m0 random2 image manifest fs1)))).
  { apply join_Core.
    apply (copyOtherLayers_Core hwm random1 random2 image manifest fs1 (Layers sm)). }
  split; [exact Hpending|]. split; [eauto|]. split; [|split].
  - unfold Res in HR. rewrite Hpending in HR. exact HR.
  - intros Hin. subst m. rewrite (run_started hwm random1 random2 image sm fs _ _ _ H1 H2).
    apply (unreadable_uncaught image (mkdtemp "image2dat_dest_" random2) manifest
             (Layers sm) (srcs_of random1 fs1 (Layers sm)) schedule _ i);
      [exact HC0 | exact Hsrc | exact Hin].
  - intros e He. subst m.
    rewrite (run_started hwm random1 random2 image sm fs _ _ _ H1 H2) in He.
    pose proof (run_events_Errors image (mkdtemp "image2dat_dest_" random2) manifest
                  (mkdtemp "image2dat_src_" random1) (Layers sm)
                  (srcs_of random1 fs1 (Layers sm)) schedule _ HC0
                  (join_Errors _ _ _ _
                     (copyOtherLayers_Errors hwm random1 random2 image manifest fs1
                        (Layers sm)))) as [_ Hunc].
    destruct (Hunc e He) as (j & l' & Hl' & Hsj & ->).
    exists j, l'. split; [exact Hl'|]. split; [|reflexivity].
    assert (Hgone : fs1 !! (mkdtemp "image2dat_src_" random1 +:+ "/" +:+ l') = None).
    { unfold srcs_of in Hsj. rewrite list_lookup_fmap, Hl' in Hsj.
      injection Hsj as Hsj. exact Hsj. }
    clear Hsj. rename Hgone into Hsj.
    destruct (decide (l' = Config sm)) as [E|Hne]; [left; exact E|right].
    destruct (fs !! (mkdtemp "image2dat_src_" random1 +:+ "/" +:+ l')) as [c|] eqn:Ec;
      [|reflexivity].
    rewrite (copyRootLayer_keeps_layer random1 random2 image sm fs _ _ l' H2 Hne), Ec in Hsj.
    discriminate.
Qed.

Lemma unreadable_layer_never_settles_witness :
  (~ JsString.contains "app" "/"
   /\ ~ JsString.contains (rootLayerSha (Config missing_layer_manifest)) "/"
   /\ is_Some (example_fs !! (mkdtemp "image2dat_src_" "A" +:+ "/"
                               +:+ Config missing_layer_manifest))
   /\ Layers missing_layer_manifest !! 1 = Some "l9/layer.tar"
   /\ example_fs !! (mkdtemp "image2dat_src_" "A" +:+ "/" +:+ "l9/layer.tar") = None
   /\ 1 ∈ [0; 1; 0])
  /\ m_result missing_layer_run = Pending
  /\ (exists t, m_tasks missing_layer_run !! 1 = Some t /\ t_status t = Streaming)
  /\ m_fs missing_layer_run !! manifest_file (mkdtemp "image2dat_dest_" "B") "app"
     = example_fs !! manifest_file (mkdtemp "image2dat_dest_" "B") "app"
  /\ m_uncaught missing_layer_run
     = Some (SystemError "ENOENT" "open" "image2dat_src_A/l9/layer.tar").
Proof.
  assert (Hsep : ~ JsString.contains "app" "/") by (vm_compute; intuition discriminate).
  assert (Hdigest : ~ JsString.contains (rootLayerSha (Config missing_layer_manifest)) "/")
    by (vm_compute; intuition discriminate).
  assert (Hconfig : is_Some (example_fs !! (mkdtemp "image2dat_src_" "A" +:+ "/"
                                            +:+ Config missing_layer_manifest)))
    by (vm_compute; eexists; reflexivity).
  assert (Hin : 1 ∈ [0; 1; 0]) by (apply (bool_decide_unpack _); vm_compute; reflexivity).
  assert (Hl : Layers missing_layer_manifest !! 1 = Some "l9/layer.tar") by reflexivity.
  assert (Hmissing : example_fs !! (mkdtemp "image2dat_src_" "A" +:+ "/" +:+ "l9/layer.tar")
                     = None) by (vm_compute; reflexivity).
  split; [repeat split; assumption|].
  destruct (unreadable_layer_never_settles 7 "A" "B" "app" missing_layer_manifest example_fs
              [0; 1; 0] 1 "l9/layer.tar" Hsep Hdigest Hconfig Hl Hmissing)
    as (Hp & Ht & Hf & Hu & He).
  split; [exact Hp|]. split; [exact Ht|]. split; [exact Hf|].
  destruct (Hu Hin) as [e Hsome].
  destruct (He e Hsome) as (j & l' & Hl' & _ & ->).
  destruct j as [|[|j]]; [| |destruct j; discriminate Hl'].
  - exfalso. injection Hl' as <-. vm_compute in Hsome. discriminate Hsome.
  - injection Hl' as <-. exact Hsome.
Defined.

(** C8 as stated fails: with a layer file missing, the layer task and the
    run are not rejected with the read error; [run] stays pending and the
    error ends the process as an uncaught exception. *)
Lemma unreadable_layer_counterexample :
  example_fs !! "image2dat_src_A/l9/layer.tar" = None
  /\ m_result missing_layer_run = Pending
  /\ (forall e, m_result missing_layer_run <> Rejected e)
  /\ t_status <$> m_tasks missing_layer_run = [Streaming; Streaming]
  /\ m_uncaught missing_layer_run = Some (SystemError "ENOENT" "open" "image2dat_src_A/l9/layer.tar").
Proof.
  split; [vm_compute; reflexivity|]. split; [vm_compute; reflexivity|].
  split; [intros e; vm_compute; discriminate|].
  split; vm_compute; reflexivity.
Qed.

(** C4 (the code departs from it).  [await fsPromises.stat(file).size]
    reads [size] on the promise that [stat] returns, which has no such
    property: the [Size] of the config descriptor and of every layer
    descriptor is [undefined], whatever the size of the blob, here 2 and 3
    bytes. *)
Theorem descriptor_size_undefined :
  (forall (file : string) (fs : gmap string (list byte)),
      Js.await (Js.get_prop (Fs.stat file fs) "size") = Normal VUndef)
  /\ (forall c : list byte, Js.get_prop (VObj (descriptor c)) "Size" = VUndef)
  /\ match copyRootLayer example_manifest "app" "image2dat_src_A" "image2dat_dest_B"
             example_fs with
     | Normal (manifest, fs') =>
         Js.get_prop (Js.get_prop (VObj manifest) "Config") "Size" = VUndef
         /\ Js.await (Fs.stat "image2dat_dest_B/work/app/blobs/sha256:abcd" fs')
            = Normal (VObj [("size", VNum 2)])
     | Throw _ => False
     end
  /\ (layer_descriptors first_layer_alone !! 0
      = Some (VObj [("MediaType", VStr LayerType); ("Size", VUndef);
                    ("Digest",
                     VStr ("sha256:" +:+
                           "ba7816bf8f01cfea414140de5dae2223b00361a396177a9cb410ff61f20015ad"))])
      /\ Js.await
           (Fs.stat
              ("image2dat_dest_B/work/app/blobs/sha256:" +:+
               "ba7816bf8f01cfea414140de5dae2223b00361a396177a9cb410ff61f20015ad") (m_fs first_layer_alone))
         = Normal (VObj [("size", VNum 3)])).
Proof.
  split; [intros; reflexivity|]. split; [intros; reflexivity|]. split.
  - vm_compute. split; reflexivity.
  - split; vm_compute; reflexivity.
Qed.

(** * Further properties of the program *)

(** ** A run that stops before its layers *)

(** X1.  An image reference with a separator (a registry host or a
    namespace) makes [run] reject with the [ReferenceError] of
    [simplifyName] before anything is moved or written: in every later state
    the promise is rejected with that error, the file system is as it was,
    no layer was started and the manifest file was not written. *)
Theorem separator_rejects_run (hwm : nat) (random1 random2 image : string)
    (sm : SourceManifest) (fs : gmap string (list byte)) (schedule : list nat) :
  JsString.contains image "/" ->
  m_result (run_events schedule (run hwm random1 random2 image sm fs))
  = Rejected (ReferenceError "content")
  /\ m_fs (run_events schedule (run hwm random1 random2 image sm fs)) = fs
  /\ m_tasks (run_events schedule (run hwm random1 random2 image sm fs)) = []
  /\ m_uncaught (run_events schedule (run hwm random1 random2 image sm fs)) = None.
Proof.
  intros Hsep.
  assert (H : simplifyName image = Throw (ReferenceError "content")).
  { rewrite simplifyName_spec.
    destruct (JsString.lastIndexOf image "/" <? 0)%Z eqn:E; [|reflexivity].
    apply lastIndexOf_char_neg in E. contradiction. }
  destruct (rejected_stays hwm random1 random2 image sm fs _ schedule (or_introl H))
    as (nm & ->).
  repeat split; reflexivity.
Qed.

Lemma separator_rejects_run_witness :
  JsString.contains "registry.example.com:5000/team/app" "/"
  /\ m_result (run_events [0; 1] (run 1 "A" "B" "registry.example.com:5000/team/app"
                                   example_manifest example_fs))
     = Rejected (ReferenceError "content")
  /\ m_fs (run_events [0; 1] (run 1 "A" "B" "registry.example.com:5000/team/app"
                                example_manifest example_fs)) = example_fs.
Proof.
  assert (Hsep : JsString.contains "registry.example.com:5000/team/app" "/")
    by (vm_compute; tauto).
  split; [exact Hsep|].
  destruct (separator_rejects_run 1 "A" "B" "registry.example.com:5000/team/app"
              example_manifest example_fs [0; 1] Hsep) as (H1 & H2 & _).
  split; [exact H1 | exact H2].
Defined.

(** X2.  When the config file named by the source manifest is not in the
    source directory, [copyRootLayer] fails on its rename and [run] rejects
    with that [ENOENT]: no file is moved or written and no layer is
    started, in that state and in every later one. *)
Theorem missing_config_rejects_run (hwm : nat) (random1 random2 image : string)
    (sm : SourceManifest) (fs : gmap string (list byte)) (schedule : list nat) :
  ~ JsString.contains image "/" ->
  fs !! (mkdtemp "image2dat_src_" random1 +:+ "/" +:+ Config sm) = None ->
  m_result (run_events schedule (run hwm random1 random2 image sm fs))
  = Rejected (SystemError "ENOENT" "rename"
                (mkdtemp "image2dat_src_" random1 +:+ "/" +:+ Config sm))
  /\ m_fs (run_events schedule (run hwm random1 random2 image sm fs)) = fs
  /\ m_tasks (run_events schedule (run hwm random1 random2 image sm fs)) = []
  /\ m_uncaught (run_events schedule (run hwm random1 random2 image sm fs)) = None.
Proof.
  intros Hsep Hmissing.
  assert (H1 : simplifyName image = Normal image).
  { rewrite simplifyName_spec.
    rewrite (proj2 (lastIndexOf_char_neg image "/") Hsep). reflexivity. }
  assert (H2 : copyRootLayer sm image (mkdtemp "image2dat_src_" random1)
                 (mkdtemp "image2dat_dest_" random2) fs
               = Throw (SystemError "ENOENT" "rename"
                          (mkdtemp "image2dat_src_" random1 +:+ "/" +:+ Config sm))).
  { unfold copyRootLayer, Fs.rename. rewrite Hmissing. reflexivity. }
  destruct (rejected_stays hwm random1 random2 image sm fs _ schedule
              (or_intror (ex_intro _ image (conj H1 H2)))) as (nm & ->).
  repeat split; reflexivity.
Qed.

Lemma missing_config_rejects_run_witness :
  (~ JsString.contains "app" "/"
   /\ example_fs !! (mkdtemp "image2dat_src_" "A" +:+ "/" +:+ Config missing_config_manifest)
      = None)
  /\ m_result (run_events [0; 0] (run 1 "A" "B" "app" missing_config_manifest example_fs))
     = Rejected (SystemError "ENOENT" "rename" "image2dat_src_A/zzzz.json")
  /\ m_fs (run_events [0; 0] (run 1 "A" "B" "app" missing_config_manifest example_fs))
     = example_fs.
Proof.
  assert (Hsep : ~ JsString.contains "app" "/") by (vm_compute; intuition discriminate).
  assert (Hmissing : example_fs !! (mkdtemp "image2dat_src_" "A" +:+ "/"
                                    +:+ Config missing_config_manifest) = None)
    by (vm_compute; reflexivity).
  split; [split; assumption|].
  destruct (missing_config_rejects_run 1 "A" "B" "app" missing_config_manifest example_fs
              [0; 0] Hsep Hmissing) as (H1 & H2 & _).
  split; [exact H1 | exact H2].
Defined.

(** ** [copyRootLayer] moves the config file *)

(** X3.  [copyRootLayer] moves the config file, it does not copy it: when
    it succeeds (and the source path is not itself the blob path), the
    source path is gone, the blob path holds the bytes that the source path
    held, whatever was at the blob path before, and every other path is
    as it was. *)
Theorem copyRootLayer_moves_config (sm : SourceManifest)
    (imageName sourceDir destDir : string) (fs fs' : gmap string (list byte))
    (manifest : list (string * JsVal)) :
  copyRootLayer sm imageName sourceDir destDir fs = Normal (manifest, fs') ->
  sourceDir +:+ "/" +:+ Config sm
    <> blob_file destDir imageName (rootLayerSha (Config sm)) ->
  fs' !! (sourceDir +:+ "/" +:+ Config sm) = None
  /\ fs' !! blob_file destDir imageName (rootLayerSha (Config sm))
     = fs !! (sourceDir +:+ "/" +:+ Config sm)
  /\ forall p : string,
       p <> sourceDir +:+ "/" +:+ Config sm ->
       p <> blob_file destDir imageName (rootLayerSha (Config sm)) ->
       fs' !! p = fs !! p.
Proof.
  intros H Hne. apply copyRootLayer_ok in H as (c & Hc & -> & _).
  split; [|split].
  - rewrite lookup_insert_ne by congruence. apply lookup_delete_eq.
  - rewrite lookup_insert_eq. symmetry. exact Hc.
  - intros p Hp1 Hp2. rewrite lookup_insert_ne by congruence.
    apply lookup_delete_ne. congruence.
Qed.

Lemma copyRootLayer_moves_config_witness :
  exists (manifest : list (string * JsVal)) (fs' : gmap string (list byte)),
    copyRootLayer example_manifest "app" (mkdtemp "image2dat_src_" "A")
      (mkdtemp "image2dat_dest_" "B") example_fs = Normal (manifest, fs')
    /\ mkdtemp "image2dat_src_" "A" +:+ "/" +:+ Config example_manifest
       <> blob_file (mkdtemp "image2dat_dest_" "B") "app"
            (rootLayerSha (Config example_manifest))
    /\ fs' !! (mkdtemp "image2dat_src_" "A" +:+ "/" +:+ Config example_manifest) = None
    /\ fs' !! blob_file (mkdtemp "image2dat_dest_" "B") "app"
               (rootLayerSha (Config example_manifest))
       = Some (list_byte_of_string "{}")
    /\ fs' !! "image2dat_src_A/l1/layer.tar" = Some (list_byte_of_string "abc").
Proof.
  assert (Hsep : ~ JsString.contains "app" "/") by (vm_compute; intuition discriminate).
  assert (Hconfig : is_Some (example_fs !! (mkdtemp "image2dat_src_" "A" +:+ "/"
                                            +:+ Config example_manifest)))
    by (vm_compute; eexists; reflexivity).
  destruct (started_from_inputs "A" "B" "app" example_manifest example_fs Hsep
              ltac:(vm_compute; intuition discriminate) Hconfig)
    as (manifest & fs1 & _ & E).
  assert (Hne : mkdtemp "image2dat_src_" "A" +:+ "/" +:+ Config example_manifest
                <> blob_file (mkdtemp "image2dat_dest_" "B") "app"
                     (rootLayerSha (Config example_manifest)))
    by (vm_compute; discriminate).
  destruct (copyRootLayer_moves_config example_manifest "app" (mkdtemp "image2dat_src_" "A")
              (mkdtemp "image2dat_dest_" "B") example_fs fs1 manifest E Hne)
    as (H1 & H2 & H3).
  exists manifest, fs1. split; [exact E|]. split; [exact Hne|]. split; [exact H1|]. split.
  - rewrite H2. vm_compute. reflexivity.
  - rewrite H3 by (vm_compute; discriminate). vm_compute. reflexivity.
Defined.

(** ** The temporary file of a layer *)

Lemma first_occurrence_unique (c : ascii) (a a' b b' : string) :
  a +:+ String c b = a' +:+ String c b' ->
  ~ In c (JsString.chars a) -> ~ In c (JsString.chars a') -> a = a'.
Proof.
  revert a'. induction a as [|d a IH]; intros [|d' a'] H Ha Ha'.
  - reflexivity.
  - cbn in H. injection H as <- _. exfalso. apply Ha'. cbn. auto.
  - cbn in H. injection H as -> _. exfalso. apply Ha. cbn. auto.
  - cbn in H. injection H as -> H. f_equal. apply IH; [exact H | |].
    + intros Hin. apply Ha. cbn. auto.
    + intros Hin. apply Ha'. cbn. auto.
Qed.

(** The index of the first separator of a path is the length of its first
    segment. *)
Lemma indexOf_first (c : ascii) (seg rest : string) :
  ~ In c (JsString.chars seg) ->
  JsString.indexOf (seg +:+ String c rest) (String c "") = JsString.length seg.
Proof.
  intros Hseg. unfold JsString.indexOf.
  pose proof (indexOf_from_char c (seg +:+ String c rest) 0) as H.
  destruct (JsString.indexOf_from (String c "") (seg +:+ String c rest) 0) as [k|].
  - destruct H as (a & b & E & Ha & ->).
    apply first_occurrence_unique in E; [|assumption..]. subst a.
    unfold JsString.length. reflexivity.
  - exfalso. apply H. rewrite chars_app. apply in_or_app. right. cbn. auto.
Qed.

Lemma indexOf_absent (c : ascii) (s : string) :
  ~ In c (JsString.chars s) -> JsString.indexOf s (String c "") = (-1)%Z.
Proof.
  intros Hs. unfold JsString.indexOf.
  pose proof (indexOf_from_char c s 0) as H.
  destruct (JsString.indexOf_from (String c "") s 0) as [k|]; [|reflexivity].
  destruct H as (a & b & -> & _). exfalso. apply Hs.
  rewrite chars_app. apply in_or_app. right. cbn. auto.
Qed.

(** X4.  The temporary file of a layer is named after the part of the
    layer path before its first separator: [<destDir>/<segment>.tmp]; a
    layer path without separator gives the empty segment, hence
    [<destDir>/.tmp] whatever the path.  So two layers with the same first
    segment, and any two layers without separator, are given the same
    temporary file. *)
Theorem temp_file_of_first_segment :
  (forall seg rest destDir : string,
      ~ JsString.contains seg "/" ->
      destTempFile_of (seg +:+ "/" +:+ rest) destDir = destDir +:+ "/" +:+ seg +:+ ".tmp")
  /\ (forall layerFile destDir : string,
        ~ JsString.contains layerFile "/" ->
        destTempFile_of layerFile destDir = destDir +:+ "/.tmp").
Proof.
  split.
  - intros seg rest destDir Hseg. unfold destTempFile_of.
    change ("/" +:+ rest) with (String "/" rest).
    rewrite (indexOf_first "/" seg rest Hseg).
    unfold JsString.substring, JsString.clamp.
    rewrite js_length_app.
    pose proof (length_nonneg seg). pose proof (length_nonneg (String "/" rest)).
    replace (Z.max 0 (Z.min 0 _)) with 0%Z by lia.
    replace (Z.max 0 (Z.min (JsString.length seg) _)) with (JsString.length seg) by lia.
    rewrite Z.min_l, Z.max_r by lia.
    rewrite slice_0_app. reflexivity.
  - intros layerFile destDir Hl. unfold destTempFile_of.
    rewrite (indexOf_absent "/" layerFile Hl).
    unfold JsString.substring, JsString.clamp.
    pose proof (length_nonneg layerFile).
    replace (Z.max 0 (Z.min 0 _)) with 0%Z by lia.
    replace (Z.max 0 (Z.min (-1) _)) with 0%Z by lia.
    reflexivity.
Qed.

Lemma temp_file_of_first_segment_witness :
  (~ JsString.contains "blobs" "/"
   /\ destTempFile_of ("blobs" +:+ "/" +:+ "sha256/0a1b") "image2dat_dest_B"
      = "image2dat_dest_B/blobs.tmp"
   /\ destTempFile_of ("blobs" +:+ "/" +:+ "sha256/2c3d") "image2dat_dest_B"
      = "image2dat_dest_B/blobs.tmp")
  /\ (~ JsString.contains "layer.tar" "/"
      /\ destTempFile_of "layer.tar" "image2dat_dest_B" = "image2dat_dest_B/.tmp").
Proof.
  assert (H1 : ~ JsString.contains "blobs" "/") by (vm_compute; intuition discriminate).
  assert (H2 : ~ JsString.contains "layer.tar" "/") by (vm_compute; intuition discriminate).
  split; [split; [exact H1|split]|split; [exact H2|]].
  - exact (proj1 temp_file_of_first_segment "blobs" "sha256/0a1b" "image2dat_dest_B" H1).
  - exact (proj1 temp_file_of_first_segment "blobs" "sha256/2c3d" "image2dat_dest_B" H1).
  - exact (proj2 temp_file_of_first_segment "layer.tar" "image2dat_dest_B" H2).
Defined.

(** ** What the layers leave untouched *)

Lemma simplifyName_Normal (image name : string) :
  simplifyName image = Normal name -> name = image /\ ~ JsString.contains image "/".
Proof.
  rewrite simplifyName_spec.
  destruct (JsString.lastIndexOf image "/" <? 0)%Z eqn:E; [|discriminate].
  intros [= <-]. split; [reflexivity|]. apply lastIndexOf_char_neg. exact E.
Qed.

Lemma join_fs_other (m : Machine) (p : string) :
  p <> manifest_file (m_destTempDir m) (m_name m) ->
  m_fs (join m) !! p = m_fs m !! p.
Proof.
  intros Hp. unfold join. destruct (m_result m); try reflexivity.
  destruct (forallb is_resolved (m_tasks m)); [|reflexivity].
  destruct (writeManifest_fs m) as (text & _ & ->). cbn.
  unfold Fs.writeFile. apply lookup_insert_ne. congruence.
Qed.

(** The tasks that [copyOtherLayers] creates wait for their streams. *)
Lemma copyOtherLayers_streaming (hwm : nat) (sourceDir : string) (layers : list string)
    (m : Machine) :
  (forall i t, m_tasks m !! i = Some t -> t_status t = Streaming) ->
  forall i t, m_tasks (copyOtherLayers hwm sourceDir layers m) !! i = Some t ->
              t_status t = Streaming.
Proof.
  unfold copyOtherLayers. induction layers as [|l layers IH] using rev_ind; intros H.
  - exact H.
  - rewrite foldl_snoc. unfold launch at 1, compressLayer. cbn. intros i t Hi.
    apply lookup_snoc_Some in Hi as [[_ Hi]|[_ <-]]; [|reflexivity].
    eapply IH; eauto.
Qed.

Section Frame.

Variables (name dest : string) (manifest : list (string * JsVal)).

(** An event changes no file but those of the pipeline. *)
Lemma step_fs_other layers srcs (m : Machine) (i : nat) (p : string) :
  Core name dest manifest layers srcs m ->
  ~ pipeline_file dest name p ->
  m_fs (step m i) !! p = m_fs m !! p.
Proof.
  intros (Hn & Hd & Hm & HL & Hh & Ht & Hs & Hinv) Hp.
  assert (Htemp : forall l, destTempFile_of l dest <> p).
  { intros l E. apply Hp. left. exists l. symmetry. exact E. }
  assert (Hblob : forall sha, blob_file dest name sha <> p).
  { intros sha E. apply Hp. right. left. exists sha. symmetry. exact E. }
  assert (Hman : p <> manifest_file dest name).
  { intros E. apply Hp. right. right. exact E. }
  unfold step. destruct (m_uncaught m); [reflexivity|].
  destruct (m_tasks m !! i) as [t|] eqn:Ei; [|reflexivity].
  destruct (Hinv _ _ Ei) as (l & src & Hl & Hsrc & (T1 & T2 & T3 & T4 & T5)).
  destruct (t_status t) eqn:Est; try reflexivity.
  - destruct (t_sourceStream t) as [|[chunk| |e] rest]; try reflexivity.
    unfold on_data. cbn. unfold Fs.write. apply lookup_alter_ne. rewrite T4. apply Htemp.
  - rewrite on_renamed_eq by (rewrite (proj2 (proj2 T5)); apply hex_no_separator).
    rewrite T2, T3, T4.
    destruct (m_fs m !! destTempFile_of l dest) as [c|]; [|reflexivity].
    rewrite join_fs_other by (unfold resolved_machine; cbn; rewrite Hd, Hn; exact Hman).
    unfold resolved_machine. cbn.
    rewrite lookup_insert_ne by apply Hblob. apply lookup_delete_ne. apply Htemp.
Qed.

Lemma run_events_fs_other layers srcs (schedule : list nat) (m : Machine) (p : string) :
  Core name dest manifest layers srcs m ->
  ~ pipeline_file dest name p ->
  m_fs (run_events schedule m) !! p = m_fs m !! p.
Proof.
  intros HC Hp. induction schedule as [|i schedule IH] using rev_ind; [reflexivity|].
  rewrite run_events_snoc, <- IH.
  eapply step_fs_other; [|exact Hp]. apply run_events_Core. exact HC.
Qed.

(** The temporary file of a resolved layer stays away. *)
Lemma step_temp_gone layers srcs (m : Machine) (i : nat) :
  Core name dest manifest layers srcs m ->
  (forall j t, m_tasks m !! j = Some t -> t_status t = Resolved ->
               m_fs m !! t_destTempFile t = None) ->
  forall j t, m_tasks (step m i) !! j = Some t -> t_status t = Resolved ->
              m_fs (step m i) !! t_destTempFile t = None.
Proof.
  intros (Hn & Hd & Hm & HL & Hh & Ht & Hs & Hinv) Hgone.
  unfold step. destruct (m_uncaught m); [exact Hgone|].
  destruct (m_tasks m !! i) as [t|] eqn:Ei; [|exact Hgone].
  destruct (Hinv _ _ Ei) as (l & src & Hl & Hsrc & (T1 & T2 & T3 & T4 & T5)).
  assert (Hlt : i < List.length (m_tasks m)) by (eapply lookup_lt_Some; exact Ei).
  destruct (t_status t) eqn:Est; try exact Hgone.
  - destruct (t_sourceStream t) as [|[chunk| |e] rest]; try exact Hgone.
    + unfold on_data. cbn. intros j tj Hj Hst.
      destruct (decide (j = i)) as [->|Hne].
      * rewrite list_lookup_insert_eq in Hj by exact Hlt. injection Hj as <-.
        cbn in Hst. congruence.
      * rewrite list_lookup_insert_ne in Hj by congruence.
        unfold Fs.write. apply lookup_alter_None. exact (Hgone _ _ Hj Hst).
    + unfold on_end. cbn. intros j tj Hj Hst.
      destruct (decide (j = i)) as [->|Hne].
      * rewrite list_lookup_insert_eq in Hj by exact Hlt. injection Hj as <-.
        cbn in Hst. discriminate.
      * rewrite list_lookup_insert_ne in Hj by congruence. exact (Hgone _ _ Hj Hst).
  - rewrite on_renamed_eq by (rewrite (proj2 (proj2 T5)); apply hex_no_separator).
    rewrite T2, T3, T4.
    destruct (m_fs m !! destTempFile_of l dest) as [c|] eqn:Etemp.
    + intros j tj Hj Hst. rewrite join_tasks in Hj.
      unfold resolved_machine in Hj. cbn in Hj.
      assert (Htj : exists lj, t_destTempFile tj = destTempFile_of lj dest
                               /\ (j <> i -> m_fs m !! t_destTempFile tj = None)).
      { destruct (decide (j = i)) as [->|Hne].
        - rewrite list_lookup_insert_eq in Hj by exact Hlt. injection Hj as <-.
          exists l. split; [exact T4 | congruence].
        - rewrite list_lookup_insert_ne in Hj by congruence.
          destruct (Hinv _ _ Hj) as (lj & ? & _ & _ & (_ & _ & _ & Tj & _)).
          exists lj. split; [exact Tj|]. intros _. exact (Hgone _ _ Hj Hst). }
      destruct Htj as (lj & Tj & Hprev).
      rewrite join_fs_other
        by (unfold resolved_machine; cbn; rewrite Hd, Hn, Tj; apply temp_not_manifest).
      unfold resolved_machine. cbn.
      rewrite lookup_insert_ne
        by (rewrite Tj; intros E; symmetry in E; exact (temp_not_blob _ _ _ _ E)).
      apply lookup_delete_None.
      destruct (decide (j = i)) as [->|Hne].
      * left. rewrite list_lookup_insert_eq in Hj by exact Hlt. injection Hj as <-.
        cbn. symmetry. exact T4.
      * right. exact (Hprev Hne).
    + cbn. intros j tj Hj Hst.
      destruct (decide (j = i)) as [->|Hne].
      * rewrite list_lookup_insert_eq in Hj by exact Hlt. injection Hj as <-.
        cbn in Hst. discriminate.
      * rewrite list_lookup_insert_ne in Hj by congruence. exact (Hgone _ _ Hj Hst).
Qed.

Lemma run_events_temp_gone layers srcs (schedule : list nat) (m : Machine) :
  Core name dest manifest layers srcs m ->
  (forall j t, m_tasks m !! j = Some t -> t_status t = Resolved ->
               m_fs m !! t_destTempFile t = None) ->
  forall j t, m_tasks (run_events schedule m) !! j = Some t -> t_status t = Resolved ->
              m_fs (run_events schedule m) !! t_destTempFile t = None.
Proof.
  intros HC H0. induction schedule as [|i schedule IH] using rev_ind; [exact H0|].
  rewrite run_events_snoc. eapply step_temp_gone; [|exact IH].
  apply run_events_Core. exact HC.
Qed.

End Frame.

(** When every layer is resolved, the promise of [run] is no longer
    pending. *)
Lemma forallb_insert_false {A : Type} (f : A -> bool) (l : list A) (i : nat) (x : A) :
  i < List.length l -> f x = false -> forallb f (<[i := x]> l) = false.
Proof.
  intros Hlt Hx. destruct (forallb f (<[i := x]> l)) eqn:E; [|reflexivity].
  rewrite forallb_forall in E. rewrite <- Hx. symmetry. apply E.
  apply list_elem_of_In, list_elem_of_lookup. exists i.
  apply list_lookup_insert_eq. exact Hlt.
Qed.

Lemma join_joined (m : Machine) :
  forallb is_resolved (m_tasks (join m)) = true -> m_result (join m) <> Pending.
Proof.
  rewrite join_tasks. intros Hall. unfold join.
  destruct (m_result m) eqn:Hres; rewrite ?Hall; try (rewrite Hres; discriminate).
  destruct (writeManifest_fs m) as (text & _ & ->). cbn. discriminate.
Qed.

Lemma step_joined (m : Machine) (i : nat) :
  (forallb is_resolved (m_tasks m) = true -> m_result m <> Pending) ->
  forallb is_resolved (m_tasks (step m i)) = true -> m_result (step m i) <> Pending.
Proof.
  intros HJ. unfold step. destruct (m_uncaught m); [exact HJ|].
  destruct (m_tasks m !! i) as [t|] eqn:Ei; [|exact HJ].
  assert (Hlt : i < List.length (m_tasks m)) by (eapply lookup_lt_Some; exact Ei).
  destruct (t_status t) eqn:Est; try exact HJ.
  - destruct (t_sourceStream t) as [|[chunk| |e] rest]; try exact HJ.
    + unfold on_data. cbn. rewrite forallb_insert_false; [discriminate | exact Hlt |].
      unfold is_resolved. cbn. rewrite Est. reflexivity.
    + unfold on_end. cbn. rewrite forallb_insert_false; [discriminate | exact Hlt |].
      reflexivity.
  - destruct (in_dec ascii_dec "/"%char (JsString.chars sha)) as [Hin|Hno].
    { destruct (on_renamed_separator i t sha m Hin) as [e ->].
      cbn. rewrite forallb_insert_false; [discriminate | exact Hlt | reflexivity]. }
    rewrite on_renamed_eq by exact Hno.
    destruct (m_fs m !! t_destTempFile t) as [c|]; [apply join_joined|].
    cbn. rewrite forallb_insert_false; [discriminate | exact Hlt | reflexivity].
Qed.

Lemma run_events_joined (schedule : list nat) (m : Machine) :
  (forallb is_resolved (m_tasks m) = true -> m_result m <> Pending) ->
  forallb is_resolved (m_tasks (run_events schedule m)) = true ->
  m_result (run_events schedule m) <> Pending.
Proof.
  intros H0. induction schedule as [|i schedule IH] using rev_ind; [exact H0|].
  rewrite run_events_snoc. apply step_joined. exact IH.
Qed.

Section StartedMore.

Variables (hwm : nat) (random1 random2 image : string) (sm : SourceManifest)
          (fs : gmap string (list byte)).
Variables (manifest : list (string * JsVal)) (fs1 : gmap string (list byte)).

Let sourceDir : string := mkdtemp "image2dat_src_" random1.
Let dest : string := mkdtemp "image2dat_dest_" random2.

Hypothesis Hname : simplifyName image = Normal image.
Hypothesis Hroot : copyRootLayer sm image sourceDir dest fs = Normal (manifest, fs1).

Variable schedule : list nat.
Let m : Machine := run_events schedule (run hwm random1 random2 image sm fs).

Lemma started_Core :
  Core image dest manifest (Layers sm) (srcs_of random1 fs1 (Layers sm)) m.
Proof.
  exact (proj1 (started_inv hwm random1 random2 image sm fs image manifest fs1 schedule
                  Hname Hroot)).
Qed.

Lemma started_Res : Res image dest (fs !! manifest_file dest image) m.
Proof.
  exact (proj1 (proj2 (started_inv hwm random1 random2 image sm fs image manifest fs1
                         schedule Hname Hroot))).
Qed.

Lemma started_fs_other (p : string) :
  ~ pipeline_file dest image p -> p <> sourceDir +:+ "/" +:+ Config sm ->
  m_fs m !! p = fs !! p.
Proof.
  intros Hp Hcfg. subst m.
  rewrite (run_started hwm random1 random2 image sm fs _ _ _ Hname Hroot).
  destruct (copyOtherLayers_Core hwm random1 random2 image manifest fs1 (Layers sm))
    as [HC Honly].
  fold sourceDir dest in HC, Honly |- *.
  rewrite (run_events_fs_other image dest manifest _ _ schedule _ p
             (join_Core _ _ _ _ _ _ HC) Hp).
  destruct HC as (Hn & Hd & _).
  rewrite join_fs_other
    by (rewrite Hd, Hn; intros E; apply Hp; right; right; exact E).
  rewrite Honly by (intros l E; apply Hp; left; exists l; exact E).
  pose proof (copyRootLayer_ok _ _ _ _ _ _ _ Hroot) as (c0 & _ & -> & _).
  rewrite lookup_insert_ne
    by (intros E; apply Hp; right; left; eexists; symmetry; exact E).
  apply lookup_delete_ne. congruence.
Qed.

Lemma started_temp_gone (j : nat) (t : LayerTask) :
  m_tasks m !! j = Some t -> t_status t = Resolved ->
  m_fs m !! t_destTempFile t = None.
Proof.
  subst m.
  rewrite (run_started hwm random1 random2 image sm fs _ _ _ Hname Hroot).
  destruct (copyOtherLayers_Core hwm random1 random2 image manifest fs1 (Layers sm))
    as [HC _].
  fold sourceDir dest in HC |- *.
  apply (run_events_temp_gone image dest manifest _ _ schedule _
           (join_Core _ _ _ _ _ _ HC)).
  intros k tk Hk Hst. rewrite join_tasks in Hk.
  apply copyOtherLayers_streaming in Hk; [congruence|].
  intros i t' Hi. discriminate.
Qed.

Lemma started_joined :
  forallb is_resolved (m_tasks m) = true -> m_result m <> Pending.
Proof.
  subst m.
  rewrite (run_started hwm random1 random2 image sm fs _ _ _ Hname Hroot).
  apply run_events_joined, join_joined.
Qed.

End StartedMore.

(** X5.  While the promise of [run] is pending, that is while the layers
    are processed, no file is created, changed or removed other than the
    temporary files, the blob files and the manifest file of the
    destination, and the config file that was moved: every other path
    holds what it held when [run] started.  In particular every file of the
    source directory other than the config file is intact: the layers are
    read, never written, moved or removed. *)
Theorem layers_leave_other_files (hwm : nat) (random1 random2 image : string)
    (sm : SourceManifest) (fs : gmap string (list byte)) (schedule : list nat) :
  m_result (run_events schedule (run hwm random1 random2 image sm fs)) = Pending ->
  (forall p : string,
      ~ pipeline_file (mkdtemp "image2dat_dest_" random2) image p ->
      p <> mkdtemp "image2dat_src_" random1 +:+ "/" +:+ Config sm ->
      m_fs (run_events schedule (run hwm random1 random2 image sm fs)) !! p = fs !! p)
  /\ (forall l : string,
        l <> Config sm ->
        m_fs (run_events schedule (run hwm random1 random2 image sm fs))
          !! (mkdtemp "image2dat_src_" random1 +:+ "/" +:+ l)
        = fs !! (mkdtemp "image2dat_src_" random1 +:+ "/" +:+ l)).
Proof.
  intros Hres.
  assert (Hnr : forall e, m_result (run_events schedule (run hwm random1 random2 image sm fs))
                          <> Rejected e) by (intros e; rewrite Hres; discriminate).
  destruct (not_rejected_started hwm random1 random2 image sm fs schedule (or_introl Hnr))
    as (name & manifest & fs1 & H1 & H2).
  destruct (simplifyName_Normal _ _ H1) as [-> _].
  assert (Hall : forall p : string,
             ~ pipeline_file (mkdtemp "image2dat_dest_" random2) image p ->
             p <> mkdtemp "image2dat_src_" random1 +:+ "/" +:+ Config sm ->
             m_fs (run_events schedule (run hwm random1 random2 image sm fs)) !! p = fs !! p).
  { intros p Hp Hcfg.
    exact (started_fs_other hwm random1 random2 image sm fs manifest fs1 H1 H2 schedule
             p Hp Hcfg). }
  split; [exact Hall|].
  intros l Hl. apply Hall.
  - intros [(l' & E)|[(sha & E)|E]]; revert E.
    + unfold destTempFile_of. apply src_not_dest.
    + unfold blob_file. apply src_not_dest.
    + unfold manifest_file. apply src_not_dest.
  - intros E. apply Hl.
    apply (inj (String.app (mkdtemp "image2dat_src_" random1))) in E.
    apply (inj (String.app "/")) in E. exact E.
Qed.

Lemma layers_leave_other_files_witness :
  m_result (run_events [1; 1; 0; 0; 0] (run 1 "A" "B" "app" example_manifest example_fs))
  = Pending
  /\ "l1/layer.tar" <> Config example_manifest
  /\ m_fs (run_events [1; 1; 0; 0; 0] (run 1 "A" "B" "app" example_manifest example_fs))
       !! (mkdtemp "image2dat_src_" "A" +:+ "/" +:+ "l1/layer.tar")
     = Some (list_byte_of_string "abc").
Proof.
  assert (Hres : m_result (run_events [1; 1; 0; 0; 0]
                             (run 1 "A" "B" "app" example_manifest example_fs)) = Pending)
    by (vm_compute; reflexivity).
  assert (Hl : "l1/layer.tar" <> Config example_manifest) by (vm_compute; discriminate).
  split; [exact Hres|]. split; [exact Hl|].
  rewrite (proj2 (layers_leave_other_files 1 "A" "B" "app" example_manifest example_fs
                    [1; 1; 0; 0; 0] Hres) "l1/layer.tar" Hl).
  vm_compute. reflexivity.
Defined.



(** ** The manifest waits for the layers *)

(** X7.  In a run that got as far as its layers (the image reference and
    the digest taken from the name of the config file have no separator,
    and the config file exists), the promise of [run] is fulfilled, with
    [<destTempDir>/work], exactly in the states in which the promise of
    every layer is resolved ([Promise.all]); as long as one of them is not,
    [run] is pending and the manifest file is as it was before the run:
    [writeManifest] is not reached.  There is one layer task per layer of
    the source manifest. *)
Theorem manifest_waits_for_all_layers (hwm : nat) (random1 random2 image : string)
    (sm : SourceManifest) (fs : gmap string (list byte)) (schedule : list nat) :
  ~ JsString.contains image "/" ->
  ~ JsString.contains (rootLayerSha (Config sm)) "/" ->
  is_Some (fs !! (mkdtemp "image2dat_src_" random1 +:+ "/" +:+ Config sm)) ->
  (forallb is_resolved (m_tasks (run_events schedule (run hwm random1 random2 image sm fs)))
   = true
   <-> m_result (run_events schedule (run hwm random1 random2 image sm fs))
       = Fulfilled (mkdtemp "image2dat_dest_" random2 +:+ "/work"))
  /\ (forallb is_resolved (m_tasks (run_events schedule (run hwm random1 random2 image sm fs)))
      = false ->
      m_result (run_events schedule (run hwm random1 random2 image sm fs)) = Pending
      /\ m_fs (run_events schedule (run hwm random1 random2 image sm fs))
           !! manifest_file (mkdtemp "image2dat_dest_" random2) image
         = fs !! manifest_file (mkdtemp "image2dat_dest_" random2) image)
  /\ List.length (m_tasks (run_events schedule (run hwm random1 random2 image sm fs)))
     = List.length (Layers sm).
Proof.
  intros Hsep Hdigest Hconfig.
  destruct (started_from_inputs random1 random2 image sm fs Hsep Hdigest Hconfig)
    as (manifest & fs1 & H1 & H2).
  pose proof (started_Core hwm random1 random2 image sm fs manifest fs1 H1 H2 schedule) as HC.
  pose proof (started_Res hwm random1 random2 image sm fs manifest fs1 H1 H2 schedule) as HR.
  pose proof (started_joined hwm random1 random2 image sm fs manifest fs1 H1 H2 schedule)
    as HJ.
  unfold Res in HR.
  destruct (m_result (run_events schedule (run hwm random1 random2 image sm fs)))
    as [|p|e] eqn:Hres; [| |destruct HR].
  - split; [|split].
    + split; [intros Hall; destruct (HJ Hall); reflexivity | discriminate].
    + intros _. split; [reflexivity | exact HR].
    + apply HC.
  - destruct HR as (-> & Hall & _). split; [|split].
    + split; [reflexivity | intros _; exact Hall].
    + intros Hf. rewrite Hall in Hf. discriminate.
    + apply HC.
Qed.

Lemma manifest_waits_for_all_layers_witness :
  (~ JsString.contains "app" "/"
   /\ ~ JsString.contains (rootLayerSha (Config example_manifest)) "/"
   /\ is_Some (example_fs !! (mkdtemp "image2dat_src_" "A" +:+ "/"
                               +:+ Config example_manifest)))
  /\ forallb is_resolved
       (m_tasks (run_events [1; 1; 0; 0; 0] (run 1 "A" "B" "app" example_manifest example_fs)))
     = false
  /\ m_result (run_events [1; 1; 0; 0; 0] (run 1 "A" "B" "app" example_manifest example_fs))
     = Pending
  /\ m_fs (run_events [1; 1; 0; 0; 0] (run 1 "A" "B" "app" example_manifest example_fs))
       !! manifest_file (mkdtemp "image2dat_dest_" "B") "app"
     = example_fs !! manifest_file (mkdtemp "image2dat_dest_" "B") "app".
Proof.
  assert (Hsep : ~ JsString.contains "app" "/") by (vm_compute; intuition discriminate).
  assert (Hdigest : ~ JsString.contains (rootLayerSha (Config example_manifest)) "/")
    by (vm_compute; intuition discriminate).
  assert (Hconfig : is_Some (example_fs !! (mkdtemp "image2dat_src_" "A" +:+ "/"
                                            +:+ Config example_manifest)))
    by (vm_compute; eexists; reflexivity).
  assert (Hf : forallb is_resolved
                 (m_tasks (run_events [1; 1; 0; 0; 0]
                             (run 1 "A" "B" "app" example_manifest example_fs))) = false)
    by (vm_compute; reflexivity).
  split; [repeat split; assumption|]. split; [exact Hf|].
  exact (proj1 (proj2 (manifest_waits_for_all_layers 1 "A" "B" "app" example_manifest
                         example_fs [1; 1; 0; 0; 0] Hsep Hdigest Hconfig)) Hf).
Defined.

(** X8.  In a run that got as far as its layers (the image reference and
    the digest taken from the name of the config file have no separator,
    and the config file exists), the descriptors of all the layers are in
    [manifest.Layers], in the order of the source manifest, as soon as
    [copyOtherLayers] has returned and in every later state; the descriptor
    of a layer that is still streaming or being renamed holds its
    [MediaType] only. *)
Theorem descriptors_listed_before_resolution (hwm : nat) (random1 random2 image : string)
    (sm : SourceManifest) (fs : gmap string (list byte)) (schedule : list nat) :
  ~ JsString.contains image "/" ->
  ~ JsString.contains (rootLayerSha (Config sm)) "/" ->
  is_Some (fs !! (mkdtemp "image2dat_src_" random1 +:+ "/" +:+ Config sm)) ->
  List.length (layer_descriptors (run_events schedule (run hwm random1 random2 image sm fs)))
  = List.length (Layers sm)
  /\ forall (i : nat) (t : LayerTask),
       m_tasks (run_events schedule (run hwm random1 random2 image sm fs)) !! i = Some t ->
       t_status t = Streaming \/ (exists sha, t_status t = Renaming sha) ->
       layer_descriptors (run_events schedule (run hwm random1 random2 image sm fs)) !! i
       = Some (VObj [("MediaType", VStr LayerType)]).
Proof.
  intros Hsep Hdigest Hconfig.
  destruct (started_from_inputs random1 random2 image sm fs Hsep Hdigest Hconfig)
    as (manifest & fs1 & H1 & H2).
  pose proof (started_Core hwm random1 random2 image sm fs manifest fs1 H1 H2 schedule)
    as (_ & _ & _ & _ & _ & Ht & _ & Hinv).
  rewrite (started_layers hwm random1 random2 image sm fs image manifest fs1 H1 H2 schedule).
  split; [rewrite length_fmap, length_seq; reflexivity|].
  intros i t Hi Hst.
  rewrite list_lookup_fmap.
  rewrite (proj2 (lookup_seq 0 _ i i))
    by (split; [lia | rewrite <- Ht; eapply lookup_lt_Some; eauto]).
  destruct (Hinv _ _ Hi) as (l & src & _ & _ & (_ & _ & _ & _ & T5)).
  cbn. destruct Hst as [Hst|[sha Hst]]; rewrite Hst in T5; destruct T5 as (-> & _);
    reflexivity.
Qed.

Lemma descriptors_listed_before_resolution_witness :
  (~ JsString.contains "app" "/"
   /\ ~ JsString.contains (rootLayerSha (Config example_manifest)) "/"
   /\ is_Some (example_fs !! (mkdtemp "image2dat_src_" "A" +:+ "/"
                               +:+ Config example_manifest)))
  /\ List.length (layer_descriptors
                    (run_events [0] (run 1 "A" "B" "app" example_manifest example_fs)))
     = List.length (Layers example_manifest)
  /\ exists t : LayerTask,
       m_tasks (run_events [0] (run 1 "A" "B" "app" example_manifest example_fs)) !! 0
       = Some t
       /\ t_status t = Streaming
       /\ layer_descriptors (run_events [0] (run 1 "A" "B" "app" example_manifest example_fs))
            !! 0
          = Some (VObj [("MediaType", VStr LayerType)]).
Proof.
  assert (Hsep : ~ JsString.contains "app" "/") by (vm_compute; intuition discriminate).
  assert (Hdigest : ~ JsString.contains (rootLayerSha (Config example_manifest)) "/")
    by (vm_compute; intuition discriminate).
  assert (Hconfig : is_Some (example_fs !! (mkdtemp "image2dat_src_" "A" +:+ "/"
                                            +:+ Config example_manifest)))
    by (vm_compute; eexists; reflexivity).
  destruct (descriptors_listed_before_resolution 1 "A" "B" "app" example_manifest example_fs
              [0] Hsep Hdigest Hconfig) as [Hlen Hall].
  split; [repeat split; assumption|]. split; [exact Hlen|].
  eexists. split; [vm_compute; reflexivity|]. split; [vm_compute; reflexivity|].
  eapply Hall; [vm_compute; reflexivity | left; vm_compute; reflexivity].
Defined.

(** ** A bundle without layers *)



(** ** The bytes of a layer, from the source to the blob *)

Section Exact.

Variables (name dest : string) (manifest : list (string * JsVal)).

Lemma sourced_same srcs (fs fs' : gmap string (list byte)) (sha : string) :
  fs' !! blob_file dest name sha = fs !! blob_file dest name sha ->
  sourced dest name srcs fs sha -> sourced dest name srcs fs' sha.
Proof. intros E (j & c & ? & ? & ?). exists j, c. rewrite E. auto. Qed.

(** With distinct temporary files, every event keeps the blobs of the
    resolved layers equal to source layers. *)
Lemma step_sourced layers srcs (m : Machine) (i : nat) :
  Core name dest manifest layers srcs m ->
  Content name dest m ->
  (forall j t, m_tasks m !! j = Some t -> t_status t = Resolved ->
               sourced dest name srcs (m_fs m) (Sha256.hex (t_sha256Digester t))) ->
  forall j t, m_tasks (step m i) !! j = Some t -> t_status t = Resolved ->
              sourced dest name srcs (m_fs (step m i)) (Sha256.hex (t_sha256Digester t)).
Proof.
  intros (Hn & Hd & Hm & HL & Hh & Ht & Hs & Hinv) HC Hsrcd.
  unfold step. destruct (m_uncaught m); [exact Hsrcd|].
  destruct (m_tasks m !! i) as [t|] eqn:Ei; [|exact Hsrcd].
  destruct (Hinv _ _ Ei) as (l & src & Hl & Hsrc & (T1 & T2 & T3 & T4 & T5)).
  assert (Hlt : i < List.length (m_tasks m)) by (eapply lookup_lt_Some; exact Ei).
  pose proof (HC _ _ Ei) as Hti. unfold content_ok in Hti.
  destruct (t_status t) eqn:Est; try exact Hsrcd.
  - destruct (t_sourceStream t) as [|[chunk| |e] rest]; try exact Hsrcd.
    + unfold on_data. cbn. intros j tj Hj Hst.
      destruct (decide (j = i)) as [->|Hne].
      * rewrite list_lookup_insert_eq in Hj by exact Hlt. injection Hj as <-.
        cbn in Hst. congruence.
      * rewrite list_lookup_insert_ne in Hj by congruence.
        eapply sourced_same; [|exact (Hsrcd _ _ Hj Hst)].
        unfold Fs.write. apply lookup_alter_ne. rewrite T4. apply temp_not_blob.
    + unfold on_end. cbn. intros j tj Hj Hst.
      destruct (decide (j = i)) as [->|Hne].
      * rewrite list_lookup_insert_eq in Hj by exact Hlt. injection Hj as <-.
        cbn in Hst. discriminate.
      * rewrite list_lookup_insert_ne in Hj by congruence. exact (Hsrcd _ _ Hj Hst).
  - destruct Hti as [Hfile _]. destruct T5 as (_ & Hsrc' & Hsha).
    rewrite on_renamed_eq by (rewrite Hsha; apply hex_no_separator).
    rewrite Hfile, T2, T3.
    intros j tj Hj Hst. rewrite join_tasks in Hj.
    unfold resolved_machine in Hj. cbn in Hj.
    assert (Hnew : sourced dest name srcs
                     (<[blob_file dest name sha := t_sha256Digester t]>
                        (delete (t_destTempFile t) (m_fs m))) sha).
    { exists i, (t_sha256Digester t). rewrite lookup_insert_eq, Hsrc, Hsrc'. auto. }
    eapply sourced_same.
    { apply join_fs_other. unfold resolved_machine. cbn. rewrite Hd, Hn.
      apply blob_not_manifest. }
    unfold resolved_machine. cbn.
    destruct (decide (j = i)) as [->|Hne].
    + rewrite list_lookup_insert_eq in Hj by exact Hlt. injection Hj as <-.
      cbn. rewrite <- Hsha. exact Hnew.
    + rewrite list_lookup_insert_ne in Hj by congruence.
      destruct (decide (Sha256.hex (t_sha256Digester tj) = sha)) as [->|Hsh];
        [exact Hnew|].
      eapply sourced_same; [|exact (Hsrcd _ _ Hj Hst)].
      rewrite lookup_insert_ne by (intros E; apply blob_file_inj in E; congruence).
      apply lookup_delete_ne. rewrite T4. apply temp_not_blob.
Qed.

Lemma run_events_sourced layers srcs (schedule : list nat) (m : Machine) :
  Core name dest manifest layers srcs m ->
  NoDup ((fun l => destTempFile_of l dest) <$> layers) ->
  Content name dest m ->
  (forall j t, m_tasks m !! j = Some t -> t_status t = Resolved ->
               sourced dest name srcs (m_fs m) (Sha256.hex (t_sha256Digester t))) ->
  forall j t, m_tasks (run_events schedule m) !! j = Some t -> t_status t = Resolved ->
              sourced dest name srcs (m_fs (run_events schedule m))
                (Sha256.hex (t_sha256Digester t)).
Proof.
  intros HC Hnd Hcont H0. induction schedule as [|i schedule IH] using rev_ind; [exact H0|].
  rewrite run_events_snoc. eapply step_sourced; [| |exact IH].
  - apply run_events_Core. exact HC.
  - eapply run_events_Content; eauto.
Qed.

End Exact.

Section StartedExact.

Variables (hwm : nat) (random1 random2 image : string) (sm : SourceManifest)
          (fs : gmap string (list byte)).
Variables (manifest : list (string * JsVal)) (fs1 : gmap string (list byte)).

Let sourceDir : string := mkdtemp "image2dat_src_" random1.
Let dest : string := mkdtemp "image2dat_dest_" random2.

Hypothesis Hname : simplifyName image = Normal image.
Hypothesis Hroot : copyRootLayer sm image sourceDir dest fs = Normal (manifest, fs1).
Hypothesis Hnd : NoDup ((fun l => destTempFile_of l dest) <$> Layers sm).

Variable schedule : list nat.
Let m : Machine := run_events schedule (run hwm random1 random2 image sm fs).

Lemma started_Content : Content image dest m.
Proof.
  exact (proj2 (proj2 (started_inv hwm random1 random2 image sm fs image manifest fs1
                         schedule Hname Hroot)) Hnd).
Qed.

Lemma started_sourced (j : nat) (t : LayerTask) :
  m_tasks m !! j = Some t -> t_status t = Resolved ->
  sourced dest image (srcs_of random1 fs1 (Layers sm)) (m_fs m)
    (Sha256.hex (t_sha256Digester t)).
Proof.
  subst m.
  rewrite (run_started hwm random1 random2 image sm fs _ _ _ Hname Hroot).
  destruct (copyOtherLayers_Core hwm random1 random2 image manifest fs1 (Layers sm))
    as [HC _].
  pose proof (copyOtherLayers_Content hwm random1 random2 image manifest fs1 (Layers sm) Hnd)
    as Hcont.
  fold sourceDir dest in HC, Hcont |- *.
  apply (run_events_sourced image dest manifest _ _ schedule _
           (join_Core _ _ _ _ _ _ HC) Hnd (join_Content _ _ _ _ _ _ HC Hcont)).
  intros k tk Hk Hst. rewrite join_tasks in Hk.
  apply copyOtherLayers_streaming in Hk; [congruence|].
  intros i t' Hi. discriminate.
Qed.

End StartedExact.



(** ** The streams of [compressLayer], write by write *)

Section AsyncFacts.

Variables (name dest sourceDir : string) (d0 : Async.Disk).
Variable whwm : Z.

Lemma view_lookup (d : Async.Disk) (p : string) : Async.view d !! p = Async.read d p.
Proof.
  unfold Async.view, Async.read. rewrite lookup_omap.
  destruct (Async.d_names d !! p); reflexivity.
Qed.

(** The tasks as [copyOtherLayers] leaves them. *)
Lemma async_launch_task (hwm : nat) (l : string) :
  let t := Async.compressLayer hwm unprocessed l name sourceDir dest d0 in
  stream_ok (source_of sourceDir d0 l) t /\ handed_ok t /\ ~ renamed t.
Proof.
  unfold Async.compressLayer, stream_ok, handed_ok, renamed, source_of. cbn.
  split; [split; [reflexivity|]|split; [split; [lia | reflexivity] | tauto]].
  unfold createReadStream. rewrite view_lookup.
  destruct (Async.read d0 (sourceDir +:+ "/" +:+ l)) as [c|]; [|eauto].
  eexists. split; [reflexivity|]. apply concat_chunks. lia.
Qed.

Lemma async_launch_ACore (hwm : nat) (layers : list string) :
  ACore name dest sourceDir d0 layers
    (Async.copyOtherLayers hwm name layers sourceDir dest d0).
Proof.
  unfold ACore, Async.copyOtherLayers. cbn. rewrite length_fmap. split; [reflexivity|].
  intros i t Hi. rewrite list_lookup_fmap in Hi.
  destruct (layers !! i) as [l|] eqn:Hl; [|discriminate]. injection Hi as <-.
  exists l. split; [reflexivity|].
  destruct (async_launch_task hwm l) as (H1 & H2 & H3).
  repeat (split; [first [reflexivity | assumption]|]).
  intros H. destruct (H3 H).
Qed.

(** A task of [ACore] is replaced. *)
Lemma ACore_update (layers : list string) (m : Async.Machine) (i : nat)
    (t t' : Async.Task) (d' : Async.Disk) :
  ACore name dest sourceDir d0 layers m ->
  Async.a_tasks m !! i = Some t ->
  Async.k_imageName t' = Async.k_imageName t ->
  Async.k_destDir t' = Async.k_destDir t ->
  Async.k_destTempFile t' = Async.k_destTempFile t ->
  (forall l, layers !! i = Some l -> stream_ok (source_of sourceDir d0 l) t ->
             stream_ok (source_of sourceDir d0 l) t') ->
  (handed_ok t -> handed_ok t') ->
  (forall sha, is_Some (Async.d_names (Async.a_disk m) !! blob_file dest name sha) ->
               is_Some (Async.d_names d' !! blob_file dest name sha)) ->
  (renamed t' ->
   is_Some (Async.d_names d' !! blob_file dest name (Sha256.hex (Async.k_sha256Digester t')))) ->
  ACore name dest sourceDir d0 layers (Async.with_task i t' d' m).
Proof.
  intros [Hlen Hall] Hi E1 E2 E3 Hstream Hhanded Hblobs Hnew.
  split; [cbn; rewrite length_insert; exact Hlen|].
  intros j tj Hj. cbn in Hj.
  destruct (decide (j = i)) as [->|Hne].
  - rewrite list_lookup_insert_eq in Hj by (eapply lookup_lt_Some; exact Hi).
    injection Hj as <-.
    destruct (Hall _ _ Hi) as (l & Hl & T1 & T2 & T3 & T4 & T5 & _).
    exists l. split; [exact Hl|]. rewrite E1, E2, E3.
    repeat (split; [assumption|]).
    split; [exact (Hstream _ Hl T4)|]. split; [exact (Hhanded T5) | exact Hnew].
  - rewrite list_lookup_insert_ne in Hj by congruence.
    destruct (Hall _ _ Hj) as (l & Hl & T1 & T2 & T3 & T4 & T5 & T6).
    exists l. repeat (split; [assumption|]).
    intros Hr. cbn. apply Hblobs, T6, Hr.
Qed.

Lemma handed_ok_data (t : Async.Task) (chunk : list byte) (rest : list StreamEvent)
    (paused : bool) :
  handed_ok t ->
  handed_ok
    (Async.mkTask (Async.k_layerJson t) (Async.k_imageName t) (Async.k_destDir t)
       (Async.k_destTempFile t) rest (Async.k_sha256Digester t ++ chunk) (Async.k_fd t)
       (Async.k_queue t ++ [chunk]) (Async.k_written t) paused Async.Streaming).
Proof.
  unfold handed_ok. cbn. intros [Hle Hdrop].
  rewrite List.length_app. split; [lia|].
  rewrite drop_app_le by exact Hle. rewrite Hdrop, concat_app. cbn.
  rewrite app_nil_r. reflexivity.
Qed.

Lemma handed_ok_written (t : Async.Task) (chunk : list byte) (queue : list (list byte))
    (paused : bool) :
  Async.k_queue t = chunk :: queue ->
  handed_ok t ->
  handed_ok
    (Async.mkTask (Async.k_layerJson t) (Async.k_imageName t) (Async.k_destDir t)
       (Async.k_destTempFile t) (Async.k_sourceStream t) (Async.k_sha256Digester t)
       (Async.k_fd t) queue (Async.k_written t + List.length chunk) paused
       (Async.k_status t)).
Proof.
  unfold handed_ok. cbn. intros Hq [Hle Hdrop]. rewrite Hq in Hdrop. cbn in Hdrop.
  assert (Hlen : List.length (drop (Async.k_written t) (Async.k_sha256Digester t))
                 = (List.length chunk + List.length (concat queue))%nat)
    by (rewrite Hdrop, List.length_app; reflexivity).
  rewrite length_drop in Hlen. split; [lia|].
  rewrite <- drop_drop, Hdrop. rewrite drop_app_length. reflexivity.
Qed.

(** Every event keeps [ACore]. *)
Lemma async_step_ACore (layers : list string) (m : Async.Machine) (ev : Async.Event) :
  ACore name dest sourceDir d0 layers m ->
  ACore name dest sourceDir d0 layers (Async.step whwm m ev).
Proof.
  intros HC. unfold Async.step.
  destruct (Async.a_uncaught m); [exact HC|].
  destruct (Async.a_tasks m !! Async.event_layer ev) as [t|] eqn:Ei; [|exact HC].
  pose proof HC as [Hlen Hall].
  destruct (Hall _ _ Ei) as (l & Hl & T1 & T2 & T3 & T4 & T5 & T6).
  destruct ev as [i|i|i|i|i]; cbn [Async.event_layer] in Ei.
  - (* the source *)
    unfold Async.on_source. destruct (Async.k_status t) eqn:Est; try exact HC.
    destruct (Async.k_paused t); [exact HC|].
    destruct (Async.k_sourceStream t) as [|[chunk| |e] rest] eqn:Es; try exact HC;
      cbv zeta.
    + eapply ACore_update; try exact Ei; try reflexivity; try exact HC.
      * intros l' Hl' Hs. unfold stream_ok in Hs |- *. rewrite Est in Hs. cbn.
        destruct Hs as [Hj Hs]. split; [exact Hj|].
        destruct (source_of sourceDir d0 l') as [c|].
        -- destruct Hs as (cs & Hcs & Hc). rewrite Es in Hcs.
           destruct cs as [|c0 cs]; [discriminate|]. injection Hcs as -> ->.
           exists cs. split; [reflexivity|]. rewrite <- Hc. cbn.
           rewrite <- app_assoc. reflexivity.
        -- destruct Hs as (e & He). rewrite Es in He. discriminate.
      * intros H.
        exact (handed_ok_data t chunk rest
                 (whwm <=? Z.of_nat (List.length (concat (Async.k_queue t ++ [chunk]))))%Z
                 H).
      * auto.
      * unfold renamed. cbn. tauto.
    + eapply ACore_update; try exact Ei; try reflexivity; try exact HC.
      * intros l' Hl' Hs. unfold stream_ok in Hs |- *. rewrite Est in Hs. cbn.
        destruct Hs as [Hj Hs]. split; [exact Hj|].
        destruct (source_of sourceDir d0 l') as [c|].
        -- destruct Hs as (cs & Hcs & Hc). rewrite Es in Hcs.
           destruct cs as [|c0 cs]; [|discriminate].
           cbn in Hc. rewrite app_nil_r in Hc. subst c. split; reflexivity.
        -- destruct Hs as (e & He). rewrite Es in He. discriminate.
      * unfold handed_ok. cbn. auto.
      * auto.
      * unfold renamed. cbn. tauto.
  - (* the file is open *)
    unfold Async.on_opened. destruct (Async.k_fd t); [exact HC|].
    destruct (Async.open_w (Async.k_destTempFile t) (Async.a_disk m)) as [n d'] eqn:Eo.
    assert (Hnames : forall sha,
               is_Some (Async.d_names (Async.a_disk m) !! blob_file dest name sha) ->
               is_Some (Async.d_names d' !! blob_file dest name sha)).
    { intros sha H. unfold Async.open_w in Eo.
      destruct (Async.d_names (Async.a_disk m) !! Async.k_destTempFile t);
        injection Eo as <- <-; cbn; [exact H|].
      rewrite lookup_insert_ne; [exact H|]. rewrite T3. apply temp_not_blob. }
    eapply ACore_update; try exact Ei; try reflexivity; try exact HC.
    + intros l' _ Hs. exact Hs.
    + intros H. exact H.
    + exact Hnames.
    + intros Hr. cbn. apply Hnames, T6, Hr.
  - (* a write is done *)
    unfold Async.on_written. destruct (Async.k_fd t) as [n|]; [|exact HC].
    destruct (Async.k_queue t) as [|chunk queue] eqn:Eq; [exact HC|].
    eapply ACore_update; try exact Ei; try reflexivity; try exact HC.
    + intros l' _ Hs. exact Hs.
    + intros H.
      exact (handed_ok_written t chunk queue
               (match queue with [] => false | _ :: _ => Async.k_paused t end) Eq H).
    + auto.
    + intros Hr. cbn. apply T6, Hr.
  - (* the rename is performed *)
    unfold Async.on_renamed. destruct (Async.k_status t) eqn:Est; try exact HC.
    unfold stream_ok in T4. rewrite Est in T4. destruct T4 as (Hj & Hsrc & Hsha).
    unfold Async.rename. rewrite T1, T2.
    rewrite rename_blob by (rewrite Hsha; apply hex_no_separator).
    destruct (Async.d_names (Async.a_disk m) !! Async.k_destTempFile t) as [n|] eqn:En;
      cbn.
    + eapply ACore_update; try exact Ei; try reflexivity; try exact HC.
      * intros l' Hl' Hs. unfold stream_ok in Hs |- *. rewrite Est in Hs. exact Hs.
      * intros H. exact H.
      * intros sha' H. cbn.
        destruct (decide (blob_file dest name sha = blob_file dest name sha')) as [->|Hne].
        -- rewrite lookup_insert_eq. eauto.
        -- rewrite lookup_insert_ne by exact Hne.
           rewrite lookup_delete_ne; [exact H|]. rewrite T3. apply temp_not_blob.
      * intros _. cbn. rewrite <- Hsha, lookup_insert_eq. eauto.
    + eapply ACore_update; try exact Ei; try reflexivity; try exact HC.
      * intros l' Hl' Hs. unfold stream_ok in Hs |- *. rewrite Est in Hs. exact Hs.
      * intros H. exact H.
      * auto.
      * unfold renamed. cbn. tauto.
  - (* the handler resumes *)
    unfold Async.on_settled. destruct (Async.k_status t) as [|sha|sha [e|]| |e] eqn:Est;
      try exact HC.
    + eapply ACore_update; try exact Ei; try reflexivity; try exact HC.
      * intros l' Hl' Hs. unfold stream_ok in Hs |- *. rewrite Est in Hs. cbn. tauto.
      * intros H. exact H.
      * auto.
      * unfold renamed. cbn. tauto.
    + rewrite await_stat_size.
      eapply ACore_update; try exact Ei; try reflexivity; try exact HC.
      * intros l' Hl' Hs. unfold stream_ok in Hs |- *. rewrite Est in Hs. cbn.
        destruct Hs as (Hj & Hsrc & Hsha). split; [|exact Hsrc].
        rewrite Hj, Hsha. reflexivity.
      * intros H. exact H.
      * auto.
      * intros _. cbn. apply T6. unfold renamed. rewrite Est. exact I.
Qed.

Lemma async_run_ACore (layers : list string) (events : list Async.Event)
    (m : Async.Machine) :
  ACore name dest sourceDir d0 layers m ->
  ACore name dest sourceDir d0 layers (Async.run_events whwm events m).
Proof.
  revert m. induction events as [|ev events IH]; intros m H; [exact H|].
  cbn. apply IH, async_step_ACore, H.
Qed.

End AsyncFacts.

Section AsyncFiles.

Variables (name dest sourceDir : string) (d0 : Async.Disk) (whwm : Z).
Variable layers : list string.
Hypothesis Hnd : NoDup ((fun l => destTempFile_of l dest) <$> layers).

Lemma async_temps_distinct (m : Async.Machine) (i j : nat) (ti tj : Async.Task) :
  ACore name dest sourceDir d0 layers m ->
  Async.a_tasks m !! i = Some ti -> Async.a_tasks m !! j = Some tj -> j <> i ->
  Async.k_destTempFile tj <> Async.k_destTempFile ti.
Proof.
  intros [_ Hall] Hi Hj Hne E.
  destruct (Hall _ _ Hi) as (li & Hli & _ & _ & Ti & _).
  destruct (Hall _ _ Hj) as (lj & Hlj & _ & _ & Tj & _).
  apply Hne. eapply NoDup_lookup; [exact Hnd | |].
  - rewrite list_lookup_fmap, Hlj. cbn. rewrite <- Tj. reflexivity.
  - rewrite list_lookup_fmap, Hli. cbn. rewrite <- Ti, E. reflexivity.
Qed.

Lemma fd_in_range (d : Async.Disk) (tasks : list Async.Task) (t : Async.Task) (n : nat) :
  file_ok name dest d tasks t -> Async.k_fd t = Some n ->
  n < List.length (Async.d_files d).
Proof.
  unfold file_ok. intros H E. rewrite E in H. destruct H as [H _].
  eapply lookup_lt_Some. exact H.
Qed.

(** The next write of a stream extends the prefix that its file holds. *)
Lemma write_at_take (pos : nat) (chunk rest c : list byte) :
  pos <= List.length c -> drop pos c = chunk ++ rest ->
  Fs.write_at pos chunk (take pos c) = take (pos + List.length chunk) c.
Proof.
  intros Hle Hdrop.
  replace pos with (List.length (take pos c)) at 1 by (rewrite length_take; lia).
  rewrite write_at_end.
  rewrite <- (take_drop pos c) at 2.
  rewrite take_app_add' by (rewrite length_take; lia).
  rewrite Hdrop, take_app_length. reflexivity.
Qed.

(** A task is replaced: what the blob paths name. *)
Lemma blob_held_update (d d' : Async.Disk) (tasks : list Async.Task) (i : nat)
    (t t' : Async.Task) (sha : string) :
  tasks !! i = Some t ->
  (renamed t ->
   renamed t' /\ Async.k_fd t' = Async.k_fd t
   /\ Async.k_sha256Digester t' = Async.k_sha256Digester t) ->
  (forall sha' n,
     Async.d_names d !! blob_file dest name sha' = Some n ->
     Async.d_names d' !! blob_file dest name sha' = Some n
     \/ exists n', renamed t' /\ Async.k_fd t' = Some n'
                   /\ Async.d_names d' !! blob_file dest name sha' = Some n'
                   /\ Sha256.hex (Async.k_sha256Digester t') = sha') ->
  blob_held name dest d tasks sha -> blob_held name dest d' (<[i := t']> tasks) sha.
Proof.
  intros Hi Hkeep Hblob (j & tj & nj & Hj & Fj & Rj & Nj & Dj).
  assert (Hlt : i < List.length tasks) by (eapply lookup_lt_Some; exact Hi).
  destruct (Hblob _ _ Nj) as [N'|(n' & R' & F' & N' & D')].
  - destruct (decide (j = i)) as [->|Hne].
    + assert (tj = t) by congruence. subst tj.
      destruct (Hkeep Rj) as (R' & F' & D').
      exists i, t', nj. rewrite list_lookup_insert_eq by exact Hlt.
      rewrite F', D'. auto.
    + exists j, tj, nj. rewrite list_lookup_insert_ne by congruence. auto.
  - exists i, t', n'. rewrite list_lookup_insert_eq by exact Hlt. auto.
Qed.

(** A task is replaced: the file of another one. *)
Lemma file_ok_frame (d d' : Async.Disk) (tasks : list Async.Task) (i : nat)
    (t t' tj : Async.Task) :
  tasks !! i = Some t ->
  (renamed t ->
   renamed t' /\ Async.k_fd t' = Async.k_fd t
   /\ Async.k_sha256Digester t' = Async.k_sha256Digester t) ->
  (forall sha' n,
     Async.d_names d !! blob_file dest name sha' = Some n ->
     Async.d_names d' !! blob_file dest name sha' = Some n
     \/ exists n', renamed t' /\ Async.k_fd t' = Some n'
                   /\ Async.d_names d' !! blob_file dest name sha' = Some n'
                   /\ Sha256.hex (Async.k_sha256Digester t') = sha') ->
  (forall n, Async.k_fd tj = Some n -> Async.d_files d' !! n = Async.d_files d !! n) ->
  Async.d_names d' !! Async.k_destTempFile tj = Async.d_names d !! Async.k_destTempFile tj ->
  file_ok name dest d tasks tj -> file_ok name dest d' (<[i := t']> tasks) tj.
Proof.
  intros Hi Hkeep Hblob Hfiles Hnames. unfold file_ok.
  destruct (Async.k_fd tj) as [n|].
  - intros [Hf Hs]. rewrite (Hfiles n eq_refl), Hnames. split; [exact Hf|].
    destruct (Async.k_status tj) as [|sha|sha [e|]| |e]; try exact Hs.
    + destruct Hs as [H1 H2]. split; [exact H1|]. eapply blob_held_update; eauto.
    + destruct Hs as [H1 H2]. split; [exact H1|]. eapply blob_held_update; eauto.
  - rewrite Hnames. auto.
Qed.

Lemma AFiles_update (m : Async.Machine) (i : nat) (t t' : Async.Task) (d' : Async.Disk) :
  ACore name dest sourceDir d0 layers m ->
  AFiles name dest m ->
  Async.a_tasks m !! i = Some t ->
  Async.k_destTempFile t' = Async.k_destTempFile t ->
  (renamed t ->
   renamed t' /\ Async.k_fd t' = Async.k_fd t
   /\ Async.k_sha256Digester t' = Async.k_sha256Digester t) ->
  (Async.k_fd t' = Async.k_fd t
   \/ Async.k_fd t = None
      /\ Async.k_fd t' = Some (List.length (Async.d_files (Async.a_disk m)))) ->
  (forall n, n < List.length (Async.d_files (Async.a_disk m)) -> Async.k_fd t <> Some n ->
             Async.d_files d' !! n = Async.d_files (Async.a_disk m) !! n) ->
  (forall p, p <> Async.k_destTempFile t -> (forall sha, p <> blob_file dest name sha) ->
             Async.d_names d' !! p = Async.d_names (Async.a_disk m) !! p) ->
  (forall sha' n,
     Async.d_names (Async.a_disk m) !! blob_file dest name sha' = Some n ->
     Async.d_names d' !! blob_file dest name sha' = Some n
     \/ exists n', renamed t' /\ Async.k_fd t' = Some n'
                   /\ Async.d_names d' !! blob_file dest name sha' = Some n'
                   /\ Sha256.hex (Async.k_sha256Digester t') = sha') ->
  file_ok name dest d' (<[i := t']> (Async.a_tasks m)) t' ->
  AFiles name dest (Async.with_task i t' d' m).
Proof.
  intros HC [Hdist Hall] Hi Etemp Hkeep Hfd Hfiles Hnames Hblob Hnew.
  assert (Hlt : i < List.length (Async.a_tasks m)) by (eapply lookup_lt_Some; exact Hi).
  assert (Hother : forall j tj n, Async.a_tasks m !! j = Some tj -> j <> i ->
                                  Async.k_fd tj = Some n ->
                                  n < List.length (Async.d_files (Async.a_disk m))
                                  /\ Async.k_fd t <> Some n /\ Async.k_fd t' <> Some n).
  { intros j tj n Hj Hne Fj.
    pose proof (fd_in_range _ _ _ _ (Hall _ _ Hj) Fj) as Hn.
    assert (Hto : Async.k_fd t <> Some n).
    { intros Ft. apply Hne. exact (Hdist _ _ _ _ _ Hj Hi Fj Ft). }
    split; [exact Hn|]. split; [exact Hto|].
    destruct Hfd as [->|[_ ->]]; [exact Hto|]. intros [= E]. lia. }
  split.
  - intros a b ta tb n Ha Hb Fa Fb. cbn in Ha, Hb.
    destruct (decide (a = i)) as [->|Hai], (decide (b = i)) as [->|Hbi];
      [reflexivity| | |].
    + rewrite list_lookup_insert_eq in Ha by exact Hlt. injection Ha as <-.
      rewrite list_lookup_insert_ne in Hb by congruence.
      destruct (Hother _ _ _ Hb Hbi Fb) as (_ & _ & H). contradiction.
    + rewrite list_lookup_insert_eq in Hb by exact Hlt. injection Hb as <-.
      rewrite list_lookup_insert_ne in Ha by congruence.
      destruct (Hother _ _ _ Ha Hai Fa) as (_ & _ & H). contradiction.
    + rewrite list_lookup_insert_ne in Ha by congruence.
      rewrite list_lookup_insert_ne in Hb by congruence.
      exact (Hdist _ _ _ _ _ Ha Hb Fa Fb).
  - intros j tj Hj. cbn in Hj |- *.
    destruct (decide (j = i)) as [->|Hne].
    + rewrite list_lookup_insert_eq in Hj by exact Hlt. injection Hj as <-. exact Hnew.
    + rewrite list_lookup_insert_ne in Hj by congruence.
      eapply file_ok_frame; [exact Hi | exact Hkeep | exact Hblob | | | exact (Hall _ _ Hj)].
      * intros n Fj. destruct (Hother _ _ _ Hj Hne Fj) as (H1 & H2 & _).
        apply Hfiles; assumption.
      * apply Hnames.
        -- eapply async_temps_distinct; eauto.
        -- destruct HC as [_ HCall].
           destruct (HCall _ _ Hj) as (l & _ & _ & _ & -> & _).
           intros sha. apply temp_not_blob.
Qed.

(** Every event keeps the files in step with what was written. *)
Lemma async_step_AFiles (m : Async.Machine) (ev : Async.Event) :
  ACore name dest sourceDir d0 layers m ->
  AFiles name dest m ->
  AFiles name dest (Async.step whwm m ev).
Proof.
  intros HC HF. unfold Async.step.
  destruct (Async.a_uncaught m); [exact HF|].
  destruct (Async.a_tasks m !! Async.event_layer ev) as [t|] eqn:Ei; [|exact HF].
  pose proof HC as [Hlen Hall].
  destruct (Hall _ _ Ei) as (l & Hl & T1 & T2 & T3 & T4 & T5 & T6).
  pose proof HF as [Hdist HFall].
  pose proof (HFall _ _ Ei) as Ft.
  assert (Hlt : Async.event_layer ev < List.length (Async.a_tasks m))
    by (eapply lookup_lt_Some; exact Ei).
  destruct ev as [i|i|i|i|i]; cbn [Async.event_layer] in Ei, Hlt.
  - (* the source *)
    unfold Async.on_source. destruct (Async.k_status t) eqn:Est; try exact HF.
    destruct (Async.k_paused t); [exact HF|].
    destruct (Async.k_sourceStream t) as [|[chunk| |e] rest] eqn:Es; try exact HF;
      cbv zeta.
    + eapply AFiles_update; [exact HC | exact HF | exact Ei | reflexivity | | | | | |].
      * unfold renamed. rewrite Est. tauto.
      * left. reflexivity.
      * auto.
      * auto.
      * auto.
      * unfold file_ok in Ft |- *. cbn. rewrite Est in Ft.
        destruct (Async.k_fd t) as [n|].
        -- destruct Ft as [Hf Hn]. split; [|exact Hn].
           rewrite take_app_le by (apply T5). exact Hf.
        -- unfold renamed. cbn. tauto.
    + eapply AFiles_update; [exact HC | exact HF | exact Ei | reflexivity | | | | | |].
      * unfold renamed. rewrite Est. tauto.
      * left. reflexivity.
      * auto.
      * auto.
      * auto.
      * unfold file_ok in Ft |- *. cbn. rewrite Est in Ft.
        destruct (Async.k_fd t) as [n|]; [exact Ft|].
        unfold renamed. cbn. tauto.
  - (* the file is open *)
    unfold Async.on_opened. destruct (Async.k_fd t) as [n|] eqn:Efd; [exact HF|].
    unfold file_ok in Ft. rewrite Efd in Ft. destruct Ft as (Hn & Hw & Hr).
    unfold Async.open_w. rewrite Hn.
    eapply AFiles_update; [exact HC | exact HF | exact Ei | reflexivity | | | | | |].
    + intros H. destruct (Hr H).
    + right. cbn. auto.
    + intros n Hlen' _. cbn. apply lookup_app_l. exact Hlen'.
    + intros p Hp _. cbn. apply lookup_insert_ne. congruence.
    + intros sha' n H. left. cbn. rewrite lookup_insert_ne; [exact H|].
      rewrite T3. apply temp_not_blob.
    + unfold file_ok. cbn. rewrite Hw. cbn.
      split; [apply list_lookup_middle; reflexivity|].
      unfold renamed in Hr.
      destruct (Async.k_status t) as [|sha|sha [e|]| |e]; try exact I;
        try (apply lookup_insert_eq); destruct Hr; exact I.
  - (* a write is done *)
    unfold Async.on_written. destruct (Async.k_fd t) as [n|] eqn:Efd; [|exact HF].
    destruct (Async.k_queue t) as [|chunk queue] eqn:Eq; [exact HF|].
    unfold file_ok in Ft. rewrite Efd in Ft. destruct Ft as [Hf Hs].
    destruct T5 as [Hle Hdrop]. rewrite Eq in Hdrop. cbn in Hdrop.
    rewrite <- Efd.
    assert (Hkeep : renamed t ->
                    renamed
                      (Async.mkTask (Async.k_layerJson t) (Async.k_imageName t)
                         (Async.k_destDir t) (Async.k_destTempFile t)
                         (Async.k_sourceStream t) (Async.k_sha256Digester t)
                         (Async.k_fd t) queue (Async.k_written t + List.length chunk)
                         (match queue with [] => false | _ :: _ => Async.k_paused t end)
                         (Async.k_status t))
                    /\ Async.k_fd t = Async.k_fd t
                    /\ Async.k_sha256Digester t = Async.k_sha256Digester t)
      by (intros H; split; [exact H | split; reflexivity]).
    eapply AFiles_update; [exact HC | exact HF | exact Ei | reflexivity | | | | | |].
    + exact Hkeep.
    + left. reflexivity.
    + intros n' _ Hn'. cbn. apply list_lookup_alter_ne. congruence.
    + auto.
    + auto.
    + unfold file_ok. cbn. rewrite Efd. split.
      * rewrite list_lookup_alter_eq, Hf. unfold fmap, option_fmap, option_map. f_equal.
        eapply write_at_take; eassumption.
      * destruct (Async.k_status t) as [|sha|sha [e|]| |e]; try exact Hs.
        -- destruct Hs as [H1 H2]. split; [exact H1|].
           eapply blob_held_update; [exact Ei | | | exact H2]; [|auto].
           rewrite Efd. unfold renamed. cbn. auto.
        -- destruct Hs as [H1 H2]. split; [exact H1|].
           eapply blob_held_update; [exact Ei | | | exact H2]; [|auto].
           rewrite Efd. unfold renamed. cbn. auto.
  - (* the rename is performed *)
    unfold Async.on_renamed. destruct (Async.k_status t) eqn:Est; try exact HF.
    unfold stream_ok in T4. rewrite Est in T4. destruct T4 as (Hj & Hsrc & Hsha).
    unfold Async.rename. rewrite T1, T2.
    rewrite rename_blob by (rewrite Hsha; apply hex_no_separator).
    unfold file_ok in Ft. rewrite Est in Ft.
    destruct (Async.d_names (Async.a_disk m) !! Async.k_destTempFile t) as [n|] eqn:En;
      cbn.
    + assert (Efd : Async.k_fd t = Some n).
      { destruct (Async.k_fd t) as [n'|]; [|destruct Ft; discriminate].
        destruct Ft as [_ Hn]. congruence. }
      rewrite Efd in Ft. destruct Ft as [Hf _].
      assert (Hmine : Async.d_names
                        (Async.mkDisk
                           (<[blob_file dest name sha := n]>
                              (delete (Async.k_destTempFile t)
                                 (Async.d_names (Async.a_disk m))))
                           (Async.d_files (Async.a_disk m)))
                        !! blob_file dest name sha = Some n)
        by (cbn; apply lookup_insert_eq).
      eapply AFiles_update; [exact HC | exact HF | exact Ei | reflexivity | | | | | |].
      * unfold renamed. rewrite Est. tauto.
      * left. reflexivity.
      * auto.
      * intros p Hp Hb. cbn. rewrite lookup_insert_ne by (apply not_eq_sym, Hb).
        apply lookup_delete_ne. congruence.
      * intros sha' n' H.
        destruct (decide (blob_file dest name sha = blob_file dest name sha')) as [E|Hne].
        -- right. exists n. split; [exact I|]. split; [exact Efd|].
           rewrite <- E. split; [exact Hmine|].
           apply blob_file_inj in E. cbn. congruence.
        -- left. cbn. rewrite lookup_insert_ne by exact Hne.
           rewrite lookup_delete_ne; [exact H|]. rewrite T3. apply temp_not_blob.
      * unfold file_ok. cbn. rewrite Efd. split; [exact Hf|]. split.
        -- rewrite lookup_insert_ne
             by (rewrite T3; apply not_eq_sym, temp_not_blob).
           apply lookup_delete_eq.
        -- exists i, (Async.with_status (Async.Settling sha None) t), n.
           rewrite list_lookup_insert_eq by exact Hlt.
           split; [reflexivity|]. split; [exact Efd|]. split; [exact I|].
           split; [|reflexivity]. cbn [Async.k_sha256Digester Async.with_status].
           rewrite <- Hsha. exact Hmine.
    + assert (Efd : Async.k_fd t = None).
      { destruct (Async.k_fd t) as [n'|]; [|reflexivity]. destruct Ft; discriminate. }
      rewrite Efd in Ft.
      eapply AFiles_update; [exact HC | exact HF | exact Ei | reflexivity | | | | | |].
      * unfold renamed. rewrite Est. tauto.
      * left. reflexivity.
      * auto.
      * auto.
      * auto.
      * unfold file_ok. cbn. rewrite Efd. unfold renamed. cbn. tauto.
  - (* the handler resumes *)
    unfold Async.on_settled. destruct (Async.k_status t) as [|sha|sha [e|]| |e] eqn:Est;
      try exact HF.
    + eapply AFiles_update; [exact HC | exact HF | exact Ei | reflexivity | | | | | |].
      * unfold renamed. rewrite Est. tauto.
      * left. reflexivity.
      * auto.
      * auto.
      * auto.
      * unfold file_ok in Ft |- *. cbn. rewrite Est in Ft.
        destruct (Async.k_fd t) as [n|]; [tauto|].
        unfold renamed. cbn. tauto.
    + rewrite await_stat_size.
      assert (Hkeep : renamed t ->
                      renamed
                        (Async.mkTask
                           (Js.set_prop (Js.set_prop (Async.k_layerJson t) "Size" VUndef)
                              "Digest" (VStr ("sha256:" +:+ sha)))
                           (Async.k_imageName t) (Async.k_destDir t)
                           (Async.k_destTempFile t) (Async.k_sourceStream t)
                           (Async.k_sha256Digester t) (Async.k_fd t) (Async.k_queue t)
                           (Async.k_written t) (Async.k_paused t) Async.Resolved)
                      /\ Async.k_fd t = Async.k_fd t
                      /\ Async.k_sha256Digester t = Async.k_sha256Digester t)
        by (intros _; split; [exact I | split; reflexivity]).
      eapply AFiles_update; [exact HC | exact HF | exact Ei | reflexivity | | | | | |].
      * exact Hkeep.
      * left. reflexivity.
      * auto.
      * auto.
      * auto.
      * unfold file_ok in Ft |- *. cbn. rewrite Est in Ft.
        destruct (Async.k_fd t) as [n|] eqn:Efd.
        -- destruct Ft as (Hf & Hn & Hb). split; [exact Hf|]. split; [exact Hn|].
           eapply blob_held_update; [exact Ei | | | exact Hb];
             [intros _; split; [exact I | split; [symmetry; exact Efd | reflexivity]]
             | auto].
        -- destruct Ft as (_ & _ & Hr). exfalso. apply Hr. unfold renamed.
           rewrite Est. exact I.
Qed.

Lemma async_run_inv (events : list Async.Event) (m : Async.Machine) :
  ACore name dest sourceDir d0 layers m ->
  AFiles name dest m ->
  ACore name dest sourceDir d0 layers (Async.run_events whwm events m)
  /\ AFiles name dest (Async.run_events whwm events m).
Proof.
  revert m. induction events as [|ev events IH]; intros m HC HF; [split; assumption|].
  cbn. apply IH; [apply async_step_ACore, HC | apply async_step_AFiles; assumption].
Qed.

(** The files as [copyOtherLayers] leaves them, when no file goes by the
    name of a temporary file yet. *)
Lemma async_launch_AFiles (hwm : nat) :
  (forall l, l ∈ layers -> Async.d_names d0 !! destTempFile_of l dest = None) ->
  AFiles name dest (Async.copyOtherLayers hwm name layers sourceDir dest d0).
Proof.
  intros Hfresh. split.
  - intros i j ti tj n Hi _ Fi _. cbn in Hi. rewrite list_lookup_fmap in Hi.
    destruct (layers !! i); [|discriminate]. injection Hi as <-. discriminate.
  - intros i t Hi. cbn in Hi |- *. rewrite list_lookup_fmap in Hi.
    destruct (layers !! i) as [l|] eqn:Hl; [|discriminate]. injection Hi as <-.
    unfold file_ok, renamed. cbn. split; [|tauto].
    apply Hfresh. eapply list_elem_of_lookup_2. exact Hl.
Qed.

End AsyncFiles.




(** X11.  When no two layers share a temporary file and no file goes by
    the name of one yet (the destination directory is a new one), the two
    pipes of a layer stay in step, write by write.  The bytes hashed are a
    prefix of the layer's source file, the whole of it once the stream has
    ended; they are the bytes handed to the write stream, of which the
    first [k_written] are written and the others queued.  Before the file
    of the stream is open nothing is written and no file goes by the
    temporary name; once it is open it holds exactly the bytes written, all
    the bytes hashed when the queue is empty, and the temporary path names
    it until the rename is performed.  After the rename the blob path names
    the file of a layer with the same digest, which holds the bytes of that
    layer written so far. *)
Theorem temp_file_follows_hash (hwm : nat) (whwm : Z) (random1 random2 name : string)
    (layers : list string) (d0 : Async.Disk) (events : list Async.Event) :
  NoDup ((fun l => destTempFile_of l (mkdtemp "image2dat_dest_" random2)) <$> layers) ->
  (forall l, l ∈ layers ->
             Async.d_names d0 !! destTempFile_of l (mkdtemp "image2dat_dest_" random2)
             = None) ->
  forall (i : nat) (t : Async.Task) (l : string) (c : list byte),
    let m := Async.run_events whwm events
               (Async.copyOtherLayers hwm name layers (mkdtemp "image2dat_src_" random1)
                  (mkdtemp "image2dat_dest_" random2) d0) in
    Async.a_tasks m !! i = Some t ->
    layers !! i = Some l ->
    Async.read d0 (mkdtemp "image2dat_src_" random1 +:+ "/" +:+ l) = Some c ->
    (exists rest : list byte, c = Async.k_sha256Digester t ++ rest)
    /\ (Async.k_status t <> Async.Streaming -> Async.k_sha256Digester t = c)
    /\ take (Async.k_written t) (Async.k_sha256Digester t) ++ concat (Async.k_queue t)
       = Async.k_sha256Digester t
    /\ (Async.k_fd t = None ->
        Async.k_written t = 0
        /\ Async.read (Async.a_disk m)
             (destTempFile_of l (mkdtemp "image2dat_dest_" random2)) = None)
    /\ (forall n : nat,
          Async.k_fd t = Some n ->
          Async.d_files (Async.a_disk m) !! n
          = Some (take (Async.k_written t) (Async.k_sha256Digester t))
          /\ (Async.k_status t = Async.Streaming
              \/ (exists sha, Async.k_status t = Async.Renaming sha) ->
              Async.read (Async.a_disk m)
                (destTempFile_of l (mkdtemp "image2dat_dest_" random2))
              = Some (take (Async.k_written t) (Async.k_sha256Digester t)))
          /\ (Async.k_queue t = [] ->
              Async.d_files (Async.a_disk m) !! n = Some (Async.k_sha256Digester t)))
    /\ (renamed t ->
        exists (j : nat) (tj : Async.Task),
          Async.a_tasks m !! j = Some tj
          /\ Sha256.hex (Async.k_sha256Digester tj) = Sha256.hex c
          /\ Async.read (Async.a_disk m)
               (blob_file (mkdtemp "image2dat_dest_" random2) name (Sha256.hex c))
             = Some (take (Async.k_written tj) (Async.k_sha256Digester tj))).
Proof.
  intros Hnd Hfresh i t l c m Hi Hl Hc.
  destruct (async_run_inv name (mkdtemp "image2dat_dest_" random2)
              (mkdtemp "image2dat_src_" random1) d0 whwm layers Hnd events _
              (async_launch_ACore name (mkdtemp "image2dat_dest_" random2)
                 (mkdtemp "image2dat_src_" random1) d0 hwm layers)
              (async_launch_AFiles name (mkdtemp "image2dat_dest_" random2)
                 (mkdtemp "image2dat_src_" random1) d0 layers hwm Hfresh))
    as [[_ Hall] [_ HF]].
  fold m in Hall, HF.
  destruct (Hall _ _ Hi) as (l' & Hl' & _ & _ & T3 & T4 & [_ T5] & _).
  assert (l' = l) as -> by congruence.
  pose proof (HF _ _ Hi) as Ft.
  unfold source_of in T4. rewrite Hc in T4. unfold stream_ok in T4.
  assert (Hpre : (exists rest : list byte, c = Async.k_sha256Digester t ++ rest)
                 /\ (Async.k_status t <> Async.Streaming -> Async.k_sha256Digester t = c)).
  { destruct (Async.k_status t) as [|sha|sha o| |e].
    - destruct T4 as (_ & cs & _ & Hcs). split; [|congruence]. eauto.
    - destruct T4 as (_ & [= ->] & _). split; [exists []; symmetry; apply app_nil_r|auto].
    - destruct T4 as (_ & [= ->] & _). split; [exists []; symmetry; apply app_nil_r|auto].
    - destruct T4 as (_ & [= ->]). split; [exists []; symmetry; apply app_nil_r|auto].
    - injection T4 as ->. split; [exists []; symmetry; apply app_nil_r|auto]. }
  destruct Hpre as [Hrest Hwhole].
  split; [exact Hrest|]. split; [exact Hwhole|].
  split; [rewrite <- T5; apply take_drop|].
  rewrite <- T3. unfold file_ok in Ft. unfold Async.read. split; [|split].
  - intros Efd. rewrite Efd in Ft. destruct Ft as (Hn & Hw & _). rewrite Hn. auto.
  - intros n Efd. rewrite Efd in Ft. destruct Ft as [Hf Hs]. split; [exact Hf|]. split.
    + intros [Hst|[sha Hst]]; rewrite Hst in Hs; rewrite Hs; exact Hf.
    + intros Hq. rewrite Hf. f_equal. rewrite Hq in T5. cbn in T5.
      rewrite <- (take_drop (Async.k_written t) (Async.k_sha256Digester t)) at 2.
      rewrite T5. symmetry. apply app_nil_r.
  - intros Hr.
    assert (Hd : Async.k_sha256Digester t = c).
    { apply Hwhole. intros E. unfold renamed in Hr. rewrite E in Hr. exact Hr. }
    assert (Hb : blob_held name (mkdtemp "image2dat_dest_" random2) (Async.a_disk m)
                   (Async.a_tasks m) (Sha256.hex (Async.k_sha256Digester t))).
    { destruct (Async.k_fd t) as [n|]; [|destruct Ft as (_ & _ & H); destruct (H Hr)].
      destruct Ft as [_ Hs]. unfold renamed in Hr.
      destruct (Async.k_status t) as [|sha|sha [e|]| |e]; try destruct Hr; apply Hs. }
    rewrite Hd in Hb. destruct Hb as (j & tj & nj & Hj & Fj & _ & Nj & Dj).
    exists j, tj. split; [exact Hj|]. split; [exact Dj|]. rewrite Nj.
    pose proof (HF _ _ Hj) as Fjt. unfold file_ok in Fjt. rewrite Fj in Fjt.
    apply Fjt.
Qed.

Lemma temp_file_follows_hash_witness :
  NoDup ((fun l => destTempFile_of l (mkdtemp "image2dat_dest_" "B")) <$> ["l1/layer.tar"])
  /\ (forall l, l ∈ ["l1/layer.tar"] ->
                Async.d_names async_disk !! destTempFile_of l (mkdtemp "image2dat_dest_" "B")
                = None)
  /\ exists t : Async.Task,
       Async.a_tasks
         (Async.run_events 16384
            [Async.Opened 0; Async.Source 0; Async.Written 0; Async.Source 0]
            (Async.copyOtherLayers 1 "app" ["l1/layer.tar"] (mkdtemp "image2dat_src_" "A")
               (mkdtemp "image2dat_dest_" "B") async_disk)) !! 0 = Some t
       /\ Async.k_fd t = Some 2
       /\ Async.k_sha256Digester t = list_byte_of_string "abc"
       /\ Async.k_written t = 2
       /\ Async.k_queue t = [list_byte_of_string "c"]
       /\ Async.d_files
            (Async.a_disk
               (Async.run_events 16384
                  [Async.Opened 0; Async.Source 0; Async.Written 0; Async.Source 0]
                  (Async.copyOtherLayers 1 "app" ["l1/layer.tar"]
                     (mkdtemp "image2dat_src_" "A") (mkdtemp "image2dat_dest_" "B")
                     async_disk))) !! 2
          = Some (take (Async.k_written t) (Async.k_sha256Digester t)).
Proof.
  assert (Hnd : NoDup ((fun l => destTempFile_of l (mkdtemp "image2dat_dest_" "B"))
                         <$> ["l1/layer.tar"])).
  { apply (bool_decide_unpack _). vm_compute. reflexivity. }
  assert (Hfresh : forall l, l ∈ ["l1/layer.tar"] ->
                             Async.d_names async_disk
                               !! destTempFile_of l (mkdtemp "image2dat_dest_" "B") = None).
  { intros l Hl. apply list_elem_of_singleton in Hl. subst l. vm_compute. reflexivity. }
  split; [exact Hnd|]. split; [exact Hfresh|].
  assert (Ht : exists t : Async.Task,
             Async.a_tasks
               (Async.run_events 16384
                  [Async.Opened 0; Async.Source 0; Async.Written 0; Async.Source 0]
                  (Async.copyOtherLayers 1 "app" ["l1/layer.tar"]
                     (mkdtemp "image2dat_src_" "A") (mkdtemp "image2dat_dest_" "B")
                     async_disk)) !! 0 = Some t
             /\ Async.k_fd t = Some 2
             /\ Async.k_sha256Digester t = list_byte_of_string "abc"
             /\ Async.k_written t = 2
             /\ Async.k_queue t = [list_byte_of_string "c"]).
  { eexists. split; [vm_compute; reflexivity|]. repeat split; vm_compute; reflexivity. }
  destruct Ht as (t & Hi & Hfd & Hd & Hw & Hq).
  exists t. split; [exact Hi|]. split; [exact Hfd|]. split; [exact Hd|].
  split; [exact Hw|]. split; [exact Hq|].
  assert (Hc : Async.read async_disk (mkdtemp "image2dat_src_" "A" +:+ "/" +:+ "l1/layer.tar")
               = Some (list_byte_of_string "abc")) by (vm_compute; reflexivity).
  exact (proj1 (proj1 (proj2 (proj2 (proj2 (proj2
           (temp_file_follows_hash 1 16384 "A" "B" "app" ["l1/layer.tar"] async_disk _
              Hnd Hfresh 0 t "l1/layer.tar" (list_byte_of_string "abc") Hi eq_refl Hc)))))
           2 Hfd)).
Defined.

(** ** Every layer is resolved in the end *)

(** A stream delivers at most one chunk per byte. *)
Lemma chunks_length (fuel size : nat) (bs : list byte) :
  List.length (chunks fuel size bs) <= List.length bs.
Proof.
  revert bs. induction fuel as [|fuel IH]; intros bs.
  - cbn. lia.
  - destruct bs as [|b bs]; [cbn; lia|].
    cbn [chunks List.length]. specialize (IH (drop (S size) (b :: bs))).
    rewrite length_drop in IH. cbn [List.length] in IH. lia.
Qed.

Lemma join_not_rejected (m : Machine) :
  (forall e, m_result m <> Rejected e) -> forall e, m_result (join m) <> Rejected e.
Proof.
  intros H e. unfold join. destruct (m_result m) as [|p|e0] eqn:Hres.
  - destruct (forallb is_resolved (m_tasks m)); [|rewrite Hres; discriminate].
    destruct (writeManifest_fs m) as (text & _ & ->). cbn. discriminate.
  - rewrite Hres. discriminate.
  - destruct (H e0). reflexivity.
Qed.

Lemma join_Live (m : Machine) :
  m_uncaught m = None ->
  (forall e, m_result m <> Rejected e) ->
  (forall i t, m_tasks m !! i = Some t -> forall e, t_status t <> Faulted e) ->
  Live (join m).
Proof.
  intros Hu Hnr Hnf. unfold Live.
  split; [rewrite join_uncaught; exact Hu|].
  split; [apply join_not_rejected; exact Hnr|].
  split; [rewrite join_tasks; exact Hnf|].
  intros Hall. pose proof (join_joined m Hall) as Hp.
  pose proof (join_not_rejected m Hnr) as Hr.
  destruct (m_result (join m)) as [|p|e]; [destruct Hp; reflexivity | eauto |].
  destruct (Hr e). reflexivity.
Qed.

Lemma events_left_insert (tasks : list LayerTask) (i : nat) (t t' : LayerTask) :
  tasks !! i = Some t -> events_left t' = pred (events_left t) ->
  forall j tj, tasks !! j = Some tj ->
    exists tj', <[i := t']> tasks !! j = Some tj'
                /\ events_left tj'
                   = if decide (j = i) then pred (events_left tj) else events_left tj.
Proof.
  intros Hi He j tj Hj. destruct (decide (j = i)) as [->|Hne].
  - exists t'. rewrite list_lookup_insert_eq by (eapply lookup_lt_Some; eauto).
    split; [reflexivity|]. congruence.
  - exists tj. rewrite list_lookup_insert_ne by congruence. auto.
Qed.

Lemma no_fault_insert (tasks : list LayerTask) (i : nat) (t' : LayerTask) :
  (forall j t, tasks !! j = Some t -> forall e, t_status t <> Faulted e) ->
  (forall e, t_status t' <> Faulted e) ->
  forall j t, <[i := t']> tasks !! j = Some t -> forall e, t_status t <> Faulted e.
Proof.
  intros H Ht' j t Hj.
  apply list_lookup_insert_Some in Hj as [(_ & <- & _)|[_ Hj]];
    [exact Ht' | exact (H _ _ Hj)].
Qed.

Lemma run_events_cons (i : nat) (schedule : list nat) (m : Machine) :
  run_events (i :: schedule) m = run_events schedule (step m i).
Proof. reflexivity. Qed.

Section Progress.

Variables (name dest : string) (manifest : list (string * JsVal)).
Variables (layers : list string) (srcs : list (option (list byte))).

Hypothesis Hread : forall i src, srcs !! i = Some src -> is_Some src.

(** When every layer can be read and no two layers share a temporary
    file, an event delivered to a layer takes it one step nearer to its
    resolution, and nothing goes wrong. *)
Lemma step_progress (m : Machine) (i : nat) :
  Core name dest manifest layers srcs m -> Content name dest m -> Live m ->
  Live (step m i)
  /\ forall j t, m_tasks m !! j = Some t ->
       exists t', m_tasks (step m i) !! j = Some t'
                  /\ events_left t'
                     = if decide (j = i) then pred (events_left t) else events_left t.
Proof.
  intros (Hn & Hd & Hm & HL & Hh & Ht & Hs & Hinv) HC HLive.
  pose proof HLive as (Hu & Hnr & Hnf & HJ).
  unfold step. rewrite Hu.
  destruct (m_tasks m !! i) as [t|] eqn:Ei.
  2:{ split; [exact HLive|]. intros j tj Hj. exists tj. split; [exact Hj|].
      destruct (decide (j = i)) as [->|]; [congruence | reflexivity]. }
  assert (Hidle : events_left t = 0 ->
            forall j tj, m_tasks m !! j = Some tj ->
              exists t', m_tasks m !! j = Some t'
                         /\ events_left t'
                            = if decide (j = i) then pred (events_left tj) else events_left tj).
  { intros E0 j tj Hj. exists tj. split; [exact Hj|].
    destruct (decide (j = i)) as [->|]; [|reflexivity].
    assert (tj = t) as -> by congruence. rewrite E0. reflexivity. }
  assert (Hlt : i < List.length (m_tasks m)) by (eapply lookup_lt_Some; exact Ei).
  destruct (Hinv _ _ Ei) as (l & src & Hl & Hsrc & (T1 & T2 & T3 & T4 & T5)).
  destruct (Hread _ _ Hsrc) as [c ->].
  pose proof (HC _ _ Ei) as Hti. unfold content_ok in Hti.
  destruct (t_status t) eqn:Est.
  - destruct T5 as (Hheap & cs & Hstream & Hcs). rewrite Hstream.
    destruct cs as [|c0 cs]; cbn [map app].
    + split.
      * unfold on_end, Live. cbn. split; [exact Hu|]. split; [exact Hnr|]. split.
        -- apply no_fault_insert; [exact Hnf | intros e; cbn; discriminate].
        -- rewrite forallb_insert_false; [discriminate | exact Hlt | reflexivity].
      * unfold on_end. cbn. apply (events_left_insert _ _ t); [exact Ei|].
        unfold events_left. cbn. rewrite Est, Hstream. reflexivity.
    + split.
      * unfold on_data, Live. cbn. split; [exact Hu|]. split; [exact Hnr|]. split.
        -- apply no_fault_insert; [exact Hnf | intros e; cbn; rewrite Est; discriminate].
        -- rewrite forallb_insert_false; [discriminate | exact Hlt |].
           unfold is_resolved. cbn. rewrite Est. reflexivity.
      * unfold on_data. cbn. apply (events_left_insert _ _ t); [exact Ei|].
        unfold events_left. cbn. rewrite Est, Hstream. cbn. lia.
  - destruct Hti as [Hfile _].
    rewrite on_renamed_eq by (rewrite (proj2 (proj2 T5)); apply hex_no_separator).
    rewrite Hfile. split.
    + apply join_Live; unfold resolved_machine; cbn; [exact Hu | exact Hnr |].
      apply no_fault_insert; [exact Hnf | intros e; cbn; discriminate].
    + rewrite join_tasks. unfold resolved_machine. cbn.
      apply (events_left_insert _ _ t); [exact Ei|].
      unfold events_left. cbn. rewrite Est. reflexivity.
  - split; [exact HLive|]. apply Hidle. unfold events_left. rewrite Est. reflexivity.
  - destruct (Hnf _ _ Ei e Est).
Qed.

(** Once every layer has been delivered the events it was waiting for,
    all of them are resolved. *)
Lemma run_events_resolves (schedule : list nat) (m : Machine) :
  Core name dest manifest layers srcs m ->
  NoDup ((fun l => destTempFile_of l dest) <$> layers) ->
  Content name dest m -> Live m ->
  (forall j t, m_tasks m !! j = Some t ->
               events_left t <= count_occ Nat.eq_dec schedule j) ->
  forallb is_resolved (m_tasks (run_events schedule m)) = true.
Proof.
  intros HCore Hnd. revert m HCore.
  induction schedule as [|i schedule IH]; intros m HCore HC HLive Hev.
  - cbn. apply forallb_forall. intros t Hin.
    apply list_elem_of_In, list_elem_of_lookup in Hin as [j Hj].
    specialize (Hev _ _ Hj). cbn in Hev.
    destruct HLive as (_ & _ & Hnf & _). specialize (Hnf _ _ Hj).
    unfold events_left in Hev. unfold is_resolved.
    destruct (t_status t) as [| | |e]; [lia | lia | reflexivity |].
    destruct (Hnf e). reflexivity.
  - rewrite run_events_cons.
    destruct (step_progress m i HCore HC HLive) as [HLive' Hprog].
    pose proof (step_Core _ _ _ _ _ _ i HCore) as HCore'.
    apply IH; [exact HCore' | eapply step_Content; eauto | exact HLive' |].
    intros j t' Hj.
    assert (Hlt : j < List.length (m_tasks m)).
    { destruct HCore as (_ & _ & _ & _ & _ & Ht & _).
      destruct HCore' as (_ & _ & _ & _ & _ & Ht' & _).
      rewrite Ht, <- Ht'. eapply lookup_lt_Some. exact Hj. }
    apply lookup_lt_is_Some in Hlt as [t Hjm].
    destruct (Hprog _ _ Hjm) as (t'' & Hj' & He).
    assert (t'' = t') as -> by congruence.
    specialize (Hev _ _ Hjm). cbn [count_occ] in Hev. rewrite He.
    destruct (decide (j = i)) as [->|Hne].
    + destruct (Nat.eq_dec i i); [lia | congruence].
    + destruct (Nat.eq_dec i j); [congruence | lia].
Qed.

End Progress.

Section LaunchStreams.

Variables (hwm : nat) (random1 random2 : string) (name : string)
          (manifest : list (string * JsVal)) (fs1 : gmap string (list byte)).

Let sourceDir : string := mkdtemp "image2dat_src_" random1.
Let dest : string := mkdtemp "image2dat_dest_" random2.

(** The stream of each layer is opened on the layer file as
    [copyRootLayer] left it. *)
Lemma copyOtherLayers_streams layers :
  forall i t,
    m_tasks (copyOtherLayers hwm sourceDir layers (m0 random2 name manifest fs1)) !! i
    = Some t ->
    exists l, layers !! i = Some l
              /\ t_status t = Streaming
              /\ t_sourceStream t = createReadStream hwm (sourceDir +:+ "/" +:+ l) fs1.
Proof.
  induction layers as [|l layers IH] using rev_ind.
  - intros i t Hi. discriminate.
  - destruct (copyOtherLayers_Core hwm random1 random2 name manifest fs1 layers)
      as [HC Honly].
    fold sourceDir dest in HC, Honly.
    unfold copyOtherLayers in *. rewrite foldl_snoc.
    set (m := foldl (launch hwm sourceDir) (m0 random2 name manifest fs1) layers) in *.
    destruct HC as (_ & _ & _ & _ & _ & Ht & _).
    unfold launch, compressLayer. cbn [m_tasks]. intros i t Hi.
    apply lookup_snoc_Some in Hi as [[Hlt Hi]|[-> <-]].
    + destruct (IH _ _ Hi) as (l' & Hl' & H). exists l'. split; [|exact H].
      apply lookup_app_l_Some. exact Hl'.
    + exists l. split; [|split; [reflexivity|]].
      * rewrite Ht. apply list_lookup_middle. reflexivity.
      * cbn [t_sourceStream]. unfold createReadStream, sourceDir.
        rewrite (Honly _ (source_not_temp random1 random2 l)). reflexivity.
Qed.

End LaunchStreams.



(** ** The manifest does not depend on the order of the events *)

Lemma contents_unique (fs : gmap string (list byte)) (dir : string)
    (layers : list string) (cs cs' : list (list byte)) :
  Forall2 (fun l c => fs !! (dir +:+ "/" +:+ l) = Some c) layers cs ->
  Forall2 (fun l c => fs !! (dir +:+ "/" +:+ l) = Some c) layers cs' ->
  cs = cs'.
Proof.
  intros H. revert cs'. induction H as [|l c layers cs Hc _ IH]; intros cs' H'.
  - inversion H'. reflexivity.
  - inversion H' as [|l' c' layers' cs'' Hc' Hrest]; subst.
    f_equal; [congruence | apply IH; exact Hrest].
Qed.

Lemma contents_same (fs fs' : gmap string (list byte)) (dir dir' : string)
    (layers : list string) (cs cs' : list (list byte)) :
  (forall l, l ∈ layers -> fs' !! (dir' +:+ "/" +:+ l) = fs !! (dir +:+ "/" +:+ l)) ->
  Forall2 (fun l c => fs !! (dir +:+ "/" +:+ l) = Some c) layers cs ->
  Forall2 (fun l c => fs' !! (dir' +:+ "/" +:+ l) = Some c) layers cs' ->
  cs = cs'.
Proof.
  intros Hsame H. revert cs'. induction H as [|l c layers cs Hc _ IH]; intros cs' H'.
  - inversion H'. reflexivity.
  - inversion H' as [|l' c' layers' cs'' Hc' Hrest]; subst.
    f_equal.
    + rewrite (Hsame l) in Hc' by left. congruence.
    + apply IH; [|exact Hrest]. intros l' Hl'. apply Hsame. right. exact Hl'.
Qed.



(** ** The text of the manifest *)

Lemma escape_plain (c : ascii) : plain c = true -> JSON.escape c = [c].
Proof.
  unfold plain, JSON.escape. intros H.
  apply andb_true_iff in H as [H H3]. apply andb_true_iff in H as [H1 H2].
  apply Z.leb_le in H1. apply negb_true_iff, Z.eqb_neq in H2.
  apply negb_true_iff, Z.eqb_neq in H3.
  cbv zeta.
  rewrite !(proj2 (Z.eqb_neq _ _)) by lia.
  rewrite (proj2 (Z.ltb_ge _ _)) by lia. reflexivity.
Qed.

(** A string of plain code units is written between two quotes. *)
Lemma quote_plain (s : string) :
  forallb plain (JsString.chars s) = true -> JSON.quote s = dquote +:+ s +:+ dquote.
Proof.
  intros H. unfold JSON.quote. fold dquote. f_equal. f_equal.
  rewrite <- (of_chars_chars s) at 2. unfold JsString.of_chars. f_equal.
  fold (JsString.chars s). induction (JsString.chars s) as [|c l IH]; [reflexivity|].
  cbn in H. apply andb_true_iff in H as [Hc Hl].
  cbn [flat_map]. rewrite (escape_plain c Hc), (IH Hl). reflexivity.
Qed.

Lemma lower_hex_plain (c : ascii) : lower_hex c = true -> plain c = true.
Proof.
  unfold lower_hex, plain, StringToNumber.is_digit. intros H.
  apply orb_true_iff in H as [H|H]; apply andb_true_iff in H as [H1 H2];
    apply Z.leb_le in H1; apply Z.leb_le in H2;
    rewrite (proj2 (Z.leb_le _ _)) by lia;
    rewrite !(proj2 (Z.eqb_neq _ _)) by lia; reflexivity.
Qed.

Lemma digest_plain (msg : list byte) :
  forallb plain (JsString.chars ("sha256:" +:+ Sha256.hex msg)) = true.
Proof.
  rewrite chars_app, forallb_app. apply andb_true_iff. split; [reflexivity|].
  pose proof (sha256_hex_format msg) as H. unfold is_sha256_hex in H.
  apply andb_true_iff in H as [_ H]. rewrite forallb_forall in H |- *.
  intros c Hc. apply lower_hex_plain, H, Hc.
Qed.

Lemma stringify_VObj (props : list (string * JsVal)) :
  JSON.stringify (VObj props)
  = Some ("{" +:+
          Js.join ","
            (flat_map (fun kv => match JSON.stringify (snd kv) with
                                 | Some t => [JSON.quote (fst kv) +:+ ":" +:+ t]
                                 | None => []
                                 end) props) +:+ "}").
Proof. reflexivity. Qed.

Lemma stringify_VArr (xs : list JsVal) :
  JSON.stringify (VArr xs)
  = Some ("[" +:+ Js.join "," (map (fun x => default "null" (JSON.stringify x)) xs) +:+ "]").
Proof. reflexivity. Qed.

Ltac same_chars :=
  apply app_chars_inj; rewrite ?chars_app; cbn [JsString.chars list_ascii_of_string app];
  repeat (progress (rewrite <- ?app_assoc; cbn [app])); reflexivity.

(** The descriptor of a layer, serialised: its [Size], which is
    [undefined], is left out. *)
Lemma stringify_descriptor (c : list byte) :
  JSON.stringify (VObj (descriptor c)) = Some (layer_text c).
Proof.
  rewrite stringify_VObj. unfold descriptor, layer_text.
  cbn [flat_map snd fst app JSON.stringify Js.join].
  rewrite (quote_plain _ (digest_plain c)).
  rewrite !quote_plain by reflexivity.
  f_equal; unfold dquote, LayerType; generalize (Sha256.hex c); intros h; same_chars.
Qed.

Lemma stringify_manifest (config : string) (contents : list (list byte)) :
  JSON.stringify
    (VObj [("SchemaVersion", VNum 2);
           ("MediaType", VStr ManifestType);
           ("Config", VObj [("MediaType", VStr ConfigType);
                            ("Digest", VStr ("sha256:" +:+ rootLayerSha config));
                            ("Size", VUndef)]);
           ("Layers", VArr ((fun c => VObj (descriptor c)) <$> contents))])
  = Some (manifest_text config contents).
Proof.
  assert (E : map (fun x => default "null" (JSON.stringify x))
                ((fun c => VObj (descriptor c)) <$> contents)
              = layer_text <$> contents).
  { change (map ?f ?l) with (f <$> l). rewrite <- list_fmap_compose.
    apply list_fmap_ext. intros i c _.
    change (default "null" (JSON.stringify (VObj (descriptor c))) = layer_text c).
    rewrite stringify_descriptor. reflexivity. }
  rewrite stringify_VObj. cbn [flat_map snd fst app].
  rewrite stringify_VArr, E, stringify_VObj.
  cbn [flat_map snd fst app JSON.stringify Js.join].
  rewrite !(quote_plain "SchemaVersion"), !(quote_plain "MediaType"),
    !(quote_plain "Config"), !(quote_plain "Digest"), !(quote_plain "Layers"),
    !(quote_plain ManifestType), !(quote_plain ConfigType) by reflexivity.
  f_equal; unfold manifest_text, dquote, ManifestType, ConfigType;
    generalize (JSON.quote ("sha256:" +:+ rootLayerSha config)); intros q;
    generalize (Js.join "," (layer_text <$> contents)); intros ls;
    change (Js.number_to_string 2) with "2"; same_chars.
Qed.

Lemma lower_hex_ascii7 (c : ascii) : lower_hex c = true -> ascii7 c = true.
Proof.
  unfold lower_hex, ascii7, StringToNumber.is_digit. intros H.
  apply orb_true_iff in H as [H|H]; apply andb_true_iff in H as [H1 H2];
    apply Z.leb_le in H1; apply Z.leb_le in H2; apply Z.ltb_lt; lia.
Qed.

Lemma digest_ascii7 (msg : list byte) :
  forallb ascii7 (JsString.chars ("sha256:" +:+ Sha256.hex msg)) = true.
Proof.
  rewrite chars_app, forallb_app. apply andb_true_iff. split; [reflexivity|].
  pose proof (sha256_hex_format msg) as H. unfold is_sha256_hex in H.
  apply andb_true_iff in H as [_ H]. rewrite forallb_forall in H |- *.
  intros c Hc. apply lower_hex_ascii7, H, Hc.
Qed.

(** The stem kept of the config file name is made of code units of the
    name. *)
Lemma rootLayerSha_ascii7 (config : string) :
  forallb ascii7 (JsString.chars config) = true ->
  forallb ascii7 (JsString.chars ("sha256:" +:+ rootLayerSha config)) = true.
Proof.
  intros H. rewrite chars_app, forallb_app. apply andb_true_iff. split; [reflexivity|].
  rewrite forallb_forall in H |- *. intros c Hc. apply H.
  unfold rootLayerSha, JsString.substr, JsString.slice in Hc.
  rewrite chars_of_chars in Hc.
  apply list_elem_of_In in Hc. apply list_elem_of_In.
  eapply subseteq_take, subseteq_drop in Hc. exact Hc.
Qed.

(** The text of the manifest of a config file named in ASCII is in
    ASCII. *)
Lemma escape_ascii7 (c : ascii) :
  ascii7 c = true -> forallb ascii7 (JSON.escape c) = true.
Proof.
  intros H. destruct c as [b0 b1 b2 b3 b4 b5 b6 b7].
  destruct b7, b0, b1, b2, b3, b4, b5, b6;
    first [ reflexivity | vm_compute in H; discriminate H ].
Qed.

Lemma quote_ascii7 (s : string) :
  forallb ascii7 (JsString.chars s) = true ->
  forallb ascii7 (JsString.chars (JSON.quote s)) = true.
Proof.
  intros H. unfold JSON.quote. rewrite !chars_app, chars_of_chars, !forallb_app.
  apply andb_true_iff. split; [reflexivity|].
  apply andb_true_iff. split; [|reflexivity].
  fold (JsString.chars s). revert H. generalize (JsString.chars s). intros l.
  induction l as [|c l IH]; intros H; [reflexivity|].
  cbn [forallb] in H. apply andb_true_iff in H as [Hc Hl].
  cbn [flat_map]. rewrite forallb_app, (escape_ascii7 c Hc). exact (IH Hl).
Qed.

Lemma layer_text_ascii7 (c : list byte) :
  forallb ascii7 (JsString.chars (layer_text c)) = true.
Proof.
  pose proof (digest_ascii7 c) as H. rewrite chars_app, forallb_app in H.
  apply andb_true_iff in H as [_ H].
  unfold layer_text, dquote, LayerType. rewrite !chars_app, !forallb_app, H. reflexivity.
Qed.

Lemma join_ascii7 (l : list string) :
  Forall (fun x => forallb ascii7 (JsString.chars x) = true) l ->
  forallb ascii7 (JsString.chars (Js.join "," l)) = true.
Proof.
  induction 1 as [|x l Hx Hl IH]; [reflexivity|].
  destruct l as [|y l]; [exact Hx|].
  change (Js.join "," (x :: y :: l)) with (x +:+ "," +:+ Js.join "," (y :: l)).
  rewrite !chars_app, !forallb_app, Hx, IH. reflexivity.
Qed.

Lemma manifest_text_ascii7 (config : string) (contents : list (list byte)) :
  forallb ascii7 (JsString.chars config) = true ->
  forallb ascii7 (JsString.chars (manifest_text config contents)) = true.
Proof.
  intros H. unfold manifest_text, dquote, ManifestType, ConfigType.
  rewrite !chars_app, !forallb_app.
  rewrite (quote_ascii7 _ (rootLayerSha_ascii7 _ H)).
  rewrite join_ascii7; [reflexivity|].
  apply Forall_fmap, Forall_forall. intros c _. apply layer_text_ascii7.
Qed.

(** The text written by a fulfilled run. *)
Lemma fulfilled_manifest_text (hwm : nat) (random1 random2 image : string)
    (sm : SourceManifest) (fs : gmap string (list byte)) (schedule : list nat)
    (path : string) :
  m_result (run_events schedule (run hwm random1 random2 image sm fs)) = Fulfilled path ->
  exists contents : list (list byte),
    Forall2 (fun l c => fs !! (mkdtemp "image2dat_src_" random1 +:+ "/" +:+ l) = Some c)
            (Layers sm) contents
    /\ m_fs (run_events schedule (run hwm random1 random2 image sm fs))
         !! manifest_file (mkdtemp "image2dat_dest_" random2) image
       = Some (Fs.utf8 (manifest_text (Config sm) contents)).
Proof.
  intros Hres.
  assert (Hnr : forall e, m_result (run_events schedule (run hwm random1 random2 image sm fs))
                          <> Rejected e) by (intros e; rewrite Hres; discriminate).
  destruct (not_rejected_started hwm random1 random2 image sm fs schedule (or_introl Hnr))
    as (name & manifest & fs1 & H1 & H2).
  destruct (simplifyName_Normal _ _ H1) as [-> _].
  destruct (started_fields hwm random1 random2 image sm fs image manifest fs1 H1 H2 schedule)
    as [Hn _].
  destruct (fulfilled_manifest hwm random1 random2 image sm fs schedule _ Hres)
    as (cs & Hcs & Hman & text & Htext & Hfile).
  exists cs. split; [exact Hcs|].
  rewrite Hn in Hfile. rewrite Hfile. do 2 f_equal.
  rewrite Hman, stringify_manifest in Htext. congruence.
Qed.



(** * The head of [run]: reading the bundle *)

(** ** [JSON.parse] on examples *)

Example parse_examples :
  JsonParser.parse repositories_text
  = Value (JObj [("app", JObj [("latest", JStr "l2")])])
  /\ JsonParser.parse (manifest_json_text "abcd.json" (JStr "l1/layer.tar") JNull)
     = Value (JArr [JObj [("Config", JStr "abcd.json");
                          ("RepoTags", JArr [JStr "app:latest"]);
                          ("Layers", JArr [JStr "l1/layer.tar"; JNull])]])
  /\ JsonParser.parse " [1, -0.5e+3 ,true,false , null] "
     = Value (JArr [JNum "1"; JNum "-0.5e+3"; JBool true; JBool false; JNull])
  /\ JsonParser.parse ("{" +:+ quoted "a" +:+ ":1," +:+ quoted "b" +:+ ":2,"
                       +:+ quoted "a" +:+ ":3}")
     = Value (JObj [("a", JNum "3"); ("b", JNum "2")])
  /\ JsonParser.parse (quoted "aA\n\/") = Value (JStr ("aA" +:+ String (ascii_of_nat 10) "/"))
  /\ JsonParser.parse "" = ThrewSyntaxError
  /\ JsonParser.parse "[1,]" = ThrewSyntaxError
  /\ JsonParser.parse "01" = ThrewSyntaxError
  /\ JsonParser.parse "{} x" = ThrewSyntaxError
  /\ JsonParser.parse (quoted (String (ascii_of_nat 200) "")) = NotModelled.
Proof. vm_compute. repeat split; reflexivity. Qed.

Example keys_examples :
  JsonOps.keys (JObj [("b", JNull); ("10", JNull); ("a", JNull); ("9", JNull); ("01", JNull)])
  = Normal ["9"; "10"; "b"; "a"; "01"]
  /\ JsonOps.keys (JArr [JNull; JNull]) = Normal ["0"; "1"]
  /\ JsonOps.keys (JObj []) = Normal []
  /\ JsonOps.keys JNull = Throw (TypeError "Cannot convert undefined or null to object").
Proof. vm_compute. repeat split; reflexivity. Qed.

(** ** A well-formed bundle *)

Lemma launch_json_strings (hwm : nat) (sourceDir : string) (layers : list string)
    (m : Machine) :
  foldl (launch_json hwm sourceDir) (m, None) (JStr <$> layers)
  = (foldl (launch hwm sourceDir) m layers, None).
Proof.
  revert m. induction layers as [|l layers IH]; intros m; [reflexivity|].
  cbn [fmap list_fmap foldl]. rewrite <- IH. reflexivity.
Qed.

(** X15.  [run] takes the image reference from the first key of
    [repositories] (in the order of [Object.keys]) and the config and the
    layers from the first entry of [manifest.json]; the other keys, the
    other entries and the other properties of the first entry are not
    looked at.  On a bundle whose first entry has a string [Config] and an
    array of strings [Layers], the run is the one of that reference and
    that entry. *)
Theorem bundle_run_is_run (hwm : nat) (random1 random2 : string)
    (fs : gmap string (list byte)) (repositories : Json) (image : string)
    (other_images : list string) (entry : list (string * Json))
    (other_entries : list Json) (config : string) (layers : list string) :
  parseRepositories (mkdtemp "image2dat_src_" random1) fs = Value repositories ->
  JsonOps.keys repositories = Normal (image :: other_images) ->
  parseManifest (mkdtemp "image2dat_src_" random1) fs
  = Value (JArr (JObj entry :: other_entries)) ->
  JsonOps.lookup_own entry "Config" = Some (JStr config) ->
  JsonOps.lookup_own entry "Layers" = Some (JArr (JStr <$> layers)) ->
  run_bundle hwm random1 random2 fs
  = Ran (run hwm random1 random2 image (mkSourceManifest config layers) fs).
Proof.
  intros Hrepo Hkeys Hman Hconfig Hlayers.
  unfold run_bundle, run. rewrite Hrepo, Hkeys. cbn [head].
  destruct (simplifyName image) as [name|e]; [|reflexivity].
  rewrite Hman. cbn [JsonOps.first head JsonOps.named]. rewrite Hconfig, Hlayers.
  change (copyRootLayer (mkSourceManifest config []) name
            (mkdtemp "image2dat_src_" random1) (mkdtemp "image2dat_dest_" random2) fs)
    with (copyRootLayer (mkSourceManifest config layers) name
            (mkdtemp "image2dat_src_" random1) (mkdtemp "image2dat_dest_" random2) fs).
  destruct (copyRootLayer (mkSourceManifest config layers) name
              (mkdtemp "image2dat_src_" random1) (mkdtemp "image2dat_dest_" random2) fs)
    as [[manifest fs']|e]; [|reflexivity].
  rewrite launch_json_strings. reflexivity.
Qed.

Lemma bundle_run_is_run_witness :
  (parseRepositories (mkdtemp "image2dat_src_" "A") bundle_fs
   = Value (JObj [("app", JObj [("latest", JStr "l2")])])
   /\ JsonOps.keys (JObj [("app", JObj [("latest", JStr "l2")])]) = Normal ["app"]
   /\ parseManifest (mkdtemp "image2dat_src_" "A") bundle_fs
      = Value (JArr [JObj [("Config", JStr "abcd.json");
                           ("RepoTags", JArr [JStr "app:latest"]);
                           ("Layers", JArr (JStr <$> ["l1/layer.tar"; "l2/layer.tar"]))]]))
  /\ run_bundle 1 "A" "B" bundle_fs
     = Ran (run 1 "A" "B" "app"
              (mkSourceManifest "abcd.json" ["l1/layer.tar"; "l2/layer.tar"]) bundle_fs).
Proof.
  assert (H1 : parseRepositories (mkdtemp "image2dat_src_" "A") bundle_fs
               = Value (JObj [("app", JObj [("latest", JStr "l2")])]))
    by (vm_compute; reflexivity).
  assert (H2 : JsonOps.keys (JObj [("app", JObj [("latest", JStr "l2")])]) = Normal ["app"])
    by (vm_compute; reflexivity).
  assert (H3 : parseManifest (mkdtemp "image2dat_src_" "A") bundle_fs
               = Value (JArr [JObj [("Config", JStr "abcd.json");
                                    ("RepoTags", JArr [JStr "app:latest"]);
                                    ("Layers",
                                     JArr (JStr <$> ["l1/layer.tar"; "l2/layer.tar"]))]]))
    by (vm_compute; reflexivity).
  split; [split; [exact H1|split; [exact H2 | exact H3]]|].
  exact (bundle_run_is_run 1 "A" "B" bundle_fs _ "app" [] _ [] "abcd.json"
           ["l1/layer.tar"; "l2/layer.tar"] H1 H2 H3 eq_refl eq_refl).
Defined.

(** ** A bundle that cannot be read *)

(** X16.  [run] reads [repositories] first: when that file is missing,
    the promise is rejected with the [ENOENT] of [readFile] and nothing
    else happens.  The image reference is normalised before
    [manifest.json] is read: a reference with a separator rejects with the
    [ReferenceError] of [simplifyName] whatever [manifest.json] holds, and
    otherwise a missing [manifest.json] rejects with its [ENOENT].  In all
    three cases no file is moved or written and no layer is started. *)
Theorem unreadable_metadata_rejects (hwm : nat) (random1 random2 : string)
    (fs : gmap string (list byte)) :
  (fs !! (mkdtemp "image2dat_src_" random1 +:+ "/" +:+ "repositories") = None ->
   exists m, run_bundle hwm random1 random2 fs = Ran m
             /\ m_result m
                = Rejected (SystemError "ENOENT" "open"
                              (mkdtemp "image2dat_src_" random1 +:+ "/" +:+ "repositories"))
             /\ m_fs m = fs /\ m_tasks m = [])
  /\ (forall (repositories : Json) (image : string) (others : list string),
        parseRepositories (mkdtemp "image2dat_src_" random1) fs = Value repositories ->
        JsonOps.keys repositories = Normal (image :: others) ->
        (JsString.contains image "/" ->
         exists m, run_bundle hwm random1 random2 fs = Ran m
                   /\ m_result m = Rejected (ReferenceError "content")
                   /\ m_fs m = fs /\ m_tasks m = [])
        /\ (~ JsString.contains image "/" ->
            fs !! (mkdtemp "image2dat_src_" random1 +:+ "/" +:+ "manifest.json") = None ->
            exists m, run_bundle hwm random1 random2 fs = Ran m
                      /\ m_result m
                         = Rejected (SystemError "ENOENT" "open"
                                       (mkdtemp "image2dat_src_" random1 +:+ "/"
                                        +:+ "manifest.json"))
                      /\ m_fs m = fs /\ m_tasks m = [])).
Proof.
  split.
  - intros Hmissing. unfold run_bundle, parseRepositories, parseJsonFromFile, readFile.
    rewrite Hmissing. eexists. split; [reflexivity|]. repeat split; reflexivity.
  - intros repositories image others Hrepo Hkeys. split.
    + intros Hsep. unfold run_bundle. rewrite Hrepo, Hkeys. cbn [head].
      rewrite simplifyName_spec.
      destruct (JsString.lastIndexOf image "/" <? 0)%Z eqn:E.
      { apply lastIndexOf_char_neg in E. contradiction. }
      eexists. split; [reflexivity|]. repeat split; reflexivity.
    + intros Hsep Hmissing. unfold run_bundle. rewrite Hrepo, Hkeys. cbn [head].
      rewrite simplifyName_spec, (proj2 (lastIndexOf_char_neg image "/") Hsep).
      unfold parseManifest, parseJsonFromFile, readFile. rewrite Hmissing.
      eexists. split; [reflexivity|]. repeat split; reflexivity.
Qed.

Lemma unreadable_metadata_rejects_witness :
  example_fs !! (mkdtemp "image2dat_src_" "A" +:+ "/" +:+ "repositories") = None
  /\ exists m, run_bundle 1 "A" "B" example_fs = Ran m
               /\ m_result m
                  = Rejected (SystemError "ENOENT" "open"
                                (mkdtemp "image2dat_src_" "A" +:+ "/" +:+ "repositories"))
               /\ m_fs m = example_fs /\ m_tasks m = [].
Proof.
  assert (H : example_fs !! (mkdtemp "image2dat_src_" "A" +:+ "/" +:+ "repositories") = None)
    by (vm_compute; reflexivity).
  split; [exact H|].
  exact (proj1 (unreadable_metadata_rejects 1 "A" "B" example_fs) H).
Defined.

(** X17.  An index without keys (as [{}]) leaves the image reference
    [undefined], on which [simplifyName] throws a [TypeError]; a manifest
    list without first entry (as [[]]) leaves [firstManifest] [undefined], on
    which [copyRootLayer] throws a [TypeError]; so does a first entry whose
    [Config] is not a string.  In each case [run] is rejected with that
    error and no file is moved or written. *)
Theorem empty_metadata_rejects (hwm : nat) (random1 random2 : string)
    (fs : gmap string (list byte)) (repositories : Json) :
  parseRepositories (mkdtemp "image2dat_src_" random1) fs = Value repositories ->
  (JsonOps.keys repositories = Normal [] ->
   exists m msg, run_bundle hwm random1 random2 fs = Ran m
                 /\ m_result m = Rejected (TypeError msg)
                 /\ m_fs m = fs /\ m_tasks m = [])
  /\ (forall (image : string) (others : list string) (sourceManifest : Json)
             (firstManifest : option Json),
        JsonOps.keys repositories = Normal (image :: others) ->
        ~ JsString.contains image "/" ->
        parseManifest (mkdtemp "image2dat_src_" random1) fs = Value sourceManifest ->
        JsonOps.first sourceManifest = Normal firstManifest ->
        (forall config : string,
            JsonOps.named firstManifest "Config" <> Normal (Some (JStr config))) ->
        exists m msg, run_bundle hwm random1 random2 fs = Ran m
                      /\ m_result m = Rejected (TypeError msg)
                      /\ m_fs m = fs /\ m_tasks m = []).
Proof.
  intros Hrepo. split.
  - intros Hkeys. unfold run_bundle. rewrite Hrepo, Hkeys. cbn [head].
    eexists _, _. split; [reflexivity|]. repeat split; reflexivity.
  - intros image others sourceManifest firstManifest Hkeys Hsep Hman Hfirst Hconfig.
    unfold run_bundle. rewrite Hrepo, Hkeys. cbn [head].
    rewrite simplifyName_spec, (proj2 (lastIndexOf_char_neg image "/") Hsep).
    rewrite Hman, Hfirst.
    destruct firstManifest as [[| | | |xs|props]|]; cbn [JsonOps.named];
      try (eexists _, _; split; [reflexivity|]; repeat split; reflexivity).
    cbn [JsonOps.named] in Hconfig.
    destruct (JsonOps.lookup_own props "Config") as [[| | |config| |]|];
      try (eexists _, _; split; [reflexivity|]; repeat split; reflexivity).
    destruct (Hconfig config). reflexivity.
Qed.

Lemma empty_metadata_rejects_witness :
  (parseRepositories (mkdtemp "image2dat_src_" "A") empty_index_fs = Value (JObj [])
   /\ JsonOps.keys (JObj []) = Normal []
   /\ exists m msg, run_bundle 1 "A" "B" empty_index_fs = Ran m
                    /\ m_result m = Rejected (TypeError msg)
                    /\ m_fs m = empty_index_fs /\ m_tasks m = [])
  /\ (parseRepositories (mkdtemp "image2dat_src_" "A") empty_list_fs
      = Value (JObj [("app", JObj [("latest", JStr "l2")])])
      /\ parseManifest (mkdtemp "image2dat_src_" "A") empty_list_fs = Value (JArr [])
      /\ exists m msg, run_bundle 1 "A" "B" empty_list_fs = Ran m
                       /\ m_result m = Rejected (TypeError msg)
                       /\ m_fs m = empty_list_fs /\ m_tasks m = []).
Proof.
  assert (H1 : parseRepositories (mkdtemp "image2dat_src_" "A") empty_index_fs
               = Value (JObj [])) by (vm_compute; reflexivity).
  assert (H2 : parseRepositories (mkdtemp "image2dat_src_" "A") empty_list_fs
               = Value (JObj [("app", JObj [("latest", JStr "l2")])]))
    by (vm_compute; reflexivity).
  assert (H3 : parseManifest (mkdtemp "image2dat_src_" "A") empty_list_fs = Value (JArr []))
    by (vm_compute; reflexivity).
  assert (Hsep : ~ JsString.contains "app" "/") by (vm_compute; intuition discriminate).
  split.
  - split; [exact H1|]. split; [reflexivity|].
    exact (proj1 (empty_metadata_rejects 1 "A" "B" empty_index_fs _ H1) eq_refl).
  - split; [exact H2|]. split; [exact H3|].
    refine (proj2 (empty_metadata_rejects 1 "A" "B" empty_list_fs _ H2)
              "app" [] (JArr []) None eq_refl Hsep H3 eq_refl _).
    intros config. discriminate.
Defined.

(** ** An entry without usable layers *)

(** X18.  When the first entry has a [Config] whose file exists and whose
    digest has no separator (so that [copyRootLayer] succeeds), but its
    [Layers] is not an array (absent, for one), [run] is rejected with the
    [TypeError] of [layers.map] after [copyRootLayer] has moved the config
    file: the file is at its blob path and no longer in the source
    directory, no layer is started, no event changes anything and no
    manifest is written. *)
Theorem layers_not_an_array_rejects (hwm : nat) (random1 random2 : string)
    (fs : gmap string (list byte)) (repositories : Json) (image : string)
    (others : list string) (entry : list (string * Json)) (other_entries : list Json)
    (config : string) (c : list byte) :
  parseRepositories (mkdtemp "image2dat_src_" random1) fs = Value repositories ->
  JsonOps.keys repositories = Normal (image :: others) ->
  ~ JsString.contains image "/" ->
  parseManifest (mkdtemp "image2dat_src_" random1) fs
  = Value (JArr (JObj entry :: other_entries)) ->
  JsonOps.lookup_own entry "Config" = Some (JStr config) ->
  ~ JsString.contains (rootLayerSha config) "/" ->
  fs !! (mkdtemp "image2dat_src_" random1 +:+ "/" +:+ config) = Some c ->
  (forall layers : list Json, JsonOps.lookup_own entry "Layers" <> Some (JArr layers)) ->
  exists m msg,
    run_bundle hwm random1 random2 fs = Ran m
    /\ m_result m = Rejected (TypeError msg)
    /\ m_tasks m = []
    /\ m_fs m !! (mkdtemp "image2dat_src_" random1 +:+ "/" +:+ config) = None
    /\ m_fs m !! blob_file (mkdtemp "image2dat_dest_" random2) image (rootLayerSha config)
       = Some c
    /\ m_fs m !! manifest_file (mkdtemp "image2dat_dest_" random2) image
       = fs !! manifest_file (mkdtemp "image2dat_dest_" random2) image
    /\ forall schedule : list nat, run_events schedule m = m.
Proof.
  intros Hrepo Hkeys Hsep Hman Hconfig Hdigest Hc Hlayers.
  unfold run_bundle. rewrite Hrepo, Hkeys. cbn [head].
  rewrite simplifyName_spec, (proj2 (lastIndexOf_char_neg image "/") Hsep).
  rewrite Hman. cbn [JsonOps.first head JsonOps.named]. rewrite Hconfig.
  destruct (copyRootLayer (mkSourceManifest config []) image
              (mkdtemp "image2dat_src_" random1) (mkdtemp "image2dat_dest_" random2) fs)
    as [[manifest fs']|e] eqn:Hroot.
  2:{ unfold copyRootLayer in Hroot. cbn [Config] in Hroot.
      rewrite rename_blob in Hroot by exact Hdigest.
      rewrite Hc in Hroot. discriminate. }
  assert (Hsrc : mkdtemp "image2dat_src_" random1 +:+ "/"
                 +:+ Config (mkSourceManifest config [])
                 <> blob_file (mkdtemp "image2dat_dest_" random2) image
                      (rootLayerSha (Config (mkSourceManifest config []))))
    by (unfold blob_file; apply src_not_dest).
  pose proof (copyRootLayer_ok _ _ _ _ _ _ _ Hroot) as (c0 & Hc0 & Hfs' & _).
  cbn [Config] in Hc0, Hfs', Hsrc.
  assert (c0 = c) as -> by congruence.
  assert (Hfacts : fs' !! (mkdtemp "image2dat_src_" random1 +:+ "/" +:+ config) = None
                   /\ fs' !! blob_file (mkdtemp "image2dat_dest_" random2) image
                              (rootLayerSha config) = Some c
                   /\ fs' !! manifest_file (mkdtemp "image2dat_dest_" random2) image
                      = fs !! manifest_file (mkdtemp "image2dat_dest_" random2) image).
  { rewrite Hfs'. split; [|split].
    - rewrite lookup_insert_ne by congruence. apply lookup_delete_eq.
    - apply lookup_insert_eq.
    - rewrite lookup_insert_ne by apply blob_not_manifest.
      apply lookup_delete_ne. unfold manifest_file. apply src_not_dest. }
  destruct (JsonOps.lookup_own entry "Layers") as [[| | | |layers|]|];
    try (eexists _, _; split; [reflexivity|]; split; [reflexivity|];
         split; [reflexivity|]; cbn [m_fs with_result];
         split; [apply Hfacts|]; split; [apply Hfacts|]; split; [apply Hfacts|];
         intros schedule; apply run_events_no_tasks; reflexivity).
  destruct (Hlayers layers). reflexivity.
Qed.

Lemma layers_not_an_array_rejects_witness :
  (parseRepositories (mkdtemp "image2dat_src_" "A") no_layers_key_fs
   = Value (JObj [("app", JObj [("latest", JStr "l2")])])
   /\ parseManifest (mkdtemp "image2dat_src_" "A") no_layers_key_fs
      = Value (JArr [JObj [("Config", JStr "abcd.json")]]))
  /\ exists m msg,
       run_bundle 1 "A" "B" no_layers_key_fs = Ran m
       /\ m_result m = Rejected (TypeError msg)
       /\ m_tasks m = []
       /\ m_fs m !! (mkdtemp "image2dat_src_" "A" +:+ "/" +:+ "abcd.json") = None
       /\ m_fs m !! blob_file (mkdtemp "image2dat_dest_" "B") "app" (rootLayerSha "abcd.json")
          = Some (list_byte_of_string "{}").
Proof.
  assert (H1 : parseRepositories (mkdtemp "image2dat_src_" "A") no_layers_key_fs
               = Value (JObj [("app", JObj [("latest", JStr "l2")])]))
    by (vm_compute; reflexivity).
  assert (H2 : parseManifest (mkdtemp "image2dat_src_" "A") no_layers_key_fs
               = Value (JArr [JObj [("Config", JStr "abcd.json")]]))
    by (vm_compute; reflexivity).
  assert (Hsep : ~ JsString.contains "app" "/") by (vm_compute; intuition discriminate).
  assert (Hdigest : ~ JsString.contains (rootLayerSha "abcd.json") "/")
    by (vm_compute; intuition discriminate).
  assert (Hc : no_layers_key_fs !! (mkdtemp "image2dat_src_" "A" +:+ "/" +:+ "abcd.json")
               = Some (list_byte_of_string "{}")) by (vm_compute; reflexivity).
  split; [split; assumption|].
  destruct (layers_not_an_array_rejects 1 "A" "B" no_layers_key_fs _ "app" [] _ []
              "abcd.json" (list_byte_of_string "{}") H1 eq_refl Hsep H2 eq_refl Hdigest Hc)
    as (m & msg & Hrun & Hres & Htasks & Hgone & Hblob & _).
  { intros layers. discriminate. }
  exists m, msg. repeat (split; [assumption|]). exact Hblob.
Defined.

(** ** A layer entry that is not a string *)

Lemma join_rejected (m : Machine) (e : JsError) : m_result m = Rejected e -> join m = m.
Proof. intros H. unfold join. rewrite H. reflexivity. Qed.

Section BundlePaths.

Variables (name dest : string).

Lemma launch_paths (hwm : nat) (sourceDir : string) (m : Machine) (l : string) :
  task_paths dest name m ->
  task_paths dest name (launch hwm sourceDir m l)
  /\ m_fs (launch hwm sourceDir m l) !! manifest_file dest name
     = m_fs m !! manifest_file dest name
  /\ m_result (launch hwm sourceDir m l) = m_result m.
Proof.
  intros (Hn & Hd & Ht). unfold launch, compressLayer. cbn. split; [|split].
  - split; [exact Hn|]. split; [exact Hd|]. intros i t Hi.
    apply lookup_snoc_Some in Hi as [[_ Hi]|[_ <-]]; [exact (Ht _ _ Hi)|].
    cbn. rewrite Hn, Hd. split; [reflexivity|]. split; [reflexivity|]. eauto.
  - unfold Fs.createWriteStream. apply lookup_insert_ne. rewrite Hd.
    apply temp_not_manifest.
  - reflexivity.
Qed.

Lemma launch_json_paths (hwm : nat) (sourceDir : string)
    (st : Machine * option JsError) (l : Json) :
  task_paths dest name (fst st) ->
  task_paths dest name (fst (launch_json hwm sourceDir st l))
  /\ m_fs (fst (launch_json hwm sourceDir st l)) !! manifest_file dest name
     = m_fs (fst st) !! manifest_file dest name
  /\ m_result (fst (launch_json hwm sourceDir st l)) = m_result (fst st).
Proof.
  intros H. unfold launch_json.
  destruct (JsonOps.string_conversion_throws l); [cbn; auto|].
  destruct l; try (cbn; split; [exact H | auto]).
  cbn [fst]. apply launch_paths. exact H.
Qed.

Lemma launch_all_paths (hwm : nat) (sourceDir : string) (layers : list Json)
    (st : Machine * option JsError) :
  task_paths dest name (fst st) ->
  task_paths dest name (fst (foldl (launch_json hwm sourceDir) st layers))
  /\ m_fs (fst (foldl (launch_json hwm sourceDir) st layers)) !! manifest_file dest name
     = m_fs (fst st) !! manifest_file dest name
  /\ m_result (fst (foldl (launch_json hwm sourceDir) st layers)) = m_result (fst st).
Proof.
  revert st. induction layers as [|l layers IH]; intros st H; [cbn; auto|].
  cbn [foldl].
  destruct (launch_json_paths hwm sourceDir st l H) as (H1 & H2 & H3).
  destruct (IH _ H1) as (I1 & I2 & I3).
  split; [exact I1|]. split; congruence.
Qed.

(** Once [run] is rejected, the events of the layers that were started
    still move their files, but none writes the manifest. *)
Lemma step_after_rejection (m : Machine) (i : nat) (e : JsError) :
  task_paths dest name m -> m_result m = Rejected e ->
  task_paths dest name (step m i)
  /\ m_result (step m i) = Rejected e
  /\ m_fs (step m i) !! manifest_file dest name = m_fs m !! manifest_file dest name.
Proof.
  intros HP Hres. pose proof HP as (Hn & Hd & Ht).
  unfold step. destruct (m_uncaught m); [auto|].
  destruct (m_tasks m !! i) as [t|] eqn:Ei; [|auto].
  destruct (Ht _ _ Ei) as (T1 & T2 & l & T3).
  assert (Hlt : (i < List.length (m_tasks m))%nat) by (eapply lookup_lt_Some; exact Ei).
  assert (Hupd : forall t' fs',
             t_imageName t' = name -> t_destDir t' = dest ->
             t_destTempFile t' = destTempFile_of l dest ->
             task_paths dest name (with_tasks (<[i := t']> (m_tasks m)) (with_fs fs' m))).
  { intros t' fs' E1 E2 E3. split; [exact Hn|]. split; [exact Hd|]. cbn.
    intros j tj Hj.
    apply list_lookup_insert_Some in Hj as [(_ & <- & _)|[_ Hj]]; [|exact (Ht _ _ Hj)].
    split; [exact E1|]. split; [exact E2|]. eauto. }
  destruct (t_status t) eqn:Est; try auto.
  - destruct (t_sourceStream t) as [|[chunk| |e'] rest]; try auto.
    + unfold on_data. split; [|split].
      * apply Hupd; cbn; assumption.
      * exact Hres.
      * cbn. unfold Fs.write. apply lookup_alter_ne. rewrite T3. apply temp_not_manifest.
    + unfold on_end. split; [|split; [exact Hres | reflexivity]].
      apply (Hupd _ (m_fs m)); cbn; assumption.
  - destruct (in_dec ascii_dec "/"%char (JsString.chars sha)) as [Hin|Hno].
    { destruct (on_renamed_separator i t sha m Hin) as [e' ->].
      split; [|split; [exact Hres | reflexivity]].
      apply (Hupd _ (m_fs m)); cbn; assumption. }
    rewrite on_renamed_eq by exact Hno.
    destruct (m_fs m !! t_destTempFile t) as [c|].
    + rewrite join_rejected with (e := e) by exact Hres.
      unfold resolved_machine. split; [|split; [exact Hres|]].
      * split; [exact Hn|]. split; [exact Hd|]. cbn. intros j tj Hj.
        apply list_lookup_insert_Some in Hj as [(_ & <- & _)|[_ Hj]]; [|exact (Ht _ _ Hj)].
        cbn. split; [exact T1|]. split; [exact T2|]. eauto.
      * cbn. rewrite T1, T2, T3.
        rewrite lookup_insert_ne by apply blob_not_manifest.
        apply lookup_delete_ne. apply temp_not_manifest.
    + split; [|split; [exact Hres | reflexivity]].
      apply (Hupd _ (m_fs m)); cbn; assumption.
Qed.

Lemma run_events_after_rejection (schedule : list nat) (m : Machine) (e : JsError) :
  task_paths dest name m -> m_result m = Rejected e ->
  m_result (run_events schedule m) = Rejected e
  /\ m_fs (run_events schedule m) !! manifest_file dest name
     = m_fs m !! manifest_file dest name.
Proof.
  intros HP Hres.
  assert (H : task_paths dest name (run_events schedule m)
              /\ m_result (run_events schedule m) = Rejected e
              /\ m_fs (run_events schedule m) !! manifest_file dest name
                 = m_fs m !! manifest_file dest name).
  { induction schedule as [|i schedule IH] using rev_ind; [auto|].
    rewrite run_events_snoc. destruct IH as (I1 & I2 & I3).
    destruct (step_after_rejection _ i e I1 I2) as (S1 & S2 & S3).
    split; [exact S1|]. split; congruence. }
  split; apply H.
Qed.

End BundlePaths.

(** The error that [Promise.all] rejects with is a [TypeError], and there
    is one as soon as an element is not a string. *)
Lemma launch_json_error (hwm : nat) (sourceDir : string)
    (st : Machine * option JsError) (l : Json) :
  (forall e, snd st = Some e -> snd (launch_json hwm sourceDir st l) = Some e)
  /\ (snd st = None ->
      (snd (launch_json hwm sourceDir st l) = None /\ exists s, l = JStr s)
      \/ exists msg, snd (launch_json hwm sourceDir st l) = Some (TypeError msg)).
Proof.
  unfold launch_json. split.
  - intros e He. rewrite He.
    destruct (JsonOps.string_conversion_throws l); [reflexivity|].
    destruct l; reflexivity.
  - intros Hn. rewrite Hn.
    destruct (JsonOps.string_conversion_throws l); [right; eauto|].
    destruct l; cbn; eauto.
Qed.

Lemma launch_all_error (hwm : nat) (sourceDir : string) (layers : list Json)
    (st : Machine * option JsError) :
  (forall msg, snd st = Some (TypeError msg) ->
               snd (foldl (launch_json hwm sourceDir) st layers) = Some (TypeError msg))
  /\ (snd st = None -> Exists (fun l => forall s, l <> JStr s) layers ->
      exists msg, snd (foldl (launch_json hwm sourceDir) st layers) = Some (TypeError msg)).
Proof.
  revert st. induction layers as [|l layers IH]; intros st.
  - split; [intros msg H; exact H | intros _ H; inversion H].
  - cbn [foldl]. destruct (launch_json_error hwm sourceDir st l) as [Hkeep Hnew].
    destruct (IH (launch_json hwm sourceDir st l)) as [IH1 IH2].
    split.
    + intros msg H. apply IH1, Hkeep, H.
    + intros Hn Hex. destruct (Hnew Hn) as [[Hnone [s ->]]|[msg Hmsg]].
      * apply IH2; [exact Hnone|]. inversion Hex as [? ? Hl|]; [|assumption].
        destruct (Hl s). reflexivity.
      * exists msg. apply IH1, Hmsg.
Qed.

(** X19.  In a run whose config file is moved (it exists and its digest
    has no separator), when an entry of [Layers] is not a string (as
    [null]), the iteration of that entry throws a [TypeError], which
    [Promise.all] and then [run] reject with: the promise of [run] is
    rejected, and stays so; the layers that are strings are still streamed
    and renamed, but the manifest file is never written. *)
Theorem non_string_layer_rejects (hwm : nat) (random1 random2 : string)
    (fs : gmap string (list byte)) (repositories : Json) (image : string)
    (others : list string) (entry : list (string * Json)) (other_entries : list Json)
    (config : string) (c : list byte) (layers : list Json) :
  parseRepositories (mkdtemp "image2dat_src_" random1) fs = Value repositories ->
  JsonOps.keys repositories = Normal (image :: others) ->
  ~ JsString.contains image "/" ->
  parseManifest (mkdtemp "image2dat_src_" random1) fs
  = Value (JArr (JObj entry :: other_entries)) ->
  JsonOps.lookup_own entry "Config" = Some (JStr config) ->
  ~ JsString.contains (rootLayerSha config) "/" ->
  fs !! (mkdtemp "image2dat_src_" random1 +:+ "/" +:+ config) = Some c ->
  JsonOps.lookup_own entry "Layers" = Some (JArr layers) ->
  Exists (fun l => forall s, l <> JStr s) layers ->
  exists m msg,
    run_bundle hwm random1 random2 fs = Ran m
    /\ forall schedule : list nat,
         m_result (run_events schedule m) = Rejected (TypeError msg)
         /\ m_fs (run_events schedule m)
              !! manifest_file (mkdtemp "image2dat_dest_" random2) image
            = fs !! manifest_file (mkdtemp "image2dat_dest_" random2) image.
Proof.
  intros Hrepo Hkeys Hsep Hman Hconfig Hdigest Hc Hlayers Hex.
  unfold run_bundle. rewrite Hrepo, Hkeys. cbn [head].
  rewrite simplifyName_spec, (proj2 (lastIndexOf_char_neg image "/") Hsep).
  rewrite Hman. cbn [JsonOps.first head JsonOps.named]. rewrite Hconfig.
  destruct (copyRootLayer (mkSourceManifest config []) image
              (mkdtemp "image2dat_src_" random1) (mkdtemp "image2dat_dest_" random2) fs)
    as [[manifest fs']|e] eqn:Hroot.
  2:{ unfold copyRootLayer in Hroot. cbn [Config] in Hroot.
      rewrite rename_blob in Hroot by exact Hdigest.
      rewrite Hc in Hroot. discriminate. }
  rewrite Hlayers.
  pose proof (proj1 (copyRootLayer_fs random1 random2 _ fs _ _ _ Hroot)) as Hfs'.
  set (started := mkMachine fs' image (mkdtemp "image2dat_dest_" random2) manifest
                    [] [] None [] Pending None).
  assert (HP0 : task_paths (mkdtemp "image2dat_dest_" random2) image
                  (fst (started, @None JsError))).
  { split; [reflexivity|]. split; [reflexivity|]. intros i t Hi. discriminate. }
  destruct (launch_all_paths image (mkdtemp "image2dat_dest_" random2) hwm
              (mkdtemp "image2dat_src_" random1) layers (started, None) HP0)
    as (HP & Hfile & _).
  destruct (proj2 (launch_all_error hwm (mkdtemp "image2dat_src_" random1) layers
                     (started, None)) eq_refl Hex) as [msg Hmsg].
  destruct (foldl (launch_json hwm (mkdtemp "image2dat_src_" random1)) (started, None) layers)
    as [m err].
  cbn [fst snd] in HP, Hfile, Hmsg. subst err.
  exists (with_result (Rejected (TypeError msg)) m), msg. split; [reflexivity|].
  intros schedule.
  destruct (run_events_after_rejection image (mkdtemp "image2dat_dest_" random2) schedule
              (with_result (Rejected (TypeError msg)) m) (TypeError msg))
    as [H1 H2]; [exact HP | reflexivity |].
  split; [exact H1|]. rewrite H2. cbn. rewrite Hfile. exact Hfs'.
Qed.

Lemma non_string_layer_rejects_witness :
  (parseRepositories (mkdtemp "image2dat_src_" "A") null_layer_fs
   = Value (JObj [("app", JObj [("latest", JStr "l2")])])
   /\ parseManifest (mkdtemp "image2dat_src_" "A") null_layer_fs
      = Value (JArr [JObj [("Config", JStr "abcd.json");
                           ("RepoTags", JArr [JStr "app:latest"]);
                           ("Layers", JArr [JStr "l1/layer.tar"; JNull])]])
   /\ Exists (fun l => forall s, l <> JStr s) [JStr "l1/layer.tar"; JNull])
  /\ exists m msg,
       run_bundle 1 "A" "B" null_layer_fs = Ran m
       /\ m_result (run_events [0; 0; 0; 0] m) = Rejected (TypeError msg)
       /\ m_fs (run_events [0; 0; 0; 0] m)
            !! manifest_file (mkdtemp "image2dat_dest_" "B") "app" = None.
Proof.
  assert (H1 : parseRepositories (mkdtemp "image2dat_src_" "A") null_layer_fs
               = Value (JObj [("app", JObj [("latest", JStr "l2")])]))
    by (vm_compute; reflexivity).
  assert (H2 : parseManifest (mkdtemp "image2dat_src_" "A") null_layer_fs
               = Value (JArr [JObj [("Config", JStr "abcd.json");
                                    ("RepoTags", JArr [JStr "app:latest"]);
                                    ("Layers", JArr [JStr "l1/layer.tar"; JNull])]]))
    by (vm_compute; reflexivity).
  assert (Hex : Exists (fun l => forall s, l <> JStr s) [JStr "l1/layer.tar"; JNull]).
  { apply Exists_cons_tl, Exists_cons_hd. intros s. discriminate. }
  assert (Hsep : ~ JsString.contains "app" "/") by (vm_compute; intuition discriminate).
  assert (Hdigest : ~ JsString.contains (rootLayerSha "abcd.json") "/")
    by (vm_compute; intuition discriminate).
  assert (Hc : null_layer_fs !! (mkdtemp "image2dat_src_" "A" +:+ "/" +:+ "abcd.json")
               = Some (list_byte_of_string "{}")) by (vm_compute; reflexivity).
  split; [split; [exact H1|split; [exact H2 | exact Hex]]|].
  destruct (non_string_layer_rejects 1 "A" "B" null_layer_fs _ "app" [] _ []
              "abcd.json" (list_byte_of_string "{}") _ H1 eq_refl Hsep H2 eq_refl Hdigest Hc
              eq_refl Hex) as (m & msg & Hrun & Hall).
  exists m, msg. split; [exact Hrun|].
  destruct (Hall [0; 0; 0; 0]) as [Hres Hfile].
  split; [exact Hres|]. rewrite Hfile. vm_compute. reflexivity.
Defined.

(** ** [JSON.parse] reads what [JSON.stringify] wrote *)

Section ParserFacts.

Import JsonParser.

Lemma value_S (f : nat) (l : list ascii) :
  value (S f) l =
  match skip_ws l with
  | [] => SyntaxError
  | c :: t =>
      let n := StringToNumber.code c in
      if (n =? 34)%Z then pmap JStr (string_body t)
      else if (n =? 91)%Z then
        match skip_ws t with
        | c' :: t' =>
            if (StringToNumber.code c' =? 93)%Z then Ok (JArr []) t'
            else pmap JArr (elements f t)
        | [] => SyntaxError
        end
      else if (n =? 123)%Z then
        match skip_ws t with
        | c' :: t' =>
            if (StringToNumber.code c' =? 125)%Z then Ok (JObj []) t'
            else pmap JObj (members f t [])
        | [] => SyntaxError
        end
      else if (n =? 110)%Z then literal "null" JNull (c :: t)
      else if (n =? 116)%Z then literal "true" (JBool true) (c :: t)
      else if (n =? 102)%Z then literal "false" (JBool false) (c :: t)
      else number (c :: t)
  end.
Proof. reflexivity. Qed.

Lemma elements_S (f : nat) (l : list ascii) :
  elements (S f) l =
  match value f l with
  | Ok v rest =>
      match skip_ws rest with
      | c :: t =>
          if (StringToNumber.code c =? 44)%Z then pmap (cons v) (elements f t)
          else if (StringToNumber.code c =? 93)%Z then Ok [v] t
          else SyntaxError
      | [] => SyntaxError
      end
  | SyntaxError => SyntaxError
  | Unmodelled => Unmodelled
  | NoFuel => NoFuel
  end.
Proof. reflexivity. Qed.

Lemma members_S (f : nat) (l : list ascii) (acc : list (string * Json)) :
  members (S f) l acc =
  match skip_ws l with
  | q :: t =>
      if (StringToNumber.code q =? 34)%Z then
        match string_body t with
        | Ok k rest =>
            match skip_ws rest with
            | c :: t' =>
                if (StringToNumber.code c =? 58)%Z then
                  match value f t' with
                  | Ok v rest' =>
                      match skip_ws rest' with
                      | d :: t'' =>
                          if (StringToNumber.code d =? 44)%Z
                          then members f t'' (define acc k v)
                          else if (StringToNumber.code d =? 125)%Z
                          then Ok (define acc k v) t''
                          else SyntaxError
                      | [] => SyntaxError
                      end
                  | SyntaxError => SyntaxError
                  | Unmodelled => Unmodelled
                  | NoFuel => NoFuel
                  end
                else SyntaxError
            | [] => SyntaxError
            end
        | SyntaxError => SyntaxError
        | Unmodelled => Unmodelled
        | NoFuel => NoFuel
        end
      else SyntaxError
  | [] => SyntaxError
  end.
Proof. reflexivity. Qed.

(** The parser undoes the escape of one code unit of ASCII. *)
Lemma string_body_escape (c : ascii) (l : list ascii) :
  ascii7 c = true ->
  string_body (JSON.escape c ++ l) = cons_char c (string_body l).
Proof.
  intros H.
  destruct c as [b0 b1 b2 b3 b4 b5 b6 b7].
  destruct b7, b0, b1, b2, b3, b4, b5, b6;
    first [ reflexivity | vm_compute in H; discriminate H ].
Qed.

(** A string literal written by [JSON.stringify] is read back. *)
Lemma string_body_quote (s : string) (rest : list ascii) :
  forallb ascii7 (JsString.chars s) = true ->
  string_body (flat_map JSON.escape (JsString.chars s) ++ ascii_of_nat 34 :: rest)
  = Ok s rest.
Proof.
  induction s as [|c s IH]; intros H.
  - reflexivity.
  - cbn in H. apply andb_true_iff in H as [Hc Hs].
    cbn [JsString.chars list_ascii_of_string flat_map]. rewrite <- app_assoc.
    rewrite (string_body_escape _ _ Hc). fold (JsString.chars s). rewrite (IH Hs).
    reflexivity.
Qed.

Lemma chars_quote (s : string) :
  JsString.chars (JSON.quote s)
  = ascii_of_nat 34 :: flat_map JSON.escape (JsString.chars s) ++ [ascii_of_nat 34].
Proof.
  unfold JSON.quote. rewrite !chars_app.
  change (JsString.chars (String (ascii_of_nat 34) "")) with [ascii_of_nat 34].
  cbn [app]. f_equal. f_equal. apply chars_of_chars.
Qed.

Lemma value_string (f : nat) (s : string) (rest : list ascii) :
  forallb ascii7 (JsString.chars s) = true ->
  value (S f) (JsString.chars (JSON.quote s) ++ rest) = Ok (JStr s) rest.
Proof.
  intros H. rewrite value_S, chars_quote. cbn [app skip_ws].
  change (is_ws (ascii_of_nat 34)) with false. cbv iota zeta.
  change (StringToNumber.code (ascii_of_nat 34) =? 34)%Z with true. cbv iota.
  rewrite <- app_assoc. cbn [app]. rewrite (string_body_quote _ _ H). reflexivity.
Qed.

(** One member of an object, up to the separator [sep] that follows its
    value. *)
Lemma members_member (f : nat) (k : string) (tv : list ascii) (v : Json) (sep : ascii)
    (rest : list ascii) (acc : list (string * Json)) :
  forallb ascii7 (JsString.chars k) = true ->
  value f (tv ++ sep :: rest) = Ok v (sep :: rest) ->
  is_ws sep = false ->
  members (S f) (JsString.chars (JSON.quote k) ++ ":"%char :: tv ++ sep :: rest) acc
  = if (StringToNumber.code sep =? 44)%Z then members f rest (define acc k v)
    else if (StringToNumber.code sep =? 125)%Z then Ok (define acc k v) rest
    else SyntaxError.
Proof.
  intros Hk Hv Hsep. rewrite members_S, chars_quote. cbn [app skip_ws].
  change (is_ws (ascii_of_nat 34)) with false. cbv iota.
  change (StringToNumber.code (ascii_of_nat 34) =? 34)%Z with true. cbv iota.
  rewrite <- app_assoc. cbn [app]. rewrite (string_body_quote _ _ Hk).
  cbn [skip_ws]. change (is_ws ":") with false. cbv iota.
  change (StringToNumber.code ":" =? 58)%Z with true. cbv iota.
  rewrite Hv. cbn [skip_ws]. rewrite Hsep. reflexivity.
Qed.

(** One element of an array, up to the separator that follows it. *)
Lemma elements_element (f : nat) (tv : list ascii) (v : Json) (sep : ascii)
    (rest : list ascii) :
  value f (tv ++ sep :: rest) = Ok v (sep :: rest) ->
  is_ws sep = false ->
  elements (S f) (tv ++ sep :: rest)
  = if (StringToNumber.code sep =? 44)%Z then pmap (cons v) (elements f rest)
    else if (StringToNumber.code sep =? 93)%Z then Ok [v] rest
    else SyntaxError.
Proof.
  intros Hv Hsep. rewrite elements_S, Hv. cbn [skip_ws]. rewrite Hsep. reflexivity.
Qed.

(** An object whose text starts with a quote. *)
Lemma value_object (f : nat) (t : list ascii) :
  value (S f) ("{"%char :: ascii_of_nat 34 :: t)
  = pmap JObj (members f (ascii_of_nat 34 :: t) []).
Proof. reflexivity. Qed.

End ParserFacts.

Section ManifestParse.

Import JsonParser.

(** An object of two members whose values are strings. *)
Lemma value_object2 (F : nat) (k1 s1 k2 s2 : string) (rest : list ascii) :
  4 <= F ->
  forallb ascii7 (JsString.chars k1) = true ->
  forallb ascii7 (JsString.chars s1) = true ->
  forallb ascii7 (JsString.chars k2) = true ->
  forallb ascii7 (JsString.chars s2) = true ->
  value F ("{"%char :: JsString.chars (JSON.quote k1) ++ ":"%char ::
             JsString.chars (JSON.quote s1) ++ ","%char ::
             JsString.chars (JSON.quote k2) ++ ":"%char ::
             JsString.chars (JSON.quote s2) ++ "}"%char :: rest)
  = Ok (JObj (define (define [] k1 (JStr s1)) k2 (JStr s2))) rest.
Proof.
  intros HF H1 H2 H3 H4.
  destruct F as [|[|[|[|f]]]]; try lia.
  assert (E : value (S (S (S (S f))))
                ("{"%char :: JsString.chars (JSON.quote k1) ++ ":"%char ::
                   JsString.chars (JSON.quote s1) ++ ","%char ::
                   JsString.chars (JSON.quote k2) ++ ":"%char ::
                   JsString.chars (JSON.quote s2) ++ "}"%char :: rest)
              = pmap JObj
                  (members (S (S (S f)))
                     (JsString.chars (JSON.quote k1) ++ ":"%char ::
                        JsString.chars (JSON.quote s1) ++ ","%char ::
                        JsString.chars (JSON.quote k2) ++ ":"%char ::
                        JsString.chars (JSON.quote s2) ++ "}"%char :: rest) [])).
  { rewrite (chars_quote k1). reflexivity. }
  rewrite E.
  rewrite (members_member _ k1 _ (JStr s1) ","%char _ [] H1 (value_string _ _ _ H2) eq_refl).
  change (StringToNumber.code "," =? 44)%Z with true. cbv iota.
  rewrite (members_member _ k2 _ (JStr s2) "}"%char _ _ H3 (value_string _ _ _ H4) eq_refl).
  reflexivity.
Qed.

Lemma layer_chars (c : list byte) (rest : list ascii) :
  JsString.chars (layer_text c) ++ rest
  = "{"%char :: JsString.chars (JSON.quote "MediaType") ++ ":"%char ::
      JsString.chars (JSON.quote LayerType) ++ ","%char ::
      JsString.chars (JSON.quote "Digest") ++ ":"%char ::
      JsString.chars (JSON.quote ("sha256:" +:+ Sha256.hex c)) ++ "}"%char :: rest.
Proof.
  rewrite (quote_plain _ (digest_plain c)). rewrite !quote_plain by reflexivity.
  unfold layer_text, dquote, LayerType. generalize (Sha256.hex c); intros h.
  rewrite ?chars_app; cbn [JsString.chars list_ascii_of_string app];
    repeat (progress (rewrite <- ?app_assoc; cbn [app])); reflexivity.
Qed.

Lemma value_layer (F : nat) (c : list byte) (rest : list ascii) :
  4 <= F ->
  value F (JsString.chars (layer_text c) ++ rest) = Ok (layer_json c) rest.
Proof.
  intros HF. rewrite layer_chars.
  rewrite (value_object2 F "MediaType" LayerType "Digest" ("sha256:" +:+ Sha256.hex c) rest
             HF eq_refl eq_refl eq_refl (digest_ascii7 c)).
  reflexivity.
Qed.

Lemma join_chars (x y : string) (l : list string) :
  JsString.chars (Js.join "," (x :: y :: l))
  = JsString.chars x ++ ","%char :: JsString.chars (Js.join "," (y :: l)).
Proof.
  change (Js.join "," (x :: y :: l)) with (x +:+ "," +:+ Js.join "," (y :: l)).
  rewrite !chars_app. reflexivity.
Qed.

(** The elements of the array of layers. *)
Lemma elements_layers (cs : list (list byte)) :
  cs <> [] ->
  forall (F : nat) (rest : list ascii),
    List.length cs + 4 <= F ->
    elements F (JsString.chars (Js.join "," (layer_text <$> cs)) ++ "]"%char :: rest)
    = Ok (layer_json <$> cs) rest.
Proof.
  induction cs as [|c cs IH]; [congruence|]. intros _ F rest HF.
  destruct F as [|F]; [cbn in HF; lia|]. cbn [List.length] in HF.
  destruct cs as [|c' cs].
  - cbn [fmap list_fmap Js.join].
    rewrite (elements_element F _ (layer_json c) "]"%char rest
               (value_layer F c _ ltac:(cbn in HF; lia)) eq_refl).
    reflexivity.
  - change (layer_text <$> c :: c' :: cs)
      with (layer_text c :: layer_text c' :: (layer_text <$> cs)).
    rewrite join_chars, <- app_assoc. cbn [app].
    rewrite (elements_element F _ (layer_json c) ","%char _
               (value_layer F c _ ltac:(cbn in HF; lia)) eq_refl).
    change (StringToNumber.code "," =? 44)%Z with true. cbv iota.
    change (layer_text c' :: (layer_text <$> cs)) with (layer_text <$> c' :: cs).
    rewrite (IH ltac:(discriminate) F rest ltac:(cbn in HF |- *; lia)).
    reflexivity.
Qed.

(** The array of layers. *)
Lemma value_layers (cs : list (list byte)) (F : nat) (rest : list ascii) :
  List.length cs + 5 <= F ->
  value F ("["%char :: JsString.chars (Js.join "," (layer_text <$> cs)) ++ "]"%char :: rest)
  = Ok (JArr (layer_json <$> cs)) rest.
Proof.
  intros HF. destruct F as [|F]; [lia|].
  destruct cs as [|c cs]; [reflexivity|].
  assert (E : value (S F)
                ("["%char :: JsString.chars (Js.join "," (layer_text <$> c :: cs))
                   ++ "]"%char :: rest)
              = pmap JArr
                  (elements F
                     (JsString.chars (Js.join "," (layer_text <$> c :: cs))
                        ++ "]"%char :: rest))).
  { assert (Ht : exists t, JsString.chars (Js.join "," (layer_text <$> c :: cs))
                             ++ "]"%char :: rest = "{"%char :: t).
    { destruct cs as [|c' cs].
      - cbn [fmap list_fmap Js.join]. rewrite layer_chars. eexists. reflexivity.
      - change (layer_text <$> c :: c' :: cs)
          with (layer_text c :: layer_text c' :: (layer_text <$> cs)).
        rewrite join_chars, <- app_assoc, layer_chars. eexists. reflexivity. }
    destruct Ht as [t ->]. reflexivity. }
  rewrite E, elements_layers; [reflexivity|discriminate|cbn in HF |- *; lia].
Qed.

Lemma manifest_chars (config : string) (cs : list (list byte)) :
  JsString.chars (manifest_text config cs)
  = "{"%char :: JsString.chars (JSON.quote "SchemaVersion") ++ ":"%char ::
      ["2"%char] ++ ","%char ::
      JsString.chars (JSON.quote "MediaType") ++ ":"%char ::
      JsString.chars (JSON.quote ManifestType) ++ ","%char ::
      JsString.chars (JSON.quote "Config") ++ ":"%char ::
      config_chars config ++ ","%char ::
      JsString.chars (JSON.quote "Layers") ++ ":"%char ::
      ("["%char :: JsString.chars (Js.join "," (layer_text <$> cs)) ++ ["]"%char])
      ++ "}"%char :: [].
Proof.
  unfold config_chars.
  rewrite !(quote_plain "SchemaVersion"), !(quote_plain "MediaType"),
    !(quote_plain "Config"), !(quote_plain "Digest"), !(quote_plain "Layers"),
    !(quote_plain ManifestType), !(quote_plain ConfigType) by reflexivity.
  unfold manifest_text, dquote, ManifestType, ConfigType.
  generalize (JSON.quote ("sha256:" +:+ rootLayerSha config)); intros q.
  generalize (Js.join "," (layer_text <$> cs)); intros ls.
  rewrite ?chars_app; cbn [JsString.chars list_ascii_of_string app];
    repeat (progress (rewrite <- ?app_assoc; cbn [app])); reflexivity.
Qed.

Lemma value_config (F : nat) (config : string) (rest : list ascii) :
  4 <= F ->
  forallb ascii7 (JsString.chars config) = true ->
  value F (config_chars config ++ rest)
  = Ok (JObj [("MediaType", JStr ConfigType);
              ("Digest", JStr ("sha256:" +:+ rootLayerSha config))]) rest.
Proof.
  intros HF H. unfold config_chars.
  cbn [app]. repeat (progress (rewrite <- ?app_assoc; cbn [app])).
  rewrite (value_object2 F "MediaType" ConfigType "Digest"
             ("sha256:" +:+ rootLayerSha config) rest
             HF eq_refl eq_refl eq_refl (rootLayerSha_ascii7 _ H)).
  reflexivity.
Qed.

Lemma join_layers_length (cs : list (list byte)) :
  List.length cs <= List.length (JsString.chars (Js.join "," (layer_text <$> cs))).
Proof.
  induction cs as [|c cs IH]; [cbn; lia|].
  destruct cs as [|c' cs].
  - cbn [fmap list_fmap Js.join]. pose proof (layer_chars c []) as E.
    rewrite app_nil_r in E. rewrite E. cbn. lia.
  - change (layer_text <$> c :: c' :: cs)
      with (layer_text c :: layer_text c' :: (layer_text <$> cs)).
    rewrite join_chars, List.length_app.
    change (layer_text c' :: (layer_text <$> cs)) with (layer_text <$> c' :: cs).
    pose proof (layer_chars c []) as E. rewrite app_nil_r in E. rewrite E.
    cbn [List.length] in IH |- *. lia.
Qed.

Lemma value_layers_text (cs : list (list byte)) (F : nat) (rest : list ascii) :
  List.length cs + 5 <= F ->
  value F (("["%char :: JsString.chars (Js.join "," (layer_text <$> cs)) ++ ["]"%char])
             ++ rest)
  = Ok (JArr (layer_json <$> cs)) rest.
Proof.
  intros HF. cbn [app]. rewrite <- app_assoc. cbn [app]. apply value_layers, HF.
Qed.

Lemma value_two (f : nat) (rest : list ascii) :
  value (S f) (["2"%char] ++ ","%char :: rest) = Ok (JNum "2") (","%char :: rest).
Proof. reflexivity. Qed.

(** [JSON.parse] of the text of a manifest. *)
Lemma parse_manifest_text (config : string) (cs : list (list byte)) :
  forallb ascii7 (JsString.chars config) = true ->
  parse (manifest_text config cs) = Value (manifest_json config cs).
Proof.
  intros H. unfold parse. fold (JsString.chars (manifest_text config cs)).
  assert (HF : List.length cs + 10
               <= 2 * List.length (JsString.chars (manifest_text config cs)) + 2).
  { rewrite manifest_chars.
    repeat (progress (cbn [List.length]; rewrite ?List.length_app)).
    pose proof (join_layers_length cs). lia. }
  revert HF. generalize (2 * List.length (JsString.chars (manifest_text config cs)) + 2).
  intros F HF. rewrite manifest_chars.
  destruct F as [|F1]; [lia|]. destruct F1 as [|F2]; [lia|].
  destruct F2 as [|F3]; [lia|]. destruct F3 as [|F4]; [lia|].
  destruct F4 as [|F5]; [lia|].
  assert (E : forall t,
             value (S (S (S (S (S F5)))))
               ("{"%char :: JsString.chars (JSON.quote "SchemaVersion") ++ t)
             = pmap JObj
                 (members (S (S (S (S F5))))
                    (JsString.chars (JSON.quote "SchemaVersion") ++ t) [])).
  { intros t. reflexivity. }
  rewrite E.
  rewrite (members_member _ "SchemaVersion" _ (JNum "2") ","%char _ [] eq_refl
             (value_two _ _) eq_refl).
  change (StringToNumber.code "," =? 44)%Z with true. cbv iota.
  rewrite (members_member _ "MediaType" _ (JStr ManifestType) ","%char _ _ eq_refl
             (value_string _ ManifestType _ eq_refl) eq_refl).
  change (StringToNumber.code "," =? 44)%Z with true. cbv iota.
  rewrite (members_member _ "Config" _ _ ","%char _ _ eq_refl
             (value_config (S F5) config _ ltac:(lia) H) eq_refl).
  change (StringToNumber.code "," =? 44)%Z with true. cbv iota.
  rewrite (members_member _ "Layers" _ _ "}"%char _ _ eq_refl
             (value_layers_text cs F5 _ ltac:(lia)) eq_refl).
  reflexivity.
Qed.

End ManifestParse.


